(** * vanna: a shallow embedding of [src/vanna/__init__.py]

    The module is a thin client: process-wide session fields, two JSON-RPC
    transports, one function per remote operation, the [ask] pipeline and
    three database connector helpers.  Everything the module does not own
    (the HTTP server, the database drivers, pandas, plotly, the terminal, the
    file system) is an oracle of the environment [Env]; every call to an
    oracle is recorded in the trace of the world, most recent event first,
    and the oracle sees the trace so far, so that an environment may answer
    the same call differently over time. *)

From Stdlib Require Import String Ascii List ZArith Bool Lia.
Import ListNotations.
Open Scope string_scope.

Set Warnings "-register-all".

(** ** Python values that travel as JSON *)

(** The value of [json.loads] and the argument of [json.dumps]: numbers are
    the integers (the module builds no other), objects keep insertion order
    as Python dicts do. *)
Inductive json : Type :=
| JNull
| JBool (b : bool)
| JNum (n : Z)
| JStr (s : string)
| JList (items : list json)
| JObj (fields : list (string * json)).

Definition JFalse : json := JBool false.

(** [None] for an optional string argument. *)
Definition opt_json (o : option string) : json :=
  match o with
  | Some s => JStr s
  | None => JNull
  end.

(** ** Exceptions *)

Inductive exn : Type :=
| ImproperlyConfigured (msg : string)
| DependencyError (msg : string)
| ConnectionError (msg : string)
| OtpCodeError (msg : string)
| SQLRemoveError (msg : string)
| ValidationError (msg : string)
| ValidationErrorOf (cause : exn)      (* ValidationError(e) *)
| TypeError (msg : string)
| KeyError (key : string)
| IndexError (msg : string)
| AttributeError (msg : string)
| Psycopg2Error (msg : string)          (* psycopg2.Error and its subclasses *)
| GoogleAPIError (errors : option (list json))
                                        (* [errors]: the attribute, when present *)
| Exception (msg : string)              (* any other subclass of Exception *)
| KeyboardInterrupt.                    (* a BaseException outside Exception *)

(** What [except Exception] catches. *)
Definition is_Exception (e : exn) : bool :=
  match e with
  | KeyboardInterrupt => false
  | _ => true
  end.

Definition is_psycopg2_Error (e : exn) : bool :=
  match e with
  | Psycopg2Error _ => true
  | _ => false
  end.

Inductive outcome (A : Type) : Type :=
| Raise (e : exn)
| Return (a : A).

Arguments Raise {A} e.
Arguments Return {A} a.

Definition raised {A} (o : outcome A) : bool :=
  match o with
  | Raise _ => true
  | Return _ => false
  end.

(** ** Built-in operations on JSON values *)

Definition is_str (key : string) (v : json) : bool :=
  match v with
  | JStr s => String.eqb s key
  | _ => false
  end.

Fixpoint assoc (key : string) (kv : list (string * json)) : option json :=
  match kv with
  | [] => None
  | (k, v) :: rest => if String.eqb k key then Some v else assoc key rest
  end.

Definition has_key (key : string) (kv : list (string * json)) : bool :=
  match assoc key kv with
  | Some _ => true
  | None => false
  end.

Definition substring_of (key s : string) : bool :=
  match String.index 0 key s with
  | Some _ => true
  | None => false
  end.

(** [key in d] *)
Definition py_in (key : string) (d : json) : outcome bool :=
  match d with
  | JObj kv => Return (has_key key kv)
  | JList l => Return (existsb (is_str key) l)
  | JStr s => Return (substring_of key s)
  | _ => Raise (TypeError "argument is not iterable")
  end.

(** [d[key]] for a string key *)
Definition py_getitem (d : json) (key : string) : outcome json :=
  match d with
  | JObj kv =>
      match assoc key kv with
      | Some v => Return v
      | None => Raise (KeyError key)
      end
  | JList _ => Raise (TypeError "list indices must be integers or slices, not str")
  | JStr _ => Raise (TypeError "string indices must be integers")
  | _ => Raise (TypeError "object is not subscriptable")
  end.

(** [len(v)] *)
Definition py_len (v : json) : outcome nat :=
  match v with
  | JStr s => Return (String.length s)
  | JList l => Return (List.length l)
  | JObj kv => Return (List.length kv)
  | _ => Raise (TypeError "object has no len()")
  end.

(** Truth value of [v] in an [if]. *)
Definition truthy (v : json) : bool :=
  match v with
  | JNull => false
  | JBool b => b
  | JNum n => negb (Z.eqb n 0)
  | JStr s => negb (String.eqb s EmptyString)
  | JList l => negb (Nat.eqb (List.length l) 0)
  | JObj kv => negb (Nat.eqb (List.length kv) 0)
  end.

Definition truthy_str (o : option string) : bool := truthy (opt_json o).

(** ** Typed records *)

(** The parameter records this module builds, with the fields of their
    constructor calls.  A field holds whatever Python value is passed. *)
Inductive param : Type :=
| UserEmail (email : json)
| UserOTP (email otp : json)
| NewOrganization (org_name db_type : json)
| NewOrganizationMember (org_name email is_admin : json)
| Visibility (visibility : json)
| Organization (name user connection : json)
| QuestionSQLPair (question sql tag : json)
| StringData (data : json)
| QuestionCategory (question category : json)
| Question (question : json)
| DataResult (question sql table_markdown error correction_attempts : json)
| SQLAnswer (raw_answer prefix postfix sql : json).

(** [__dataclass_to_dict]: [dataclasses.asdict], one entry per field. *)
Definition dataclass_to_dict (obj : param) : json :=
  match obj with
  | UserEmail email => JObj [("email", email)]
  | UserOTP email otp => JObj [("email", email); ("otp", otp)]
  | NewOrganization org_name db_type =>
      JObj [("org_name", org_name); ("db_type", db_type)]
  | NewOrganizationMember org_name email is_admin =>
      JObj [("org_name", org_name); ("email", email); ("is_admin", is_admin)]
  | Visibility visibility => JObj [("visibility", visibility)]
  | Organization name user connection =>
      JObj [("name", name); ("user", user); ("connection", connection)]
  | QuestionSQLPair question sql tag =>
      JObj [("question", question); ("sql", sql); ("tag", tag)]
  | StringData data => JObj [("data", data)]
  | QuestionCategory question category =>
      JObj [("question", question); ("category", category)]
  | Question question => JObj [("question", question)]
  | DataResult question sql table_markdown error correction_attempts =>
      JObj [("question", question); ("sql", sql);
            ("table_markdown", table_markdown); ("error", error);
            ("correction_attempts", correction_attempts)]
  | SQLAnswer raw_answer prefix postfix sql =>
      JObj [("raw_answer", raw_answer); ("prefix", prefix);
            ("postfix", postfix); ("sql", sql)]
  end.

(** Modelled from the spec: the record declarations of [vanna/types.py] are
    not under src/; the spec has them as plain data records mapped one-to-one
    onto RPC results.  [Cls( **v)] therefore takes a mapping with exactly the
    fields of the record, the fields being the attributes this module reads
    (and, for [Status], the [message] it formats), and raises [TypeError]
    otherwise. *)
Fixpoint required (fields : list string) (kv : list (string * json))
  : outcome (list json) :=
  match fields with
  | [] => Return []
  | f :: rest =>
      match assoc f kv with
      | None => Raise (TypeError "missing required argument")
      | Some v =>
          match required rest kv with
          | Raise e => Raise e
          | Return vs => Return (v :: vs)
          end
      end
  end.

Definition known (fields : list string) (kv : list (string * json)) : bool :=
  forallb (fun entry => existsb (String.eqb (fst entry)) fields) kv.

Definition init_kwargs (fields : list string) (v : json) : outcome (list json) :=
  match v with
  | JObj kv =>
      if known fields kv then required fields kv
      else Raise (TypeError "got an unexpected keyword argument")
  | _ => Raise (TypeError "argument after ** must be a mapping")
  end.

(** The result records and their fields. *)
Inductive cls : Type :=
| Status_ | SQLAnswer_ | Question_ | OrganizationList_ | QuestionStringList_
| PlotlyResult_ | Explanation_ | ApiKey_ | DataFrameJSON_.

Definition cls_fields (c : cls) : list string :=
  match c with
  | Status_ => ["success"; "message"]
  | SQLAnswer_ => ["raw_answer"; "prefix"; "postfix"; "sql"]
  | Question_ => ["question"]
  | OrganizationList_ => ["organizations"]
  | QuestionStringList_ => ["questions"]
  | PlotlyResult_ => ["plotly_code"]
  | Explanation_ => ["explanation"]
  | ApiKey_ => ["key"]
  | DataFrameJSON_ => ["data"]
  end.

(** An instance: the values of the fields, in the order of [cls_fields]. *)
Definition instance : Type := list json.

Definition construct (c : cls) (v : json) : outcome instance :=
  init_kwargs (cls_fields c) v.

(** [obj.field], the [i]-th field of the record. *)
Definition attr (i : nat) (obj : instance) : json := nth i obj JNull.

Definition success : instance -> json := attr 0.
Definition message : instance -> json := attr 1.
Definition sql_of : instance -> json := attr 3.
Definition only_field : instance -> json := attr 0.

(** ** The world outside the module *)

Definition Conn : Type := nat.
Definition Cursor : Type := nat.
Definition Figure : Type := nat.
Definition Credentials : Type := nat.

Record DataFrame : Type := {
  df_columns : list json;
  df_rows : list (list json)
}.

(** [df.head()] *)
Definition head (df : DataFrame) : DataFrame :=
  {| df_columns := df_columns df; df_rows := firstn 5 (df_rows df) |}.

(** [len(df)] when [df] may be [None] *)
Definition len_df (df : option DataFrame) : outcome nat :=
  match df with
  | Some d => Return (List.length (df_rows d))
  | None => Raise (TypeError "object of type 'NoneType' has no len()")
  end.

Record Request : Type := {
  url : string;
  headers : list (string * string);
  body : json          (* the document handed to [json.dumps] *)
}.

(** What a cursor holds after [execute]. *)
Record QueryResult : Type := {
  fetchall : outcome (list (list json));
  description : option (list (list json))
}.

Inductive port_value : Type :=
| PortInt (n : Z)
| PortStr (s : string).

Inductive Stage : Type :=
| GenerateQuery | ExecuteQuery | GenerateChart | GenerateFollowups.

Inductive Event : Type :=
| EvPost (req : Request)                       (* requests.post *)
| EvInit (c : cls) (kwargs : json)             (* Cls( **kwargs) *)
| EvInput (prompt : string)                    (* input(prompt) *)
| EvToMarkdown (df : DataFrame)
| EvDisplay (df : option DataFrame)
| EvExec (code : string) (df : option DataFrame)
| EvUpdateLayout (fig : Figure)
| EvShow (fig : Figure)
| EvReadJson (data : json)                     (* pd.read_json *)
| EvValidatePath (path : string)
| EvLoadJson (path : string)                   (* open + json.load *)
| EvSqlStatements (path : string)              (* open + sqlparse.split *)
| EvSnowflakeConnect (user password account database : string)
| EvCredentials (path : string)
| EvBigqueryClient (project : string) (cred : Credentials)
| EvPsycopg2Connect (host dbname user password : string) (port : port_value)
| EvCursor (conn : Conn)
| EvExecute (cur : Cursor) (sql : json)
| EvFetchall (cur : QueryResult)               (* cur.fetchall() *)
| EvQuery (conn : Conn) (sql : json)           (* conn.query(sql).result().to_dataframe() *)
| EvDataFrame (rows : list (list json)) (columns : list json)
| EvUserRunSql (sql : json)                    (* a run_sql supplied by the caller *)
| EvEnter (s : Stage)                          (* ask enters a pipeline stage *)
| EvDone (s : Stage).                          (* the stage returned *)

Definition Trace : Type := list Event.

(** The environment: each oracle is given the trace so far. *)
Record Env : Type := {
  post : Trace -> Request -> outcome json;     (* requests.post(...).json() *)
  input : Trace -> string -> outcome string;
  environ : string -> option string;           (* os.environ *)
  to_markdown : Trace -> DataFrame -> outcome string;
  display : Trace -> option DataFrame -> outcome unit;
  exec : Trace -> string -> option DataFrame -> outcome (option Figure);
                                               (* exec, then ldict.get('fig') *)
  update_layout : Trace -> Figure -> outcome unit;
  show : Trace -> Figure -> outcome unit;
  read_json : Trace -> json -> outcome DataFrame;
  validate_config_path : Trace -> string -> outcome unit;
  load_json : Trace -> string -> outcome json;
  sql_statements : Trace -> string -> outcome (list string);
  has_snowflake : bool;                        (* the driver can be imported *)
  has_bigquery : bool;
  has_psycopg2 : bool;
  snowflake_connect : Trace -> string -> string -> string -> string -> outcome Conn;
  service_account_credentials : Trace -> string -> outcome Credentials;
  bigquery_Client : Trace -> string -> Credentials -> outcome Conn;
  psycopg2_connect :
    Trace -> string -> string -> string -> string -> port_value -> outcome Conn;
  cursor : Trace -> Conn -> outcome Cursor;
  execute : Trace -> Cursor -> json -> outcome QueryResult;
  query : Trace -> Conn -> json -> outcome DataFrame;
  pd_DataFrame : Trace -> list (list json) -> list json -> outcome DataFrame;
  py_str : json -> string;                     (* the text an f-string inserts *)
  py_str_answer :
    json * option DataFrame * option Figure * json -> string
}.

(** The value of the global [run_sql]: one of the three closures of the
    connector helpers, with what they capture, or a function of the caller.
    A function of the caller, like the chart code that [exec] runs, is taken
    to answer without assigning the globals of this module. *)
Inductive RunSql : Type :=
| run_sql_snowflake (conn : Conn) (role : option string) (database : string)
| run_sql_bigquery (conn : option Conn)
| run_sql_postgres (conn : option Conn)
| run_sql_user (f : Trace -> json -> outcome (option DataFrame)).

(** The module globals and the trace of the interaction. *)
Record World : Type := {
  api_key : option string;
  org : option string;                         (* __org *)
  run_sql : option RunSql;
  trace : Trace
}.

(** ** The monad of the module: state and exceptions *)

Definition M (A : Type) : Type := World -> outcome A * World.

Definition ret {A} (a : A) : M A := fun w => (Return a, w).

Definition raise {A} (e : exn) : M A := fun w => (Raise e, w).

Definition bind {A B} (m : M A) (k : A -> M B) : M B :=
  fun w =>
    match m w with
    | (Raise e, w') => (Raise e, w')
    | (Return a, w') => k a w'
    end.

Declare Scope py_scope.
Delimit Scope py_scope with py.
Notation "x <- m ;; k" := (bind m (fun x => k))
  (at level 61, m at next level, right associativity) : py_scope.
Notation "m ;; k" := (bind m (fun _ => k))
  (at level 61, right associativity) : py_scope.
Open Scope py_scope.

Definition lift {A} (o : outcome A) : M A := fun w => (o, w).

(** [try: body except Exception as e: handler(e)] *)
Definition try_except {A} (body : M A) (handler : exn -> M A) : M A :=
  fun w =>
    match body w with
    | (Raise e, w') => if is_Exception e then handler e w' else (Raise e, w')
    | r => r
    end.

(** [try: body except: handler] *)
Definition try_bare {A} (body : M A) (handler : M A) : M A :=
  fun w =>
    match body w with
    | (Raise _, w') => handler w'
    | r => r
    end.

(** [try: body except Cls as e: handler(e)] for the class recognised by [catches]. *)
Definition try_class {A} (catches : exn -> bool) (body : M A) (handler : exn -> M A)
  : M A :=
  fun w =>
    match body w with
    | (Raise e, w') => if catches e then handler e w' else (Raise e, w')
    | r => r
    end.

Definition when (b : bool) (m : M unit) : M unit :=
  if b then m else ret tt.

Definition log (ev : Event) : M unit :=
  fun w =>
    (Return tt,
     {| api_key := api_key w; org := org w; run_sql := run_sql w;
        trace := ev :: trace w |}).

(** A call to an oracle: record it, then take the oracle's answer at the
    trace before the call. *)
Definition call {A} (ev : Event) (oracle : Trace -> outcome A) : M A :=
  fun w =>
    (oracle (trace w),
     {| api_key := api_key w; org := org w; run_sql := run_sql w;
        trace := ev :: trace w |}).

Definition get_api_key_global : M (option string) := fun w => (Return (api_key w), w).
Definition get_org : M (option string) := fun w => (Return (org w), w).
Definition get_run_sql : M (option RunSql) := fun w => (Return (run_sql w), w).

Definition set_api_key_global (k : option string) : M unit :=
  fun w =>
    (Return tt,
     {| api_key := k; org := org w; run_sql := run_sql w; trace := trace w |}).

Definition set_org_global (o : option string) : M unit :=
  fun w =>
    (Return tt,
     {| api_key := api_key w; org := o; run_sql := run_sql w; trace := trace w |}).

Definition set_run_sql (f : RunSql) : M unit :=
  fun w =>
    (Return tt,
     {| api_key := api_key w; org := org w; run_sql := Some f; trace := trace w |}).

(** [Cls( **v)] *)
Definition init (c : cls) (v : json) : M instance :=
  log (EvInit c v) ;; lift (construct c v).

Definition nl : string := String (ascii_of_nat 10) EmptyString.

Definition _endpoint : string := "https://ask.vanna.ai/rpc".
Definition _unauthenticated_endpoint : string :=
  "https://ask.vanna.ai/unauthenticated_rpc".

(** The [data] dictionary of both transports. *)
Definition rpc_data (method : string) (params : list param) : json :=
  JObj [("method", JStr method);
        ("params", JList (map dataclass_to_dict params))].

Section Vanna.

Variable env : Env.

(** Class attributes of [QuestionCategory], declared in [vanna/types.py]. *)
Variable SQL_RAN : string.
Variable FLAGGED_FOR_REVIEW : string.

(** *** RPC transport *)

Definition __unauthenticated_rpc_call (method : string) (params : list param)
  : M json :=
  let headers := [("Content-Type", "application/json")] in
  let data := rpc_data method params in
  let req := {| url := _unauthenticated_endpoint; headers := headers;
                body := data |} in
  call (EvPost req) (fun tr => post env tr req).

Definition __rpc_call (method : string) (params : list param) : M json :=
  key <- get_api_key_global ;;
  o <- get_org ;;
  match key with
  | None =>
      raise (ImproperlyConfigured
               "API key not set. Use vn.get_api_key(...) to get an API key.")
  | Some key =>
      match o, String.eqb method "list_orgs" with
      | None, false =>
          raise (ImproperlyConfigured
                   "Dataset not set. Use vn.set_dataset(...) to set the dataset to use.")
      | Some o, false =>
          let headers := [("Content-Type", "application/json");
                          ("Vanna-Key", key); ("Vanna-Org", o)] in
          let data := rpc_data method params in
          let req := {| url := _endpoint; headers := headers; body := data |} in
          call (EvPost req) (fun tr => post env tr req)
      | _, true =>
          let headers := [("Content-Type", "application/json");
                          ("Vanna-Key", key); ("Vanna-Org", "demo-tpc-h")] in
          let data := rpc_data method params in
          let req := {| url := _endpoint; headers := headers; body := data |} in
          call (EvPost req) (fun tr => post env tr req)
      end
  end.

(** ['result' not in d] *)
Definition result_missing (d : json) : M bool :=
  has <- lift (py_in "result" d) ;;
  ret (negb has).

(** [d['result']] *)
Definition result_of (d : json) : M json := lift (py_getitem d "result").

(** *** Session and dataset operations *)

Definition get_api_key (email : string) (otp_code : option string) : M json :=
  match environ env "VANNA_API_KEY" with
  | Some vanna_api_key => ret (JStr vanna_api_key)
  | None =>
      if String.eqb email "my-email@example.com" then
        raise (ValidationError
                 "Please replace 'my-email@example.com' with your email address.")
      else
        otp_code <-
          match otp_code with
          | Some otp => ret otp
          | None =>
              d <- __unauthenticated_rpc_call "send_otp" [UserEmail (JStr email)] ;;
              missing <- result_missing d ;;
              if missing then raise (OtpCodeError "Error sending OTP code.")
              else
                r <- result_of d ;;
                status <- init Status_ r ;;
                if negb (truthy (success status)) then
                  raise (OtpCodeError
                           ("Error sending OTP code: " ++ py_str env (message status)))
                else
                  call (EvInput "Check your email for the code and enter it here: ")
                       (fun tr => input env tr
                          "Check your email for the code and enter it here: ")
          end ;;
        d <- __unauthenticated_rpc_call "verify_otp"
               [UserOTP (JStr email) (JStr otp_code)] ;;
        missing <- result_missing d ;;
        if missing then raise (OtpCodeError "Error verifying OTP code.")
        else
          r <- result_of d ;;
          key <- init ApiKey_ r ;;
          ret (only_field key)
  end.

Definition get_datasets : M json :=
  d <- __rpc_call "list_orgs" [] ;;
  missing <- result_missing d ;;
  if missing then ret (JList [])
  else
    r <- result_of d ;;
    orgs <- init OrganizationList_ r ;;
    ret (only_field orgs).

Definition set_api_key (key : string) : M unit :=
  set_api_key_global (Some key) ;;
  datasets <- get_datasets ;;
  n <- lift (py_len datasets) ;;
  if Nat.eqb n 0 then
    raise (ConnectionError
             "There was an error communicating with the Vanna.AI API. Please try again or contact support@vanna.ai")
  else ret tt.

Definition create_dataset (dataset db_type : string) : M json :=
  o <- get_org ;;
  when (match o with None => true | Some _ => false end)
       (set_org_global (Some "demo-tpc-h")) ;;
  d <- __rpc_call "create_org" [NewOrganization (JStr dataset) (JStr db_type)] ;;
  missing <- result_missing d ;;
  if missing then ret JFalse
  else
    r <- result_of d ;;
    status <- init Status_ r ;;
    when (truthy (success status)) (set_org_global (Some dataset)) ;;
    ret (success status).

Definition add_user_to_dataset (dataset email : string) (is_admin : bool)
  : M json :=
  d <- __rpc_call "add_user_to_org"
         [NewOrganizationMember (JStr dataset) (JStr email) (JBool is_admin)] ;;
  missing <- result_missing d ;;
  if missing then ret JFalse
  else
    r <- result_of d ;;
    status <- init Status_ r ;;
    ret (success status).

Definition update_dataset_visibility (public : bool) : M json :=
  d <- __rpc_call "set_org_visibility" [Visibility (JBool public)] ;;
  missing <- result_missing d ;;
  if missing then ret JFalse
  else
    r <- result_of d ;;
    status <- init Status_ r ;;
    ret (success status).

Definition _set_org (o : string) : M unit :=
  my_orgs <- get_datasets ;;
  member <- lift (py_in o my_orgs) ;;
  if negb member then
    d <- __unauthenticated_rpc_call "check_org_exists"
           [Organization (JStr o) JNull JNull] ;;
    missing <- result_missing d ;;
    if missing then raise (ValidationError "Failed to check if dataset exists")
    else
      r <- result_of d ;;
      status <- init Status_ r ;;
      if truthy (success status) then
        raise (ValidationError
                 ("An organization with the name " ++ o ++ " already exists"))
      else
        create <- call (EvInput ("Would you like to create dataset '" ++ o
                                   ++ "'? (y/n): "))
                       (fun tr => input env tr
                          ("Would you like to create dataset '" ++ o
                             ++ "'? (y/n): ")) ;;
        if orb (String.eqb create "y") (String.eqb create "Y") then
          db_type <-
            call (EvInput "What type of database would you like to use? (Snowflake, BigQuery, Postgres, etc.): ")
                 (fun tr => input env tr
                    "What type of database would you like to use? (Snowflake, BigQuery, Postgres, etc.): ") ;;
          created <- create_dataset o db_type ;;
          if truthy created then set_org_global (Some o)
          else
            set_org_global None ;;
            raise (ValidationError "Failed to create dataset")
        else ret tt
  else set_org_global (Some o).

Definition set_dataset (dataset : string) : M unit :=
  if String.eqb dataset "my-dataset" then
    match environ env "VANNA_DATASET" with
    | Some env_dataset => _set_org env_dataset
    | None =>
        raise (ValidationError
                 "Please replace 'my-dataset' with the name of your dataset")
    end
  else _set_org dataset.

(** *** Training data *)

Definition add_sql (question sql tag : json) : M json :=
  d <- __rpc_call "store_sql" [QuestionSQLPair question sql tag] ;;
  missing <- result_missing d ;;
  if missing then ret JFalse
  else
    r <- result_of d ;;
    status <- init Status_ r ;;
    ret (success status).

Definition add_ddl (ddl : json) : M json :=
  d <- __rpc_call "store_ddl" [StringData ddl] ;;
  missing <- result_missing d ;;
  if missing then ret JFalse
  else
    r <- result_of d ;;
    status <- init Status_ r ;;
    ret (success status).

Definition add_documentation (documentation : json) : M json :=
  d <- __rpc_call "store_documentation" [StringData documentation] ;;
  missing <- result_missing d ;;
  if missing then ret JFalse
  else
    r <- result_of d ;;
    status <- init Status_ r ;;
    ret (success status).

Definition flag_sql_for_review (question : json) : M json :=
  d <- __rpc_call "set_accuracy_category"
         [QuestionCategory question (JStr FLAGGED_FOR_REVIEW)] ;;
  missing <- result_missing d ;;
  if missing then ret JFalse
  else
    r <- result_of d ;;
    status <- init Status_ r ;;
    ret (success status).

Definition remove_sql (question : json) : M json :=
  d <- __rpc_call "remove_sql" [Question question] ;;
  missing <- result_missing d ;;
  if missing then raise (SQLRemoveError "Error removing SQL")
  else
    r <- result_of d ;;
    status <- init Status_ r ;;
    if negb (truthy (success status)) then
      raise (SQLRemoveError ("Error removing SQL: " ++ py_str env (message status)))
    else ret (success status).

Definition remove_training_data (id : json) : M json :=
  d <- __rpc_call "remove_training_data" [StringData id] ;;
  missing <- result_missing d ;;
  if missing then raise (Exception "Error removing training data")
  else
    r <- result_of d ;;
    status <- init Status_ r ;;
    if negb (truthy (success status)) then
      raise (Exception
               ("Error removing training data: " ++ py_str env (message status)))
    else ret (success status).

(** *** Generators *)

Definition generate_sql (question : json) : M json :=
  d <- __rpc_call "generate_sql_from_question" [Question question] ;;
  missing <- result_missing d ;;
  if missing then ret JNull
  else
    r <- result_of d ;;
    sql_answer <- init SQLAnswer_ r ;;
    ret (sql_of sql_answer).

(** [df.head().to_markdown()] *)
Definition head_markdown (df : option DataFrame) : M string :=
  match df with
  | None => raise (AttributeError "'NoneType' object has no attribute 'head'")
  | Some d => call (EvToMarkdown (head d)) (fun tr => to_markdown env tr (head d))
  end.

Definition generate_followup_questions (question : json) (df : option DataFrame)
  : M json :=
  table_markdown <- head_markdown df ;;
  d <- __rpc_call "generate_followup_questions"
         [DataResult question JNull (JStr table_markdown) JNull (JNum 0)] ;;
  missing <- result_missing d ;;
  if missing then ret JNull
  else
    r <- result_of d ;;
    question_string_list <- init QuestionStringList_ r ;;
    ret (only_field question_string_list).

Definition generate_questions : M json :=
  d <- __rpc_call "generate_questions" [] ;;
  missing <- result_missing d ;;
  if missing then ret JNull
  else
    r <- result_of d ;;
    question_string_list <- init QuestionStringList_ r ;;
    ret (only_field question_string_list).

Definition generate_plotly_code (question sql : json) (df : option DataFrame)
  : M json :=
  table_markdown <- head_markdown df ;;
  d <- __rpc_call "generate_plotly_code"
         [DataResult question sql (JStr table_markdown) JNull (JNum 0)] ;;
  missing <- result_missing d ;;
  if missing then ret JNull
  else
    r <- result_of d ;;
    plotly_code <- init PlotlyResult_ r ;;
    ret (only_field plotly_code).

Definition get_plotly_figure (plotly_code : json) (df : option DataFrame)
  (dark_mode : bool) : M (option Figure) :=
  match plotly_code with
  | JStr code =>
      fig <- call (EvExec code df) (fun tr => exec env tr code df) ;;
      match fig with
      | None => ret None
      | Some f =>
          when dark_mode
               (call (EvUpdateLayout f) (fun tr => update_layout env tr f)) ;;
          ret (Some f)
      end
  | _ => raise (TypeError "exec() arg 1 must be a string, bytes or code object")
  end.

Definition generate_explanation (sql : json) : M json :=
  d <- __rpc_call "generate_explanation"
         [SQLAnswer (JStr EmptyString) (JStr EmptyString) (JStr EmptyString) sql] ;;
  missing <- result_missing d ;;
  if missing then ret JNull
  else
    r <- result_of d ;;
    explanation <- init Explanation_ r ;;
    ret (only_field explanation).

Definition generate_question (sql : json) : M json :=
  d <- __rpc_call "generate_question"
         [SQLAnswer (JStr EmptyString) (JStr EmptyString) (JStr EmptyString) sql] ;;
  missing <- result_missing d ;;
  if missing then ret JNull
  else
    r <- result_of d ;;
    question <- init Question_ r ;;
    ret (only_field question).

Definition get_all_questions : M (option DataFrame) :=
  d <- __rpc_call "get_all_questions" [] ;;
  missing <- result_missing d ;;
  if missing then ret None
  else
    r <- result_of d ;;
    all_questions <- init DataFrameJSON_ r ;;
    df <- call (EvReadJson (only_field all_questions))
               (fun tr => read_json env tr (only_field all_questions)) ;;
    ret (Some df).

Definition get_training_data : M (option DataFrame) :=
  d <- __rpc_call "get_training_data" [] ;;
  missing <- result_missing d ;;
  if missing then ret None
  else
    r <- result_of d ;;
    training_data <- init DataFrameJSON_ r ;;
    df <- call (EvReadJson (only_field training_data))
               (fun tr => read_json env tr (only_field training_data)) ;;
    ret (Some df).

(** *** The closures behind [run_sql] *)

(** [[desc[0] for desc in description]] *)
Fixpoint first_of_each (descs : list (list json)) : outcome (list json) :=
  match descs with
  | [] => Return []
  | desc :: rest =>
      match desc with
      | [] => Raise (IndexError "tuple index out of range")
      | c :: _ =>
          match first_of_each rest with
          | Raise e => Raise e
          | Return cs => Return (c :: cs)
          end
      end
  end.

Definition column_names (description : option (list (list json)))
  : outcome (list json) :=
  match description with
  | None => Raise (TypeError "'NoneType' object is not iterable")
  | Some descs => first_of_each descs
  end.

(** [results = cur.fetchall()], then
    [pd.DataFrame(results, columns=[desc[0] for desc in cur.description])] *)
Definition frame_of (cur : QueryResult) : M DataFrame :=
  results <- call (EvFetchall cur) (fun _ => fetchall cur) ;;
  columns <- lift (column_names (description cur)) ;;
  call (EvDataFrame results columns)
       (fun tr => pd_DataFrame env tr results columns).

Definition is_GoogleAPIError (e : exn) : bool :=
  match e with
  | GoogleAPIError _ => true
  | _ => false
  end.

(** [errors.append(error["message"])] for each entry *)
Fixpoint messages_of (errs : list json) : outcome (list json) :=
  match errs with
  | [] => Return []
  | e :: rest =>
      match py_getitem e "message" with
      | Raise x => Raise x
      | Return m =>
          match messages_of rest with
          | Raise x => Raise x
          | Return ms => Return (m :: ms)
          end
      end
  end.

(** The call [f(sql)] of a value of [run_sql]. *)
Definition apply_run_sql (f : RunSql) (sql : json) : M (option DataFrame) :=
  match f with
  | run_sql_snowflake conn role database =>
      cs <- call (EvCursor conn) (fun tr => cursor env tr conn) ;;
      match role with
      | Some r =>
          call (EvExecute cs (JStr ("USE ROLE " ++ r)))
               (fun tr => execute env tr cs (JStr ("USE ROLE " ++ r))) ;;
          ret tt
      | None => ret tt
      end ;;
      call (EvExecute cs (JStr ("USE DATABASE " ++ database)))
           (fun tr => execute env tr cs (JStr ("USE DATABASE " ++ database))) ;;
      cur <- call (EvExecute cs sql) (fun tr => execute env tr cs sql) ;;
      df <- frame_of cur ;;
      ret (Some df)
  | run_sql_bigquery conn =>
      match conn with
      | Some conn =>
          try_class is_GoogleAPIError
            (df <- call (EvQuery conn sql) (fun tr => query env tr conn sql) ;;
             ret (Some df))
            (fun error =>
               match error with
               | GoogleAPIError (Some errs) =>
                   errors <- lift (messages_of errs) ;;
                   (* [raise errors], a list *)
                   raise (TypeError "exceptions must derive from BaseException")
               | _ =>
                   raise (AttributeError "object has no attribute 'errors'")
               end)
      | None => ret None
      end
  | run_sql_postgres conn =>
      match conn with
      | Some conn =>
          try_class is_psycopg2_Error
            (cs <- call (EvCursor conn) (fun tr => cursor env tr conn) ;;
             cur <- call (EvExecute cs sql) (fun tr => execute env tr cs sql) ;;
             df <- frame_of cur ;;
             ret (Some df))
            (fun e => raise (ValidationErrorOf e))
      | None => ret None
      end
  | run_sql_user f => call (EvUserRunSql sql) (fun tr => f tr sql)
  end.

(** *** The pipeline *)

Definition Answer : Type := json * option DataFrame * option Figure * json.

(** Marks the entry of a pipeline stage of [ask] and its normal return. *)
Definition stage {A} (s : Stage) (m : M A) : M A :=
  log (EvEnter s) ;;
  a <- m ;;
  log (EvDone s) ;;
  ret a.

(** [fig.show()] *)
Definition fig_show (fig : option Figure) : M unit :=
  match fig with
  | None => raise (AttributeError "'NoneType' object has no attribute 'show'")
  | Some f => call (EvShow f) (fun tr => show env tr f)
  end.

(** [followup_questions is not None and len(followup_questions) > 0], whose
    branch only logs. *)
Definition log_followups (followup_questions : json) : M unit :=
  match followup_questions with
  | JNull => ret tt
  | _ => n <- lift (py_len followup_questions) ;; ret tt
  end.

(** The four stages, as [ask] calls them. *)
Definition generate_stage (question : string) : M json :=
  stage GenerateQuery (generate_sql (JStr question)).

Definition execute_stage (f : RunSql) (sql : json) : M (option DataFrame) :=
  stage ExecuteQuery (apply_run_sql f sql).

Definition chart_stage (question : string) (sql : json) (df : option DataFrame)
  (print_results : bool) : M (option Figure) :=
  stage GenerateChart
        (plotly_code <- generate_plotly_code (JStr question) sql df ;;
         fig <- get_plotly_figure plotly_code df true ;;
         when print_results (fig_show fig) ;;
         ret fig).

Definition followup_stage (question : string) (df : option DataFrame) : M json :=
  stage GenerateFollowups (generate_followup_questions (JStr question) df).

(** Between execution and the chart: showing the frame and training on the
    pair that ran. *)
Definition after_execute (question : string) (sql : json)
  (df : option DataFrame) (print_results auto_train : bool) : M unit :=
  when print_results
       (try_except
          (call (EvDisplay df) (fun tr => display env tr df))
          (fun e => ret tt)) ;;
  n <- lift (len_df df) ;;
  when (Nat.ltb 0 n && auto_train)
       (add_sql (JStr question) sql (JStr SQL_RAN) ;; ret tt).

Definition ask (question : option string)
  (print_results auto_train generate_followups : bool) : M Answer :=
  question <-
    match question with
    | None => call (EvInput "Enter a question: ")
                   (fun tr => input env tr "Enter a question: ")
    | Some q => ret q
    end ;;
  generated <-
    try_except
      (sql <- generate_stage question ;; ret (Some sql))
      (fun e => ret None) ;;
  match generated with
  | None => ret (JNull, None, None, JNull)
  | Some sql =>
      f <- get_run_sql ;;
      match f with
      | None => ret (sql, None, None, JNull)
      | Some f =>
          try_except
            (df <- execute_stage f sql ;;
             after_execute question sql df print_results auto_train ;;
             try_except
               (fig <- chart_stage question sql df print_results ;;
                if generate_followups then
                  followup_questions <- followup_stage question df ;;
                  log_followups followup_questions ;;
                  ret (sql, df, fig, followup_questions)
                else ret (sql, df, fig, JNull))
               (fun e => ret (sql, df, None, JNull)))
            (fun e => ret (sql, None, None, JNull))
      end
  end.

(** *** train *)

Definition JTrue : json := JBool true.

Definition example_question : string :=
  "What is the average salary of employees?".

Definition Manually_Trained : json := JStr "Manually Trained".

(** The items a [for] loop takes from a decoded JSON value. *)
Fixpoint chars (s : string) : list json :=
  match s with
  | EmptyString => []
  | String c rest => JStr (String c EmptyString) :: chars rest
  end.

Definition py_iter (v : json) : outcome (list json) :=
  match v with
  | JList l => Return l
  | JObj kv => Return (map (fun entry => JStr (fst entry)) kv)
  | JStr s => Return (chars s)
  | _ => Raise (TypeError "object is not iterable")
  end.

Fixpoint for_each {A} (items : list A) (body : A -> M unit) : M unit :=
  match items with
  | [] => ret tt
  | x :: rest => body x ;; for_each rest body
  end.

Definition train (question sql ddl : option string) (documentation : bool)
  (json_file sql_file : option string) : M json :=
  if truthy_str question && negb (truthy_str sql) then
    answer <- ask (Some example_question) true true true ;;
    raise (ValidationError
             ("Please also provide a SQL query " ++ nl ++ " Example Question:  "
                ++ example_question ++ nl ++ " Answer: "
                ++ py_str_answer env answer))
  else if truthy_str sql then
    if documentation then add_documentation (opt_json sql)
    else
      question <- generate_question (opt_json sql) ;;
      add_sql question (opt_json sql) Manually_Trained
  else if truthy_str ddl then add_ddl (opt_json sql)
  else
    match json_file with
    | Some path =>
        when (truthy (JStr path))
             (call (EvValidatePath path)
                   (fun tr => validate_config_path env tr path) ;;
              data <- call (EvLoadJson path) (fun tr => load_json env tr path) ;;
              items <- lift (py_iter data) ;;
              for_each items
                (fun question =>
                   q <- lift (py_getitem question "question") ;;
                   a <- lift (py_getitem question "answer") ;;
                   add_sql q a Manually_Trained ;;
                   ret tt))
    | None => ret tt
    end ;;
    match sql_file with
    | Some path =>
        if truthy (JStr path) then
          call (EvValidatePath path)
               (fun tr => validate_config_path env tr path) ;;
          sql_statements <-
            call (EvSqlStatements path) (fun tr => sql_statements env tr path) ;;
          match sql_statements with
          | [] => ret JNull
          | statement :: _ =>
              if substring_of "CREATE TABLE" statement then
                added <- add_ddl (JStr statement) ;;
                if truthy added then ret JTrue else ret JFalse
              else
                question <- generate_question (JStr statement) ;;
                added <- add_sql question (JStr statement) Manually_Trained ;;
                if truthy added then ret JTrue else ret JFalse
          end
        else ret JNull
    | None => ret JNull
    end.

(** *** Database connectors *)

(** [if value == placeholder: value = os.getenv(name)], raising when the
    variable is not set. *)
Definition from_env (value placeholder name msg : string) : M string :=
  if String.eqb value placeholder then
    match environ env name with
    | Some v => ret v
    | None => raise (ImproperlyConfigured msg)
    end
  else ret value.

Definition connect_to_snowflake (account username password database : string)
  (role : option string) : M unit :=
  if negb (has_snowflake env) then
    raise (DependencyError
             ("You need to install required dependencies to execute this method, run command: "
                ++ nl ++ "pip install vanna[snowflake]"))
  else
    username <- from_env username "my-username" "SNOWFLAKE_USERNAME"
                  "Please set your Snowflake username." ;;
    password <- from_env password "my-password" "SNOWFLAKE_PASSWORD"
                  "Please set your Snowflake password." ;;
    account <- from_env account "my-account" "SNOWFLAKE_ACCOUNT"
                 "Please set your Snowflake account." ;;
    database <- from_env database "my-database" "SNOWFLAKE_DATABASE"
                  "Please set your Snowflake database." ;;
    conn <- call (EvSnowflakeConnect username password account database)
                 (fun tr => snowflake_connect env tr username password account
                              database) ;;
    set_run_sql (run_sql_snowflake conn role database).

(** [if not value: value = os.getenv(name)] *)
Definition or_env (value : option string) (name : string) : option string :=
  if negb (truthy_str value) then environ env name else value.

Definition connect_to_bigquery (cred_file_path : string)
  (project_id : option string) : M unit :=
  if negb (has_bigquery env) then
    raise (DependencyError
             ("You need to install required dependencies to execute this method, run command: "
                ++ nl ++ "pip install vanna[bigquery]"))
  else
    let project_id := or_env project_id "PROJECT_ID" in
    match project_id with
    | Some project =>
        if negb (truthy (JStr project)) then
          raise (ImproperlyConfigured "Please set your Google Cloud Project ID.")
        else
          call (EvValidatePath cred_file_path)
               (fun tr => validate_config_path env tr cred_file_path) ;;
          credentials <-
            call (EvCredentials cred_file_path)
                 (fun tr => service_account_credentials env tr cred_file_path) ;;
          conn <-
            try_bare
              (call (EvBigqueryClient project credentials)
                    (fun tr => bigquery_Client env tr project credentials))
              (raise (ImproperlyConfigured
                        "Could not connect to bigquery please correct credentials")) ;;
          set_run_sql (run_sql_bigquery (Some conn))
    | None =>
        raise (ImproperlyConfigured "Please set your Google Cloud Project ID.")
    end.

(** A value that passed [if not value: raise]. *)
Definition needed (value : option string) (msg : string) : M string :=
  match value with
  | Some v =>
      if truthy (JStr v) then ret v else raise (ImproperlyConfigured msg)
  | None => raise (ImproperlyConfigured msg)
  end.

Definition truthy_port (port : option Z) : bool :=
  match port with
  | Some n => negb (Z.eqb n 0)
  | None => false
  end.

Definition connect_to_postgres (host dbname user password : option string)
  (port : option Z) : M unit :=
  if negb (has_psycopg2 env) then
    raise (DependencyError
             ("You need to install required dependencies to execute this method, run command: "
                ++ nl ++ "pip install vanna[postgres]"))
  else
    host <- needed (or_env host "HOST") "Please set your Postgres Host" ;;
    dbname <- needed (or_env dbname "DATABASE")
                "Please set your Postgres Database" ;;
    user <- needed (or_env user "USER") "Please set your Postgres User" ;;
    password <- needed (or_env password "PASSWORD")
                  "Please set your Postgres Password" ;;
    port <-
      match port with
      | Some n =>
          if truthy_port port then ret (PortInt n)
          else
            p <- needed (environ env "PORT") "Please set your Postgres Port" ;;
            ret (PortStr p)
      | None =>
          p <- needed (environ env "PORT") "Please set your Postgres Port" ;;
          ret (PortStr p)
      end ;;
    conn <-
      try_class is_psycopg2_Error
        (call (EvPsycopg2Connect host dbname user password port)
              (fun tr => psycopg2_connect env tr host dbname user password port))
        (fun e => raise (ValidationErrorOf e)) ;;
    set_run_sql (run_sql_postgres (Some conn)).

End Vanna.

(** ** The module as imported, and sample environments *)

(** The globals as the module body leaves them. *)
Definition initial : World :=
  {| api_key := None; org := None; run_sql := None; trace := [] |}.

Definition signed_in (key dataset : string) : World :=
  {| api_key := Some key; org := Some dataset; run_sql := None; trace := [] |}.

(** The [method] of a request body. *)
Definition method_of (req : Request) : string :=
  match body req with
  | JObj (("method", JStr m) :: _) => m
  | _ => EmptyString
  end.

(** An environment around a given server: every driver and library call
    succeeds with a fixed answer. *)
Definition sample_frame : DataFrame :=
  {| df_columns := [JStr "n"]; df_rows := [[JNum 1]] |}.

Definition env_with (server : Trace -> Request -> outcome json) : Env :=
  {| post := server;
     input := fun _ _ => Return "y";
     environ := fun _ => None;
     to_markdown := fun _ _ => Return "| n |";
     display := fun _ _ => Return tt;
     exec := fun _ _ _ => Return (Some 7);
     update_layout := fun _ _ => Return tt;
     show := fun _ _ => Return tt;
     read_json := fun _ _ => Return sample_frame;
     validate_config_path := fun _ _ => Return tt;
     load_json := fun _ _ => Return (JList []);
     sql_statements := fun _ _ => Return [];
     has_snowflake := true;
     has_bigquery := true;
     has_psycopg2 := true;
     snowflake_connect := fun _ _ _ _ _ => Return 1;
     service_account_credentials := fun _ _ => Return 2;
     bigquery_Client := fun _ _ _ => Return 3;
     psycopg2_connect := fun _ _ _ _ _ _ => Return 4;
     cursor := fun _ _ => Return 5;
     execute := fun _ _ _ =>
       Return {| fetchall := Return [[JNum 1]];
                 description := Some [[JStr "n"; JNull]] |};
     query := fun _ _ _ => Return sample_frame;
     pd_DataFrame := fun _ rows columns =>
       Return {| df_columns := columns; df_rows := rows |};
     py_str := fun _ => "?";
     py_str_answer := fun _ => "?" |}.

(** A server that answers every call without a [result]. *)
Definition silent_env : Env := env_with (fun _ _ => Return (JObj [])).

(** ** Statements about the transports *)

(** [transport method params] sends one POST to [endpoint] whose body is the
    object with the two fields [method] and [params], and hands back what the
    request and the decoding of its response give. *)
Definition posts_once (env : Env) (endpoint : string)
  (transport : string -> list param -> M json)
  (method : string) (params : list param) (w : World) : Prop :=
  exists req,
    url req = endpoint /\
    body req = JObj [("method", JStr method);
                     ("params", JList (map dataclass_to_dict params))] /\
    transport method params w =
      (post env (trace w) req,
       {| api_key := api_key w; org := org w; run_sql := run_sql w;
          trace := EvPost req :: trace w |}).

(** ** Statements about the session globals *)

Definition same_session (w w' : World) : Prop :=
  api_key w' = api_key w /\ org w' = org w /\ run_sql w' = run_sql w.

(** [m] leaves the three globals as they are, whatever its outcome. *)
Definition keeps_session {A} (m : M A) : Prop :=
  forall w, same_session w (snd (m w)).

Definition with_api_key (k : option string) (w : World) : World :=
  {| api_key := k; org := org w; run_sql := run_sql w; trace := trace w |}.

(** The active dataset when [create_dataset] issues its call. *)
Definition active_at_rpc (w : World) : string :=
  match org w with
  | None => "demo-tpc-h"
  | Some o => o
  end.

(** The call returned a true value. *)
Definition reports_success (r : outcome json) : bool :=
  match r with
  | Return v => truthy v
  | Raise _ => false
  end.

(** ** Statements about the closures behind [run_sql] *)

Definition failure {A} (o : outcome A) : option exn :=
  match o with
  | Raise e => Some e
  | Return _ => None
  end.

(** The exception a recorded driver call raised, made at the trace [tr]. *)
Definition driver_failure (env : Env) (tr : Trace) (ev : Event) : option exn :=
  match ev with
  | EvCursor conn => failure (cursor env tr conn)
  | EvExecute cs sql => failure (execute env tr cs sql)
  | EvFetchall cur => failure (fetchall cur)
  | EvQuery conn sql => failure (query env tr conn sql)
  | _ => None
  end.

(** No call of [calls], made on top of [base], failed. *)
Fixpoint all_succeeded (env : Env) (calls : list Event) (base : Trace) : Prop :=
  match calls with
  | [] => True
  | ev :: before =>
      driver_failure env (before ++ base)%list ev = None /\
      all_succeeded env before base
  end.

(** [m] surfaces driver errors: only its last driver call can have failed,
    so that nothing is retried or attempted after a failure, and the
    exception [e] of that call, when [covers e], leaves [m] as [wrap e]. *)
Definition surfaces (env : Env) (covers : exn -> bool) (wrap : exn -> exn)
  (m : M (option DataFrame)) (w : World) : Prop :=
  exists calls,
    trace (snd (m w)) = (calls ++ trace w)%list /\
    match calls with
    | [] => True
    | last :: before =>
        all_succeeded env before (trace w) /\
        forall e,
          driver_failure env (before ++ trace w)%list last = Some e ->
          covers e = true ->
          fst (m w) = Raise (wrap e)
    end.

Definition unchanged (e : exn) : exn := e.

Definition every (e : exn) : bool := true.

(** What [except psycopg2.Error as e: raise ValidationError(e)] makes of [e]. *)
Definition wrap_psycopg2 (e : exn) : exn :=
  if is_psycopg2_Error e then ValidationErrorOf e else e.

(** A database that rejects every statement. *)
Definition rejecting_env : Env :=
  {| post := fun _ _ => Return (JObj []);
     input := fun _ _ => Return "y";
     environ := fun _ => None;
     to_markdown := fun _ _ => Return "| n |";
     display := fun _ _ => Return tt;
     exec := fun _ _ _ => Return (Some 7);
     update_layout := fun _ _ => Return tt;
     show := fun _ _ => Return tt;
     read_json := fun _ _ => Return sample_frame;
     validate_config_path := fun _ _ => Return tt;
     load_json := fun _ _ => Return (JList []);
     sql_statements := fun _ _ => Return [];
     has_snowflake := true;
     has_bigquery := true;
     has_psycopg2 := true;
     snowflake_connect := fun _ _ _ _ _ => Return 1;
     service_account_credentials := fun _ _ => Return 2;
     bigquery_Client := fun _ _ _ => Return 3;
     psycopg2_connect := fun _ _ _ _ _ _ => Return 4;
     cursor := fun _ _ => Return 5;
     execute := fun _ _ _ => Raise (Psycopg2Error "syntax error");
     query := fun _ _ _ =>
       Raise (GoogleAPIError (Some [JObj [("message", JStr "syntax error")]]));
     pd_DataFrame := fun _ rows columns =>
       Return {| df_columns := columns; df_rows := rows |};
     py_str := fun _ => "?";
     py_str_answer := fun _ => "?" |}.

(** ** Statements about the RPC-backed operations *)

(** The operations that return a JSON value, with their arguments. *)
Inductive operation : Type :=
| op_get_datasets
| op_create_dataset (dataset db_type : string)
| op_add_user_to_dataset (dataset email : string) (is_admin : bool)
| op_update_dataset_visibility (public : bool)
| op_add_sql (question sql tag : json)
| op_add_ddl (ddl : json)
| op_add_documentation (documentation : json)
| op_flag_sql_for_review (question : json)
| op_remove_sql (question : json)
| op_remove_training_data (id : json)
| op_generate_sql (question : json)
| op_generate_followup_questions (question : json) (df : DataFrame)
| op_generate_questions
| op_generate_plotly_code (question sql : json) (df : DataFrame)
| op_generate_explanation (sql : json)
| op_generate_question (sql : json).

Definition perform (env : Env) (FLAGGED_FOR_REVIEW : string) (op : operation)
  : M json :=
  match op with
  | op_get_datasets => get_datasets env
  | op_create_dataset dataset db_type => create_dataset env dataset db_type
  | op_add_user_to_dataset dataset email is_admin =>
      add_user_to_dataset env dataset email is_admin
  | op_update_dataset_visibility public => update_dataset_visibility env public
  | op_add_sql question sql tag => add_sql env question sql tag
  | op_add_ddl ddl => add_ddl env ddl
  | op_add_documentation documentation => add_documentation env documentation
  | op_flag_sql_for_review question =>
      flag_sql_for_review env FLAGGED_FOR_REVIEW question
  | op_remove_sql question => remove_sql env question
  | op_remove_training_data id => remove_training_data env id
  | op_generate_sql question => generate_sql env question
  | op_generate_followup_questions question df =>
      generate_followup_questions env question (Some df)
  | op_generate_questions => generate_questions env
  | op_generate_plotly_code question sql df =>
      generate_plotly_code env question sql (Some df)
  | op_generate_explanation sql => generate_explanation env sql
  | op_generate_question sql => generate_question env sql
  end.

(** The record an operation builds from the result. *)
Definition result_class (op : operation) : cls :=
  match op with
  | op_get_datasets => OrganizationList_
  | op_generate_sql _ => SQLAnswer_
  | op_generate_followup_questions _ _ | op_generate_questions =>
      QuestionStringList_
  | op_generate_plotly_code _ _ _ => PlotlyResult_
  | op_generate_explanation _ => Explanation_
  | op_generate_question _ => Question_
  | _ => Status_
  end.

(** The value it returns from that record. *)
Definition derived (op : operation) : instance -> json :=
  match op with
  | op_generate_sql _ => sql_of
  | op_get_datasets | op_generate_followup_questions _ _
  | op_generate_questions | op_generate_plotly_code _ _ _
  | op_generate_explanation _ | op_generate_question _ => only_field
  | _ => success
  end.

(** The value that stands for failure: None for the generators, False for
    the operations that answer with a boolean, the empty list for
    [get_datasets]. *)
Definition failure_value (op : operation) : json :=
  match op with
  | op_get_datasets => JList []
  | op_generate_sql _ | op_generate_followup_questions _ _
  | op_generate_questions | op_generate_plotly_code _ _ _
  | op_generate_explanation _ | op_generate_question _ => JNull
  | _ => JFalse
  end.

(** The two operations that raise where the others return. *)
Definition raises_on_failure (op : operation) : bool :=
  match op with
  | op_remove_sql _ | op_remove_training_data _ => true
  | _ => false
  end.

(** The server answers every request with the dictionary [kv], and a frame
    can be rendered. *)
Definition answers (env : Env) (kv : list (string * json)) : Prop :=
  (forall tr req, post env tr req = Return (JObj kv)) /\
  (forall tr df, exists md, to_markdown env tr df = Return md).

(** [op], run in [w] against a server that answers [kv], checks for the
    result key: absent, it returns its failure value and builds no record;
    present, it builds its record from the value and returns what it derives
    from the record. *)
Definition checks_result (env : Env) (FLAGGED_FOR_REVIEW : string)
  (kv : list (string * json)) (w : World) (op : operation) : Prop :=
  let r := perform env FLAGGED_FOR_REVIEW op w in
  match assoc "result" kv with
  | None =>
      fst r = Return (failure_value op) /\
      forall c v, In (EvInit c v) (trace (snd r)) -> In (EvInit c v) (trace w)
  | Some v =>
      In (EvInit (result_class op) v) (trace (snd r)) /\
      forall obj,
        construct (result_class op) v = Return obj ->
        fst r = Return (derived op obj)
  end.

(** ** Statements about the pipeline *)

(** A server that generates a query and chart code, and times out on the
    follow-up questions. *)
Definition flaky_server (tr : Trace) (req : Request) : outcome json :=
  if String.eqb (method_of req) "generate_sql_from_question" then
    Return (JObj [("result",
                   JObj [("raw_answer", JStr "SELECT 1");
                         ("prefix", JStr EmptyString);
                         ("postfix", JStr EmptyString);
                         ("sql", JStr "SELECT 1")])])
  else if String.eqb (method_of req) "generate_plotly_code" then
    Return (JObj [("result", JObj [("plotly_code", JStr "fig = px.bar(df)")])])
  else if String.eqb (method_of req) "generate_followup_questions" then
    Raise (Exception "Read timed out")
  else Return (JObj []).

Definition flaky_env : Env := env_with flaky_server.

(** A session with a [run_sql] of the caller that yields [sample_frame]. *)
Definition asking : World :=
  {| api_key := Some "k"; org := Some "demo";
     run_sql := Some (run_sql_user (fun _ _ => Return (Some sample_frame)));
     trace := [] |}.



(** The stage marks of a trace, most recent first. *)
Definition is_mark (ev : Event) : bool :=
  match ev with
  | EvEnter _ | EvDone _ => true
  | _ => false
  end.

Definition marks (tr : Trace) : list Event := filter is_mark tr.

(** [m] enters no stage of its own. *)
Definition quiet {A} (m : M A) : Prop :=
  forall w, marks (trace (snd (m w))) = marks (trace w).

(** The marks of a complete run of the pipeline, in the order of time. *)
Definition pipeline : list Event :=
  [EvEnter GenerateQuery; EvDone GenerateQuery;
   EvEnter ExecuteQuery; EvDone ExecuteQuery;
   EvEnter GenerateChart; EvDone GenerateChart;
   EvEnter GenerateFollowups; EvDone GenerateFollowups].

(** A server that answers every stage of the pipeline. *)
Definition steady_server (tr : Trace) (req : Request) : outcome json :=
  if String.eqb (method_of req) "generate_followup_questions" then
    Return (JObj [("result",
                   JObj [("questions", JList [JStr "And last year?"])])])
  else if String.eqb (method_of req) "store_sql" then
    Return (JObj [("result",
                   JObj [("success", JBool true); ("message", JStr "ok")])])
  else flaky_server tr req.

Definition steady_env : Env := env_with steady_server.

(** The place of a stage in the pipeline. *)
Definition rank (s : Stage) : nat :=
  match s with
  | GenerateQuery => 0
  | ExecuteQuery => 1
  | GenerateChart => 2
  | GenerateFollowups => 3
  end.

(** ** Statements about the requests a computation sends *)

(** The endpoint and the method of a request. *)
Definition request_of (ev : Event) : option (string * string) :=
  match ev with
  | EvPost req => Some (url req, method_of req)
  | _ => None
  end.

(** The requests of a trace, most recent first. *)
Fixpoint requests (tr : Trace) : list (string * string) :=
  match tr with
  | [] => []
  | ev :: rest =>
      match request_of ev with
      | Some r => r :: requests rest
      | None => requests rest
      end
  end.

Definition same_request (a b : string * string) : bool :=
  String.eqb (fst a) (fst b) && String.eqb (snd a) (snd b).

(** [l] is [allowed] with some entries left out. *)
Fixpoint subseq (l allowed : list (string * string)) : bool :=
  match allowed with
  | [] =>
      match l with
      | [] => true
      | _ :: _ => false
      end
  | a :: rest =>
      match l with
      | [] => true
      | x :: l' => if same_request x a then subseq l' rest else subseq l rest
      end
  end.

(** The requests [m] sends are, in the order of time, among [allowed], each
    at most once and in that order. *)
Definition sends {A} (allowed : list (string * string)) (m : M A) : Prop :=
  forall w,
    exists new,
      requests (trace (snd (m w))) = (new ++ requests (trace w))%list /\
      subseq (rev new) allowed = true.

Definition authenticated (method : string) : string * string :=
  (_endpoint, method).

Definition unauthenticated (method : string) : string * string :=
  (_unauthenticated_endpoint, method).

(** The method each operation of the family calls. *)
Definition method_name (op : operation) : string :=
  match op with
  | op_get_datasets => "list_orgs"
  | op_create_dataset _ _ => "create_org"
  | op_add_user_to_dataset _ _ _ => "add_user_to_org"
  | op_update_dataset_visibility _ => "set_org_visibility"
  | op_add_sql _ _ _ => "store_sql"
  | op_add_ddl _ => "store_ddl"
  | op_add_documentation _ => "store_documentation"
  | op_flag_sql_for_review _ => "set_accuracy_category"
  | op_remove_sql _ => "remove_sql"
  | op_remove_training_data _ => "remove_training_data"
  | op_generate_sql _ => "generate_sql_from_question"
  | op_generate_followup_questions _ _ => "generate_followup_questions"
  | op_generate_questions => "generate_questions"
  | op_generate_plotly_code _ _ _ => "generate_plotly_code"
  | op_generate_explanation _ => "generate_explanation"
  | op_generate_question _ => "generate_question"
  end.

(** The requests [ask] may send, in order, for given flags. *)
Definition ask_requests (auto_train generate_followups : bool)
  : list (string * string) :=
  authenticated "generate_sql_from_question"
  :: ((if auto_train then [authenticated "store_sql"] else [])
      ++ authenticated "generate_plotly_code"
      :: (if generate_followups
          then [authenticated "generate_followup_questions"] else []))%list.

(** The one operation of the family that assigns a global. *)
Definition assigns_dataset (op : operation) : bool :=
  match op with
  | op_create_dataset _ _ => true
  | _ => false
  end.

(** The headers of an authenticated request for [method], sent with [key]
    while [active] is the dataset. *)
Definition authenticated_headers (key : string) (active : option string)
  (method : string) : list (string * string) :=
  [("Content-Type", "application/json"); ("Vanna-Key", key);
   ("Vanna-Org",
    if String.eqb method "list_orgs" then "demo-tpc-h"
    else match active with
         | Some o => o
         | None => EmptyString
         end)].

(** A server that hands out the key K1, and one that reports success. *)
Definition key_env : Env :=
  env_with (fun _ _ => Return (JObj [("result", JObj [("key", JStr "K1")])])).

Definition approving_env : Env :=
  env_with (fun _ _ =>
    Return (JObj [("result",
                   JObj [("success", JBool true); ("message", JNull)])])).

(** [env] with the SQL file split into [statements]. *)
Definition with_statements (env : Env) (statements : list string) : Env :=
  {| post := post env;
     input := input env;
     environ := environ env;
     to_markdown := to_markdown env;
     display := display env;
     exec := exec env;
     update_layout := update_layout env;
     show := show env;
     read_json := read_json env;
     validate_config_path := validate_config_path env;
     load_json := load_json env;
     sql_statements := fun _ _ => Return statements;
     has_snowflake := has_snowflake env;
     has_bigquery := has_bigquery env;
     has_psycopg2 := has_psycopg2 env;
     snowflake_connect := snowflake_connect env;
     service_account_credentials := service_account_credentials env;
     bigquery_Client := bigquery_Client env;
     psycopg2_connect := psycopg2_connect env;
     cursor := cursor env;
     execute := execute env;
     query := query env;
     pd_DataFrame := pd_DataFrame env;
     py_str := py_str env;
     py_str_answer := py_str_answer env |}.

(** [m] leaves the API key and the dataset alone, and leaves [run_sql]
    alone unless it returns. *)
Definition binds_on_return (m : M unit) : Prop :=
  forall w,
    api_key (snd (m w)) = api_key w /\
    org (snd (m w)) = org w /\
    (raised (fst (m w)) = true -> run_sql (snd (m w)) = run_sql w).

(** Two frames of six rows that differ in the last one. *)
Definition six_rows (last : Z) : DataFrame :=
  {| df_columns := [JStr "n"];
     df_rows := [[JNum 1]; [JNum 2]; [JNum 3]; [JNum 4]; [JNum 5];
                 [JNum last]] |}.

Definition with_org (o : option string) (w : World) : World :=
  {| api_key := api_key w; org := o; run_sql := run_sql w; trace := trace w |}.

(** A server on which the user belongs to the dataset sales. *)
Definition member_env : Env :=
  env_with (fun _ _ =>
    Return (JObj [("result", JObj [("organizations", JList [JStr "sales"])])])).

(** A server that knows no dataset, and a user who answers n. *)
Definition declining_env : Env :=
  {| post := fun _ req =>
       if String.eqb (method_of req) "list_orgs" then
         Return (JObj [("result", JObj [("organizations", JList [])])])
       else
         Return (JObj [("result",
                        JObj [("success", JBool false); ("message", JNull)])]);
     input := fun _ _ => Return "n";
     environ := environ silent_env;
     to_markdown := to_markdown silent_env;
     display := display silent_env;
     exec := exec silent_env;
     update_layout := update_layout silent_env;
     show := show silent_env;
     read_json := read_json silent_env;
     validate_config_path := validate_config_path silent_env;
     load_json := load_json silent_env;
     sql_statements := sql_statements silent_env;
     has_snowflake := true;
     has_bigquery := true;
     has_psycopg2 := true;
     snowflake_connect := snowflake_connect silent_env;
     service_account_credentials := service_account_credentials silent_env;
     bigquery_Client := bigquery_Client silent_env;
     psycopg2_connect := psycopg2_connect silent_env;
     cursor := cursor silent_env;
     execute := execute silent_env;
     query := query silent_env;
     pd_DataFrame := pd_DataFrame silent_env;
     py_str := py_str silent_env;
     py_str_answer := py_str_answer silent_env |}.

(** [env] with other environment variables. *)
Definition with_environ (env : Env) (variables : string -> option string)
  : Env :=
  {| post := post env;
     input := input env;
     environ := variables;
     to_markdown := to_markdown env;
     display := display env;
     exec := exec env;
     update_layout := update_layout env;
     show := show env;
     read_json := read_json env;
     validate_config_path := validate_config_path env;
     load_json := load_json env;
     sql_statements := sql_statements env;
     has_snowflake := has_snowflake env;
     has_bigquery := has_bigquery env;
     has_psycopg2 := has_psycopg2 env;
     snowflake_connect := snowflake_connect env;
     service_account_credentials := service_account_credentials env;
     bigquery_Client := bigquery_Client env;
     psycopg2_connect := psycopg2_connect env;
     cursor := cursor env;
     execute := execute env;
     query := query env;
     pd_DataFrame := pd_DataFrame env;
     py_str := py_str env;
     py_str_answer := py_str_answer env |}.

(** The value of a header of a request. *)
Fixpoint header (name : string) (hs : list (string * string)) : option string :=
  match hs with
  | [] => None
  | (k, v) :: rest => if String.eqb k name then Some v else header name rest
  end.

(** Every request [m] adds to the trace of [w] satisfies [P]. *)
Definition new_requests {A} (P : Request -> Prop) (m : M A) (w : World) : Prop :=
  forall req,
    In (EvPost req) (trace (snd (m w))) ->
    In (EvPost req) (trace w) \/ P req.

(** The variables of a machine set up for other databases. *)
Definition other_variables (name : string) : option string :=
  Some "elsewhere".

(** ** Statements in terms of what the server answers *)

(** The request the authenticated transport sends for [method] with [key]
    while [active] is the dataset (for a method other than list_orgs). *)
Definition authenticated_request (key active method : string)
  (params : list param) : Request :=
  {| url := _endpoint;
     headers := [("Content-Type", "application/json"); ("Vanna-Key", key);
                 ("Vanna-Org", active)];
     body := rpc_data method params |}.

(** A session with a key and no dataset. *)
Definition keyed (key : string) : World :=
  {| api_key := Some key; org := None; run_sql := None; trace := [] |}.

(** The check of the result key by the two operations that return a frame:
    absent, they return None and build no record; present, they build the
    record from the value, read its data with pandas and return the frame
    pandas gives. *)
Definition checks_frame (env : Env) (kv : list (string * json)) (w : World)
  (m : M (option DataFrame)) : Prop :=
  let r := m w in
  match assoc "result" kv with
  | None =>
      fst r = Return None /\
      forall c v, In (EvInit c v) (trace (snd r)) -> In (EvInit c v) (trace w)
  | Some v =>
      In (EvInit DataFrameJSON_ v) (trace (snd r)) /\
      forall obj,
        construct DataFrameJSON_ v = Return obj ->
        In (EvReadJson (only_field obj)) (trace (snd r)) /\
        forall df,
          (forall tr, read_json env tr (only_field obj) = Return df) ->
          fst r = Return (Some df)
  end.

(** Servers that answer with a generated query, and with stored data. *)
Definition query_kv : list (string * json) :=
  [("result",
    JObj [("raw_answer", JStr "SELECT 1"); ("prefix", JStr EmptyString);
          ("postfix", JStr EmptyString); ("sql", JStr "SELECT 1")])].

Definition data_kv : list (string * json) :=
  [("result", JObj [("data", JStr "[]")])].

Definition answering (kv : list (string * json)) : Env :=
  env_with (fun _ _ => Return (JObj kv)).

(** A server that reports failure. *)
Definition refusing_env : Env :=
  env_with (fun _ _ =>
    Return (JObj [("result",
                   JObj [("success", JBool false);
                         ("message", JStr "no such question")])])).

(** [env] with the JSON file holding [data]. *)
Definition with_json (env : Env) (data : json) : Env :=
  {| post := post env;
     input := input env;
     environ := environ env;
     to_markdown := to_markdown env;
     display := display env;
     exec := exec env;
     update_layout := update_layout env;
     show := show env;
     read_json := read_json env;
     validate_config_path := validate_config_path env;
     load_json := fun _ _ => Return data;
     sql_statements := sql_statements env;
     has_snowflake := has_snowflake env;
     has_bigquery := has_bigquery env;
     has_psycopg2 := has_psycopg2 env;
     snowflake_connect := snowflake_connect env;
     service_account_credentials := service_account_credentials env;
     bigquery_Client := bigquery_Client env;
     psycopg2_connect := psycopg2_connect env;
     cursor := cursor env;
     execute := execute env;
     query := query env;
     pd_DataFrame := pd_DataFrame env;
     py_str := py_str env;
     py_str_answer := py_str_answer env |}.

(** A JSON file with one pair, on a server that reports success. *)
Definition one_pair_env : Env :=
  with_json approving_env
    (JList [JObj [("question", JStr "How many?"); ("answer", JStr "SELECT 1")]]).

(** The prompt of [_set_org] for a dataset that does not exist. *)
Definition create_prompt (name : string) : string :=
  "Would you like to create dataset '" ++ name ++ "'? (y/n): ".

(** The user was asked whether to create [name] and answered something
    other than y: this is the last thing that happened in [w']. *)
Definition declined (env : Env) (name : string) (w' : World) : Prop :=
  exists tr create,
    trace w' = EvInput (create_prompt name) :: tr /\
    input env tr (create_prompt name) = Return create /\
    (String.eqb create "y" || String.eqb create "Y") = false.

(** Where setting the dataset [name] from [w] can leave the session: the
    key and [run_sql] as they were; on return the dataset is [name], or it
    is what it was and the user has just declined to create [name]; on an
    exception it is what it was, or none, or 'demo-tpc-h'. *)
Definition dataset_set_or_declined (env : Env) (name : string) (w : World)
  (r : outcome unit * World) : Prop :=
  api_key (snd r) = api_key w /\
  run_sql (snd r) = run_sql w /\
  (raised (fst r) = false ->
   org (snd r) = Some name \/
   (org (snd r) = org w /\ declined env name (snd r))) /\
  (raised (fst r) = true ->
   org (snd r) = org w \/ org (snd r) = None \/
   org (snd r) = Some "demo-tpc-h").

(** The request the unauthenticated transport sends for [method]. *)
Definition unauthenticated_request (method : string) (params : list param)
  : Request :=
  {| url := _unauthenticated_endpoint;
     headers := [("Content-Type", "application/json")];
     body := rpc_data method params |}.

(** A server on which the user has no dataset and every name is taken. *)
Definition taken_env : Env :=
  env_with (fun _ req =>
    if String.eqb (method_of req) "list_orgs" then
      Return (JObj [("result", JObj [("organizations", JList [])])])
    else
      Return (JObj [("result",
                     JObj [("success", JBool true); ("message", JNull)])])).

(** * Properties *)

(** ** Tactics shared by the proofs *)

(** Names the events added in front of a trace that is not itself a cons. *)
Ltac give_calls :=
  match goal with
  | |- exists calls, @?P calls =>
      lazymatch P with
      | (fun c => ?tr = (c ++ ?t)%list /\ @?Q c) =>
          let rec front tr :=
            lazymatch tr with
            | ?e :: ?rest => let p := front rest in constr:(e :: p)
            | _ => constr:(@nil Event)
            end in
          let c := front tr in
          exists c
      end
  end.

Ltac use_answers :=
  repeat match goal with
         | E : ?x = _ |- context [?x] => rewrite E
         | E : ?x = _, F : context [?x] |- _ => rewrite E in F
         end.

(** ** The transports *)

(** C2: the authenticated transport checks the session before use.  With no
    API key, or with no dataset for a method other than list_orgs, the call
    raises ImproperlyConfigured and the world, its trace of requests
    included, is as before. *)
Theorem rpc_call_checks_session (env : Env) (method : string)
  (params : list param) (w : World) :
  api_key w = None \/ (org w = None /\ method <> "list_orgs") ->
  exists msg,
    __rpc_call env method params w = (Raise (ImproperlyConfigured msg), w).
Proof.
  intros H. unfold __rpc_call, bind, get_api_key_global, get_org, raise.
  destruct (api_key w) as [key|] eqn:K.
  - destruct H as [H | [O N]]; [discriminate|].
    rewrite O. apply String.eqb_neq in N. rewrite N. eauto.
  - eauto.
Qed.

Lemma rpc_call_checks_session_witness :
  (api_key initial = None \/
   (org initial = None /\ "store_sql" <> "list_orgs")) /\
  exists msg,
    __rpc_call silent_env "store_sql" [] initial
    = (Raise (ImproperlyConfigured msg), initial).
Proof.
  split.
  - left. reflexivity.
  - apply (rpc_call_checks_session silent_env "store_sql" [] initial).
    left. reflexivity.
Defined.

(** C6, as stated, fails in the module's initial state: the authenticated
    transport sends nothing before an API key is set. *)
Lemma rpc_call_without_key_posts_nothing :
  ~ posts_once silent_env _endpoint (__rpc_call silent_env)
      "generate_sql_from_question" [Question (JStr "How many?")] initial.
Proof.
  intros [req [_ [_ H]]]. vm_compute in H. discriminate H.
Qed.

(** C6, amended: the unauthenticated transport always, and the authenticated
    transport once the API key is set and either the dataset is set or the
    method is list_orgs, send a single POST to their endpoint whose body has
    the fields method and params, the records converted in order, and return
    the decoded response of that request. *)
Theorem transports_post_once (env : Env) (method : string)
  (params : list param) (w : World) :
  posts_once env _unauthenticated_endpoint (__unauthenticated_rpc_call env)
    method params w /\
  (api_key w <> None -> org w <> None \/ method = "list_orgs" ->
   posts_once env _endpoint (__rpc_call env) method params w).
Proof.
  split.
  - eexists. split; [|split]; [| |reflexivity]; reflexivity.
  - destruct w as [k o r t]. simpl. intros K O. unfold posts_once.
    cbv beta iota zeta delta [__rpc_call bind get_api_key_global get_org call].
    simpl.
    destruct k as [key|]; [|congruence].
    destruct (String.eqb method "list_orgs") eqn:L.
    + destruct o; eexists; (split; [|split]; [| |reflexivity]; reflexivity).
    + destruct o as [o|].
      * eexists; (split; [|split]; [| |reflexivity]; reflexivity).
      * destruct O as [O|O]; [congruence|]. apply String.eqb_neq in L. contradiction.
Qed.

Lemma transports_post_once_witness :
  api_key (signed_in "k" "demo") <> None /\
  (org (signed_in "k" "demo") <> None \/ "store_sql" = "list_orgs") /\
  posts_once silent_env _endpoint (__rpc_call silent_env) "store_sql"
    [QuestionSQLPair (JStr "q") (JStr "s") JNull] (signed_in "k" "demo").
Proof.
  split; [discriminate|]. split; [left; discriminate|].
  apply (transports_post_once silent_env "store_sql"
           [QuestionSQLPair (JStr "q") (JStr "s") JNull] (signed_in "k" "demo")).
  - discriminate.
  - left. discriminate.
Defined.

(** ** The session globals *)

Lemma same_session_refl (w : World) : same_session w w.
Proof. repeat split. Qed.

Lemma same_session_trans (w1 w2 w3 : World) :
  same_session w1 w2 -> same_session w2 w3 -> same_session w1 w3.
Proof.
  intros [A1 [O1 R1]] [A2 [O2 R2]]. repeat split; congruence.
Qed.

Lemma keeps_ret {A} (a : A) : keeps_session (ret a).
Proof. intro w. apply same_session_refl. Qed.

Lemma keeps_raise {A} (e : exn) : keeps_session (@raise A e).
Proof. intro w. apply same_session_refl. Qed.

Lemma keeps_lift {A} (o : outcome A) : keeps_session (lift o).
Proof. intro w. apply same_session_refl. Qed.

Lemma keeps_log (ev : Event) : keeps_session (log ev).
Proof. intro w. repeat split. Qed.

Lemma keeps_call {A} (ev : Event) (oracle : Trace -> outcome A) :
  keeps_session (call ev oracle).
Proof. intro w. repeat split. Qed.

Lemma keeps_get_api_key : keeps_session get_api_key_global.
Proof. intro w. apply same_session_refl. Qed.

Lemma keeps_get_org : keeps_session get_org.
Proof. intro w. apply same_session_refl. Qed.

Lemma keeps_get_run_sql : keeps_session get_run_sql.
Proof. intro w. apply same_session_refl. Qed.

Lemma keeps_bind {A B} (m : M A) (k : A -> M B) :
  keeps_session m -> (forall a, keeps_session (k a)) -> keeps_session (bind m k).
Proof.
  intros Hm Hk w. unfold bind. specialize (Hm w).
  destruct (m w) as [[e | a] w1]; simpl in *; [assumption|].
  eapply same_session_trans; [eassumption | apply Hk].
Qed.

Lemma keeps_try_except {A} (body : M A) (handler : exn -> M A) :
  keeps_session body -> (forall e, keeps_session (handler e)) ->
  keeps_session (try_except body handler).
Proof.
  intros Hb Hh w. unfold try_except. specialize (Hb w).
  destruct (body w) as [[e | a] w1]; simpl in *; [|assumption].
  destruct (is_Exception e); simpl; [|assumption].
  eapply same_session_trans; [eassumption | apply Hh].
Qed.

Lemma keeps_try_class {A} (catches : exn -> bool) (body : M A)
  (handler : exn -> M A) :
  keeps_session body -> (forall e, keeps_session (handler e)) ->
  keeps_session (try_class catches body handler).
Proof.
  intros Hb Hh w. unfold try_class. specialize (Hb w).
  destruct (body w) as [[e | a] w1]; simpl in *; [|assumption].
  destruct (catches e); simpl; [|assumption].
  eapply same_session_trans; [eassumption | apply Hh].
Qed.

Lemma keeps_try_bare {A} (body handler : M A) :
  keeps_session body -> keeps_session handler ->
  keeps_session (try_bare body handler).
Proof.
  intros Hb Hh w. unfold try_bare. specialize (Hb w).
  destruct (body w) as [[e | a] w1]; simpl in *; [|assumption].
  eapply same_session_trans; [eassumption | apply Hh].
Qed.

Lemma keeps_when (b : bool) (m : M unit) :
  keeps_session m -> keeps_session (when b m).
Proof. intros H. destruct b; [assumption | apply keeps_ret]. Qed.

(** Walks through a computation built from the combinators above. *)
Ltac frame_step :=
  first
    [ assumption
    | apply keeps_ret | apply keeps_raise | apply keeps_lift | apply keeps_log
    | apply keeps_call | apply keeps_get_api_key | apply keeps_get_org
    | apply keeps_get_run_sql
    | apply keeps_bind; [|intro]
    | apply keeps_try_except; [|intro]
    | apply keeps_try_class; [|intro]
    | apply keeps_try_bare
    | apply keeps_when
    | match goal with
      | |- keeps_session (if ?b then _ else _) => destruct b
      | |- keeps_session (match ?x with _ => _ end) => destruct x
      end ].

Lemma keeps_init (c : cls) (v : json) : keeps_session (init c v).
Proof. unfold init. repeat frame_step. Qed.

Lemma keeps_unauthenticated_rpc_call (env : Env) (method : string)
  (params : list param) :
  keeps_session (__unauthenticated_rpc_call env method params).
Proof. unfold __unauthenticated_rpc_call. repeat frame_step. Qed.

Lemma keeps_rpc_call (env : Env) (method : string) (params : list param) :
  keeps_session (__rpc_call env method params).
Proof. unfold __rpc_call. repeat frame_step. Qed.

Lemma keeps_result_missing (d : json) : keeps_session (result_missing d).
Proof. unfold result_missing. repeat frame_step. Qed.

Lemma keeps_result_of (d : json) : keeps_session (result_of d).
Proof. unfold result_of. repeat frame_step. Qed.

Lemma keeps_head_markdown (env : Env) (df : option DataFrame) :
  keeps_session (head_markdown env df).
Proof. unfold head_markdown. repeat frame_step. Qed.

Lemma keeps_frame_of (env : Env) (cur : QueryResult) :
  keeps_session (frame_of env cur).
Proof. unfold frame_of. repeat frame_step. Qed.

Ltac frame :=
  repeat first
    [ apply keeps_init | apply keeps_rpc_call
    | apply keeps_unauthenticated_rpc_call
    | apply keeps_result_missing | apply keeps_result_of
    | apply keeps_head_markdown | apply keeps_frame_of
    | frame_step ].

Lemma keeps_get_datasets (env : Env) : keeps_session (get_datasets env).
Proof. unfold get_datasets. frame. Qed.

Lemma keeps_add_sql (env : Env) (question sql tag : json) :
  keeps_session (add_sql env question sql tag).
Proof. unfold add_sql. frame. Qed.

Lemma keeps_add_ddl (env : Env) (ddl : json) : keeps_session (add_ddl env ddl).
Proof. unfold add_ddl. frame. Qed.

Lemma keeps_generate_sql (env : Env) (question : json) :
  keeps_session (generate_sql env question).
Proof. unfold generate_sql. frame. Qed.

Lemma keeps_generate_plotly_code (env : Env) (question sql : json)
  (df : option DataFrame) :
  keeps_session (generate_plotly_code env question sql df).
Proof. unfold generate_plotly_code. frame. Qed.

Lemma keeps_generate_followup_questions (env : Env) (question : json)
  (df : option DataFrame) :
  keeps_session (generate_followup_questions env question df).
Proof.
  unfold generate_followup_questions. frame.
Qed.

Lemma keeps_get_plotly_figure (env : Env) (code : json) (df : option DataFrame)
  (dark_mode : bool) :
  keeps_session (get_plotly_figure env code df dark_mode).
Proof. unfold get_plotly_figure. frame. Qed.

Lemma keeps_apply_run_sql (env : Env) (f : RunSql) (sql : json) :
  keeps_session (apply_run_sql env f sql).
Proof.
  unfold apply_run_sql. destruct f; frame.
Qed.

Lemma keeps_stage {A} (s : Stage) (m : M A) :
  keeps_session m -> keeps_session (stage s m).
Proof. intros H. unfold stage. frame. Qed.

Lemma keeps_generate_stage (env : Env) (q : string) :
  keeps_session (generate_stage env q).
Proof. unfold generate_stage. apply keeps_stage. apply keeps_generate_sql. Qed.

(** Unfolds [ask] down to its stages. *)
Ltac reduce_ask :=
  cbv beta iota zeta delta [ask bind ret try_except get_run_sql fst].

Ltac same_run H :=
  match type of H with
  | generate_stage ?env ?q ?w = (_, ?w1) =>
      let S := fresh "S" in
      assert (S : same_session w w1)
        by (let K := fresh in
            pose proof (keeps_generate_stage env q w) as K;
            rewrite H in K; exact K)
  end.

(** C9: set_api_key assigns the global before validating it.  Whatever the
    validation does, the global holds the new key afterwards; in particular,
    when get_datasets returns an empty list, set_api_key raises
    ConnectionError and the global still holds the new key. *)
Theorem set_api_key_keeps_key_on_error (env : Env) (key : string) (w : World) :
  api_key (snd (set_api_key env key w)) = Some key /\
  forall w',
    get_datasets env (with_api_key (Some key) w) = (Return (JList []), w') ->
    (exists msg, set_api_key env key w = (Raise (ConnectionError msg), w')) /\
    api_key w' = Some key.
Proof.
  unfold set_api_key, bind, set_api_key_global.
  fold (with_api_key (Some key) w).
  pose proof (keeps_get_datasets env (with_api_key (Some key) w)) as [K _].
  destruct (get_datasets env (with_api_key (Some key) w)) as [[e | ds] w1] eqn:G;
    simpl in K.
  - split; [exact K|]. intros w' H. discriminate H.
  - split.
    + unfold lift. destruct (py_len ds) as [e | n]; simpl; [exact K|].
      destruct (Nat.eqb n 0); simpl; exact K.
    + intros w' H. inversion H; subst. simpl. split; [|exact K].
      eexists. reflexivity.
Qed.

Lemma set_api_key_keeps_key_on_error_witness :
  exists w',
    get_datasets
      (env_with (fun _ _ =>
         Return (JObj [("result", JObj [("organizations", JList [])])])))
      (with_api_key (Some "stale") initial) = (Return (JList []), w') /\
    (exists msg,
       set_api_key
         (env_with (fun _ _ =>
            Return (JObj [("result", JObj [("organizations", JList [])])])))
         "stale" initial = (Raise (ConnectionError msg), w')) /\
    api_key w' = Some "stale".
Proof.
  eexists. split; [vm_compute; reflexivity|].
  apply (set_api_key_keeps_key_on_error
           (env_with (fun _ _ =>
              Return (JObj [("result", JObj [("organizations", JList [])])])))
           "stale" initial).
  vm_compute. reflexivity.
Defined.

(** C10: create_dataset changes the active dataset as a side effect.  With
    no dataset set it first makes 'demo-tpc-h' the active one, and the
    request carries it; when the call reports success the active dataset is
    the new name; in every other outcome it is what it was when the request
    was issued.  The API key and run_sql are untouched.  In terms of the
    server's answer to the create_org request: without a result key the
    call returns False and the dataset stays; with a result that
    deserializes to a Status the call returns its success field, and the
    new name becomes the active dataset exactly when that field is true. *)
Theorem create_dataset_active_dataset (env : Env) (dataset db_type : string)
  (w : World) :
  let r := create_dataset env dataset db_type w in
  org (snd r)
  = (if reports_success (fst r) then Some dataset else Some (active_at_rpc w)) /\
  api_key (snd r) = api_key w /\
  run_sql (snd r) = run_sql w /\
  (forall key, api_key w = Some key ->
    exists req later,
      headers req = [("Content-Type", "application/json"); ("Vanna-Key", key);
                     ("Vanna-Org", active_at_rpc w)] /\
      trace (snd r) = (later ++ EvPost req :: trace w)%list) /\
  (forall key d,
     api_key w = Some key ->
     post env (trace w)
       (authenticated_request key (active_at_rpc w) "create_org"
          [NewOrganization (JStr dataset) (JStr db_type)]) = Return d ->
     (py_in "result" d = Return false ->
      fst r = Return JFalse /\ org (snd r) = Some (active_at_rpc w)) /\
     (forall v status,
        py_in "result" d = Return true ->
        py_getitem d "result" = Return v ->
        construct Status_ v = Return status ->
        fst r = Return (success status) /\
        org (snd r) = (if truthy (success status) then Some dataset
                       else Some (active_at_rpc w)))).
Proof.
  assert (Sent : forall (req : Request) (t : Trace) (evs : list Event) hs,
             headers req = hs ->
             exists req' later,
               headers req' = hs /\
               (evs ++ EvPost req :: t = later ++ EvPost req' :: t)%list).
  { intros req t evs hs H. exists req, evs. split; [exact H | reflexivity]. }
  destruct w as [k o rs t]. unfold active_at_rpc, authenticated_request.
  simpl.
  cbv beta iota zeta delta
    [create_dataset __rpc_call bind get_api_key_global get_org call when
     set_org_global ret raise result_missing result_of lift init log].
  simpl.
  destruct k as [key|]; destruct o as [o|]; simpl;
    try (repeat split; intros; discriminate).
  all: destruct (post env t _) as [e | d] eqn:P; simpl;
    [ | destruct (py_in "result" d) as [e | has] eqn:I; simpl;
        [ | destruct has; simpl;
            [ destruct (py_getitem d "result") as [e | v] eqn:G; simpl;
              [ | destruct (construct Status_ v) as [e | status] eqn:C; simpl;
                  [ | destruct (truthy (success status)) eqn:T; simpl;
                      rewrite ?T ] ] | ] ] ].
  all: repeat split.
  all: try (intros key' K; inversion K; subst;
            first [ apply (Sent _ t []); reflexivity
                  | apply (Sent _ t [_]); reflexivity ]).
  all: try congruence.
  all: match goal with
       | |- context [truthy (success ?s)] =>
           assert (E : s = status) by congruence; rewrite E, T; reflexivity
       end.
Qed.

Lemma create_dataset_active_dataset_witness :
  (api_key (keyed "k") = Some "k" /\
   post approving_env (trace (keyed "k"))
     (authenticated_request "k" "demo-tpc-h" "create_org"
        [NewOrganization (JStr "new") (JStr "Postgres")])
   = Return (JObj [("result",
                    JObj [("success", JBool true); ("message", JNull)])])) /\
  (fst (create_dataset approving_env "new" "Postgres" (keyed "k"))
   = Return (JBool true) /\
   org (snd (create_dataset approving_env "new" "Postgres" (keyed "k")))
   = Some "new") /\
  exists req later,
    headers req = [("Content-Type", "application/json"); ("Vanna-Key", "k");
                   ("Vanna-Org", "demo-tpc-h")] /\
    trace (snd (create_dataset approving_env "new" "Postgres" (keyed "k")))
    = (later ++ EvPost req :: trace (keyed "k"))%list.
Proof.
  split; [split; reflexivity|]. split.
  - apply (proj2 (proj2 (proj2 (proj2 (proj2
             (create_dataset_active_dataset approving_env "new" "Postgres"
                (keyed "k"))))) "k" _ eq_refl eq_refl)
           (JObj [("success", JBool true); ("message", JNull)])
           [JBool true; JNull]);
      reflexivity.
  - apply (proj1 (proj2 (proj2 (proj2
             (create_dataset_active_dataset approving_env "new" "Postgres"
                (keyed "k"))))) "k").
    reflexivity.
Defined.

(** ** The connector helpers *)

Lemma from_env_pure (env : Env) (value placeholder name msg : string)
  (w : World) :
  exists o, from_env env value placeholder name msg w = (o, w).
Proof.
  unfold from_env. destruct (String.eqb value placeholder).
  - destruct (environ env name); eexists; reflexivity.
  - eexists; reflexivity.
Qed.

Lemma needed_pure (value : option string) (msg : string) (w : World) :
  exists o, needed value msg w = (o, w).
Proof.
  unfold needed. destruct value as [v|].
  - destruct (truthy (JStr v)); eexists; reflexivity.
  - eexists; reflexivity.
Qed.

(** Runs the next argument check of a connector inside [H]. *)
Ltac check_in H :=
  match type of H with
  | context [from_env ?env ?v ?p ?n ?m ?w] =>
      let o := fresh "o" in
      let E := fresh "E" in
      destruct (from_env_pure env v p n m w) as [o E]; rewrite E in H;
      destruct o; simpl in H; [discriminate H|]
  | context [needed ?v ?m ?w] =>
      let o := fresh "o" in
      let E := fresh "E" in
      destruct (needed_pure v m w) as [o E]; rewrite E in H;
      destruct o; simpl in H; [discriminate H|]
  end.

Ltac unfold_m H :=
  cbv beta iota zeta delta
    [bind ret raise lift call log when try_class try_bare try_except
     set_run_sql get_run_sql get_org get_api_key_global set_org_global
     set_api_key_global] in H;
  simpl in H.

(** C7: a connector helper that returns normally has opened a connection
    with its driver and made run_sql the closure over that connection; the
    API key and the active dataset are as before. *)
Theorem connectors_bind_run_sql (env : Env) (w w' : World) :
  (forall account username password database role,
     connect_to_snowflake env account username password database role w
     = (Return tt, w') ->
     exists conn user pw acc db,
       snowflake_connect env (trace w) user pw acc db = Return conn /\
       trace w' = EvSnowflakeConnect user pw acc db :: trace w /\
       run_sql w' = Some (run_sql_snowflake conn role db) /\
       api_key w' = api_key w /\ org w' = org w) /\
  (forall cred_file_path project_id,
     connect_to_bigquery env cred_file_path project_id w = (Return tt, w') ->
     exists conn project cred,
       bigquery_Client env
         (EvCredentials cred_file_path :: EvValidatePath cred_file_path
            :: trace w) project cred = Return conn /\
       trace w' = EvBigqueryClient project cred :: EvCredentials cred_file_path
                    :: EvValidatePath cred_file_path :: trace w /\
       run_sql w' = Some (run_sql_bigquery (Some conn)) /\
       api_key w' = api_key w /\ org w' = org w) /\
  (forall host dbname user password port,
     connect_to_postgres env host dbname user password port w
     = (Return tt, w') ->
     exists conn h d u p pt,
       psycopg2_connect env (trace w) h d u p pt = Return conn /\
       trace w' = EvPsycopg2Connect h d u p pt :: trace w /\
       run_sql w' = Some (run_sql_postgres (Some conn)) /\
       api_key w' = api_key w /\ org w' = org w).
Proof.
  split; [|split].
  - intros account username password database role H.
    unfold connect_to_snowflake in H.
    destruct (negb (has_snowflake env)); [discriminate H|].
    unfold bind at 1 in H. check_in H.
    unfold bind at 1 in H. check_in H.
    unfold bind at 1 in H. check_in H.
    unfold bind at 1 in H. check_in H.
    unfold_m H.
    destruct (snowflake_connect env (trace w) a a0 a1 a2) as [e | conn] eqn:C;
      [discriminate H|].
    inversion H; subst; simpl. exists conn, a, a0, a1, a2. auto.
  - intros cred_file_path project_id H.
    unfold connect_to_bigquery in H.
    destruct (negb (has_bigquery env)); [discriminate H|].
    destruct (or_env env project_id "PROJECT_ID") as [project|];
      [|discriminate H].
    destruct (negb (truthy (JStr project))); [discriminate H|].
    unfold_m H.
    destruct (validate_config_path env (trace w) cred_file_path);
      [discriminate H|].
    destruct (service_account_credentials env _ cred_file_path) as [e | cred];
      [discriminate H|].
    destruct (bigquery_Client env _ project cred) as [e | conn] eqn:C;
      [discriminate H|].
    inversion H; subst; simpl. exists conn, project, cred. auto.
  - intros host dbname user password port H.
    unfold connect_to_postgres in H.
    destruct (negb (has_psycopg2 env)); [discriminate H|].
    unfold bind at 1 in H. check_in H.
    unfold bind at 1 in H. check_in H.
    unfold bind at 1 in H. check_in H.
    unfold bind at 1 in H. check_in H.
    unfold bind at 1 in H.
    assert (P : exists o,
               (match port with
                | Some n =>
                    if truthy_port port then ret (PortInt n)
                    else
                      bind (needed (environ env "PORT")
                              "Please set your Postgres Port")
                           (fun p => ret (PortStr p))
                | None =>
                    bind (needed (environ env "PORT")
                            "Please set your Postgres Port")
                         (fun p => ret (PortStr p))
                end) w = (o, w)).
    { destruct (needed_pure (environ env "PORT")
                  "Please set your Postgres Port" w) as [o EP].
      unfold bind, ret. destruct port as [n|];
        [destruct (truthy_port (Some n)); [eexists; reflexivity|]|];
        rewrite EP; destruct o; eexists; reflexivity. }
    destruct P as [o P]. rewrite P in H. destruct o as [e | pt];
      [discriminate H|].
    unfold_m H.
    destruct (psycopg2_connect env (trace w) a a0 a1 a2 pt) as [e | conn] eqn:C.
    + destruct (is_psycopg2_Error e); discriminate H.
    + inversion H; subst; simpl. exists conn, a, a0, a1, a2, pt. auto.
Qed.

Lemma connectors_bind_run_sql_witness :
  connect_to_snowflake silent_env "acct" "me" "secret" "sales" (Some "analyst")
    (signed_in "k" "demo")
  = (Return tt,
     {| api_key := Some "k"; org := Some "demo";
        run_sql := Some (run_sql_snowflake 1 (Some "analyst") "sales");
        trace := [EvSnowflakeConnect "me" "secret" "acct" "sales"] |}) /\
  exists conn user pw acc db,
    snowflake_connect silent_env (trace (signed_in "k" "demo")) user pw acc db
    = Return conn /\
    [EvSnowflakeConnect "me" "secret" "acct" "sales"]
    = EvSnowflakeConnect user pw acc db :: trace (signed_in "k" "demo") /\
    Some (run_sql_snowflake 1 (Some "analyst") "sales")
    = Some (run_sql_snowflake conn (Some "analyst") db) /\
    Some "k" = api_key (signed_in "k" "demo") /\
    Some "demo" = org (signed_in "k" "demo").
Proof.
  split; [reflexivity|].
  apply (proj1 (connectors_bind_run_sql silent_env (signed_in "k" "demo")
                  {| api_key := Some "k"; org := Some "demo";
                     run_sql := Some (run_sql_snowflake 1 (Some "analyst") "sales");
                     trace := [EvSnowflakeConnect "me" "secret" "acct" "sales"] |})
               "acct" "me" "secret" "sales" (Some "analyst")).
  reflexivity.
Defined.

Example connect_to_postgres_run :
  connect_to_postgres silent_env (Some "db.local") (Some "shop") (Some "me")
    (Some "secret") (Some 5432%Z) initial
  = (Return tt,
     {| api_key := None; org := None;
        run_sql := Some (run_sql_postgres (Some 4));
        trace := [EvPsycopg2Connect "db.local" "shop" "me" "secret"
                    (PortInt 5432)] |}).
Proof. reflexivity. Qed.

Example connect_to_postgres_without_port :
  fst (connect_to_postgres silent_env (Some "db.local") (Some "shop")
         (Some "me") (Some "secret") (Some 0%Z) initial)
  = Raise (ImproperlyConfigured "Please set your Postgres Port").
Proof. reflexivity. Qed.

Example connect_to_bigquery_run :
  connect_to_bigquery silent_env "cred.json" (Some "proj") initial
  = (Return tt,
     {| api_key := None; org := None;
        run_sql := Some (run_sql_bigquery (Some 3));
        trace := [EvBigqueryClient "proj" 2; EvCredentials "cred.json";
                  EvValidatePath "cred.json"] |}).
Proof. reflexivity. Qed.

(** ** The closures behind run_sql *)

Ltac settle_calls :=
  give_calls; split; [reflexivity|]; simpl;
  try exact I;
  repeat split; use_answers; try reflexivity;
  intros; simpl in *; use_answers;
  try discriminate;
  repeat match goal with
         | F : Some _ = Some _ |- _ => inversion F; subst; clear F
         end;
  use_answers; try reflexivity; try discriminate.

(** C5, as stated, fails for the postgres closure: the driver raises a
    psycopg2 error and the closure raises a ValidationError in its place. *)
Lemma run_sql_postgres_replaces_driver_error :
  ~ surfaces rejecting_env every unchanged
      (apply_run_sql rejecting_env (run_sql_postgres (Some 4)) (JStr "SELEC 1"))
      initial.
Proof.
  intros [calls [T H]]. change (trace initial) with (@nil Event) in T.
  rewrite app_nil_r in T. vm_compute in T. subst calls.
  destruct H as [_ H].
  specialize (H (Psycopg2Error "syntax error") eq_refl eq_refl).
  vm_compute in H. discriminate H.
Qed.

Example run_sql_postgres_rejected :
  fst (apply_run_sql rejecting_env (run_sql_postgres (Some 4)) (JStr "SELEC 1")
         initial)
  = Raise (ValidationErrorOf (Psycopg2Error "syntax error")).
Proof. reflexivity. Qed.

Example run_sql_bigquery_rejected :
  fst (apply_run_sql rejecting_env (run_sql_bigquery (Some 3)) (JStr "SELEC 1")
         initial)
  = Raise (TypeError "exceptions must derive from BaseException").
Proof. reflexivity. Qed.

(** C5, amended: no closure retries or goes on after a failed driver call.
    The snowflake closure raises the driver's exception as it is; the
    postgres closure raises ValidationError around a psycopg2 error and any
    other exception as it is; the bigquery closure raises as it is every
    exception other than a GoogleAPIError. *)
Theorem closures_surface_driver_errors (env : Env) (sql : json) (w : World) :
  (forall conn role database,
     surfaces env every unchanged
       (apply_run_sql env (run_sql_snowflake conn role database) sql) w) /\
  (forall conn,
     surfaces env every wrap_psycopg2
       (apply_run_sql env (run_sql_postgres conn) sql) w) /\
  (forall conn,
     surfaces env (fun e => negb (is_GoogleAPIError e)) unchanged
       (apply_run_sql env (run_sql_bigquery conn) sql) w).
Proof.
  destruct w as [k o rs t].
  unfold surfaces, unchanged, every, wrap_psycopg2. simpl.
  split; [|split].
  - intros conn role database.
    cbv beta iota zeta delta
      [apply_run_sql frame_of bind ret raise lift call log].
    simpl.
    destruct (cursor env t conn) as [e | cs] eqn:C; simpl; [settle_calls|].
    destruct role as [r|]; simpl.
    + destruct (execute env (EvCursor conn :: t) cs _)
        as [e | c0] eqn:R; simpl; [settle_calls|].
      destruct (execute env (_ :: EvCursor conn :: t) cs _)
        as [e | c1] eqn:D; simpl; [settle_calls|].
      destruct (execute env _ cs sql) as [e | cur] eqn:X; simpl;
        [settle_calls|].
      destruct (fetchall cur) as [e | rows] eqn:F; simpl; [settle_calls|].
      destruct (column_names (description cur)) as [e | cols] eqn:N; simpl;
        [settle_calls|].
      destruct (pd_DataFrame env _ rows cols) as [e | df] eqn:P; simpl;
        settle_calls.
    + destruct (execute env (EvCursor conn :: t) cs _)
        as [e | c1] eqn:D; simpl; [settle_calls|].
      destruct (execute env _ cs sql) as [e | cur] eqn:X; simpl;
        [settle_calls|].
      destruct (fetchall cur) as [e | rows] eqn:F; simpl; [settle_calls|].
      destruct (column_names (description cur)) as [e | cols] eqn:N; simpl;
        [settle_calls|].
      destruct (pd_DataFrame env _ rows cols) as [e | df] eqn:P; simpl;
        settle_calls.
  - intros [conn|]; [|exists []; split; [reflexivity | exact I]].
    cbv beta iota zeta delta
      [apply_run_sql frame_of bind ret raise lift call log try_class].
    simpl.
    destruct (cursor env t conn) as [e | cs] eqn:C; simpl.
    { destruct (is_psycopg2_Error e) eqn:Q; simpl; settle_calls. }
    destruct (execute env _ cs sql) as [e | cur] eqn:X; simpl.
    { destruct (is_psycopg2_Error e) eqn:Q; simpl; settle_calls. }
    destruct (fetchall cur) as [e | rows] eqn:F; simpl.
    { destruct (is_psycopg2_Error e) eqn:Q; simpl; settle_calls. }
    destruct (column_names (description cur)) as [e | cols] eqn:N; simpl.
    { destruct (is_psycopg2_Error e) eqn:Q; simpl; settle_calls. }
    destruct (pd_DataFrame env _ rows cols) as [e | df] eqn:P; simpl.
    { destruct (is_psycopg2_Error e) eqn:Q; simpl; settle_calls. }
    settle_calls.
  - intros [conn|]; [|exists []; split; [reflexivity | exact I]].
    cbv beta iota zeta delta
      [apply_run_sql bind ret raise lift call log try_class].
    simpl.
    destruct (query env t conn sql) as [e | df] eqn:Q; simpl; [|settle_calls].
    destruct e; simpl; try settle_calls.
    destruct errors as [errs|]; simpl; [|settle_calls].
    destruct (messages_of errs); simpl; settle_calls.
Qed.

(** ** train *)

Lemma add_ddl_posts (env : Env) (ddl : json) (w : World) (req : Request) :
  In (EvPost req) (trace (snd (add_ddl env ddl w))) ->
  In (EvPost req) (trace w) \/ body req = rpc_data "store_ddl" [StringData ddl].
Proof.
  destruct w as [k o rs t].
  cbv beta iota zeta delta
    [add_ddl __rpc_call bind get_api_key_global get_org call ret raise
     result_missing result_of lift init log].
  simpl.
  destruct k as [key|]; simpl; [|auto].
  destruct o as [o|]; simpl; [|auto].
  destruct (post env t _) as [e | d]; simpl;
    [ | destruct (py_in "result" d) as [e | has]; simpl;
        [ | destruct has; simpl;
            [ destruct (py_getitem d "result") as [e | v]; simpl;
              [ | destruct (construct Status_ v) as [e | status]; simpl ] | ] ] ].
  all: intros H;
    repeat (destruct H as [H | H]; [try discriminate H | ]); auto.
  all: inversion H; subst; right; reflexivity.
Qed.

(** C8: train with only a DDL statement passes its sql argument, which is
    None, to add_ddl.  For a non-empty statement d the call is add_ddl(None);
    every request train(ddl=d) sends is a store_ddl whose single parameter
    has data null, whatever d is; and with the session set that request is
    sent. *)
Theorem train_ddl_sends_sql (env : Env) (SQL_RAN d : string) (w : World) :
  (d <> EmptyString ->
   forall documentation json_file sql_file,
     train env SQL_RAN None None (Some d) documentation json_file sql_file w
     = add_ddl env JNull w) /\
  (forall req,
     In (EvPost req)
        (trace (snd (train env SQL_RAN None None (Some d) false None None w))) ->
     In (EvPost req) (trace w) \/
     body req = JObj [("method", JStr "store_ddl");
                      ("params", JList [JObj [("data", JNull)]])]) /\
  (d <> EmptyString ->
   forall key o, api_key w = Some key -> org w = Some o ->
     In (EvPost {| url := _endpoint;
                   headers := [("Content-Type", "application/json");
                               ("Vanna-Key", key); ("Vanna-Org", o)];
                   body := JObj [("method", JStr "store_ddl");
                                 ("params", JList [JObj [("data", JNull)]])] |})
        (trace (snd (train env SQL_RAN None None (Some d) false None None w)))).
Proof.
  assert (T : d <> EmptyString ->
              forall documentation json_file sql_file,
                train env SQL_RAN None None (Some d) documentation json_file
                  sql_file w = add_ddl env JNull w).
  { intros N documentation json_file sql_file. unfold train, truthy_str. simpl.
    apply String.eqb_neq in N. rewrite N. reflexivity. }
  split; [exact T|]. split.
  - intros req H. destruct (String.eqb d EmptyString) eqn:D.
    + apply String.eqb_eq in D. subst d. left. exact H.
    + apply String.eqb_neq in D. rewrite (T D) in H.
      apply add_ddl_posts in H. exact H.
  - intros N key o K O. rewrite (T N).
    destruct w as [k o' rs t]. simpl in K, O. subst k o'.
    cbv beta iota zeta delta
      [add_ddl __rpc_call bind get_api_key_global get_org call ret raise
       result_missing result_of lift init log].
    simpl.
    destruct (post env t _) as [e | r]; simpl;
      [ | destruct (py_in "result" r) as [e | has]; simpl;
          [ | destruct has; simpl;
              [ destruct (py_getitem r "result") as [e | v]; simpl;
                [ | destruct (construct Status_ v) as [e | status]; simpl ] | ] ] ].
    all: auto.
Qed.

Lemma train_ddl_sends_sql_witness :
  "CREATE TABLE t (id INT)" <> EmptyString /\
  api_key (signed_in "k" "demo") = Some "k" /\
  org (signed_in "k" "demo") = Some "demo" /\
  In (EvPost {| url := _endpoint;
                headers := [("Content-Type", "application/json");
                            ("Vanna-Key", "k"); ("Vanna-Org", "demo")];
                body := JObj [("method", JStr "store_ddl");
                              ("params", JList [JObj [("data", JNull)]])] |})
     (trace (snd (train silent_env "ran" None None
                    (Some "CREATE TABLE t (id INT)") false None None
                    (signed_in "k" "demo")))).
Proof.
  split; [discriminate|]. split; [reflexivity|]. split; [reflexivity|].
  apply (proj2 (proj2 (train_ddl_sends_sql silent_env "ran"
                         "CREATE TABLE t (id INT)" (signed_in "k" "demo")))).
  - discriminate.
  - reflexivity.
  - reflexivity.
Defined.

Example train_ddl_run :
  train silent_env "ran" None None (Some "CREATE TABLE t (id INT)") false None
    None (signed_in "k" "demo")
  = (Return JFalse,
     {| api_key := Some "k"; org := Some "demo"; run_sql := None;
        trace := [EvPost {| url := _endpoint;
                            headers := [("Content-Type", "application/json");
                                        ("Vanna-Key", "k");
                                        ("Vanna-Org", "demo")];
                            body := JObj [("method", JStr "store_ddl");
                                          ("params",
                                           JList [JObj [("data", JNull)]])] |}] |}).
Proof. reflexivity. Qed.

(** ** The RPC-backed operations *)

Lemma answers_silent : answers silent_env [].
Proof. split; intros; [reflexivity | eexists; reflexivity]. Qed.

(** C3, as stated, fails for remove_sql: without a result key it raises
    SQLRemoveError where the claim has it return False. *)
Lemma remove_sql_raises_without_result :
  ~ (api_key (signed_in "k" "demo") <> None ->
     org (signed_in "k" "demo") <> None ->
     answers silent_env [] ->
     checks_result silent_env "Flagged for Review" [] (signed_in "k" "demo")
       (op_remove_sql (JStr "How many?"))).
Proof.
  intros H.
  destruct (H ltac:(discriminate) ltac:(discriminate) answers_silent) as [R _].
  vm_compute in R. discriminate R.
Qed.

Ltac unfold_ops :=
  cbv beta iota zeta delta
    [perform get_datasets create_dataset add_user_to_dataset
     update_dataset_visibility add_sql add_ddl add_documentation
     flag_sql_for_review remove_sql remove_training_data generate_sql
     generate_followup_questions generate_questions generate_plotly_code
     generate_explanation generate_question get_all_questions
     get_training_data head_markdown
     __rpc_call __unauthenticated_rpc_call bind get_api_key_global get_org call
     ret raise when set_org_global result_missing result_of lift init log].

(** C3, amended: every operation of the family other than remove_sql and
    remove_training_data checks the response for the result key, returns its
    failure value without building a record when the key is absent, and
    otherwise builds its record from the value and returns what it derives
    from it.  get_all_questions and get_training_data do the same with None
    as the failure value: absent, they return None and build no record;
    present, they build a DataFrameJSON from the value, hand its data to
    pandas and return the frame it reads.  Without the key, remove_sql and
    remove_training_data raise, and the two users of the unauthenticated
    transport, get_api_key and _set_org, raise. *)
Theorem operations_check_result (env : Env) (FLAGGED_FOR_REVIEW : string)
  (kv : list (string * json)) (w : World) :
  api_key w <> None -> org w <> None -> answers env kv ->
  (forall op, raises_on_failure op = false ->
     checks_result env FLAGGED_FOR_REVIEW kv w op) /\
  (assoc "result" kv = None ->
   (forall question,
      fst (remove_sql env question w)
      = Raise (SQLRemoveError "Error removing SQL")) /\
   (forall id,
      fst (remove_training_data env id w)
      = Raise (Exception "Error removing training data")) /\
   fst (get_all_questions env w) = Return None /\
   fst (get_training_data env w) = Return None /\
   (forall email otp_code,
      environ env "VANNA_API_KEY" = None ->
      email <> "my-email@example.com" ->
      exists msg, fst (get_api_key env email otp_code w)
                  = Raise (OtpCodeError msg)) /\
   (forall dataset,
      fst (_set_org env dataset w)
      = Raise (ValidationError "Failed to check if dataset exists"))) /\
  checks_frame env kv w (get_all_questions env) /\
  checks_frame env kv w (get_training_data env).
Proof.
  intros K O [P Md]. destruct w as [k o rs t]. simpl in K, O.
  destruct k as [key|]; [|congruence]. destruct o as [o|]; [|congruence].
  split; [|split; [|split]].
  - intros op R. unfold checks_result.
    destruct op; try discriminate R; clear R.
    all: try (destruct (Md t (head df)) as [md Emd]).
    all: unfold_ops; simpl; rewrite ?Emd; simpl; rewrite ?P; simpl;
      unfold has_key; destruct (assoc "result" kv) as [v|] eqn:A; simpl.
    all: try (split; [reflexivity|];
              intros c v' H;
              repeat (destruct H as [H | H]; [discriminate H|]); exact H).
    all: destruct (construct _ v) as [e | built] eqn:C; simpl.
    all: try match goal with
             | |- context [if ?b then _ else _] => destruct b; simpl
             end.
    all: (split; [auto|]); intros obj H.
    all: first [discriminate H | inversion H; subst; reflexivity].
  - intros A.
    repeat split.
    + intros question. unfold_ops. simpl. rewrite P. simpl. unfold has_key.
      rewrite A. reflexivity.
    + intros id. unfold_ops. simpl. rewrite P. simpl. unfold has_key.
      rewrite A. reflexivity.
    + unfold_ops. simpl. rewrite P. simpl. unfold has_key.
      rewrite A. reflexivity.
    + unfold_ops. simpl. rewrite P. simpl. unfold has_key.
      rewrite A. reflexivity.
    + intros email otp_code V N. apply String.eqb_neq in N.
      unfold get_api_key. rewrite V, N. unfold_ops.
      destruct otp_code as [otp|]; simpl; rewrite P; simpl; unfold has_key;
        rewrite A; simpl; eexists; reflexivity.
    + intros dataset. unfold _set_org. unfold_ops. simpl.
      rewrite P. simpl. unfold has_key. rewrite A. simpl.
      rewrite P. simpl. unfold has_key. rewrite A. reflexivity.
  - unfold checks_frame. unfold_ops. simpl. rewrite P. simpl.
    unfold has_key. destruct (assoc "result" kv) as [v|] eqn:A; simpl.
    + destruct (construct DataFrameJSON_ v) as [e | built] eqn:C; simpl.
      * split; [auto|]. intros obj H. discriminate H.
      * destruct (read_json env _ (only_field built)) as [e | frame] eqn:R;
          simpl; (split; [auto|]); intros obj H; inversion H; subst;
          (split; [auto|]); intros df D; rewrite D in R; inversion R;
          reflexivity.
    + split; [reflexivity|].
      intros c v' H.
      repeat (destruct H as [H | H]; [discriminate H|]). exact H.
  - unfold checks_frame. unfold_ops. simpl. rewrite P. simpl.
    unfold has_key. destruct (assoc "result" kv) as [v|] eqn:A; simpl.
    + destruct (construct DataFrameJSON_ v) as [e | built] eqn:C; simpl.
      * split; [auto|]. intros obj H. discriminate H.
      * destruct (read_json env _ (only_field built)) as [e | frame] eqn:R;
          simpl; (split; [auto|]); intros obj H; inversion H; subst;
          (split; [auto|]); intros df D; rewrite D in R; inversion R;
          reflexivity.
    + split; [reflexivity|].
      intros c v' H.
      repeat (destruct H as [H | H]; [discriminate H|]). exact H.
Qed.

Lemma answers_answering (kv : list (string * json)) : answers (answering kv) kv.
Proof. split; intros; [reflexivity | eexists; reflexivity]. Qed.

Lemma operations_check_result_witness :
  (api_key (signed_in "k" "demo") <> None /\
   org (signed_in "k" "demo") <> None /\
   answers silent_env [] /\ answers (answering query_kv) query_kv /\
   answers (answering data_kv) data_kv /\
   raises_on_failure (op_generate_sql (JStr "How many?")) = false) /\
  checks_result silent_env "Flagged for Review" [] (signed_in "k" "demo")
    (op_generate_sql (JStr "How many?")) /\
  (In (EvInit SQLAnswer_
         (JObj [("raw_answer", JStr "SELECT 1"); ("prefix", JStr EmptyString);
                ("postfix", JStr EmptyString); ("sql", JStr "SELECT 1")]))
      (trace (snd (generate_sql (answering query_kv) (JStr "How many?")
                     (signed_in "k" "demo")))) /\
   fst (generate_sql (answering query_kv) (JStr "How many?")
          (signed_in "k" "demo"))
   = Return (JStr "SELECT 1")) /\
  (In (EvInit DataFrameJSON_ (JObj [("data", JStr "[]")]))
      (trace (snd (get_all_questions (answering data_kv)
                     (signed_in "k" "demo")))) /\
   In (EvReadJson (JStr "[]"))
      (trace (snd (get_all_questions (answering data_kv)
                     (signed_in "k" "demo")))) /\
   fst (get_all_questions (answering data_kv) (signed_in "k" "demo"))
   = Return (Some sample_frame)) /\
  fst (get_training_data silent_env (signed_in "k" "demo")) = Return None.
Proof.
  split.
  { split; [discriminate|]. split; [discriminate|].
    split; [exact answers_silent|].
    split; [exact (answers_answering query_kv)|].
    split; [exact (answers_answering data_kv)|]. reflexivity. }
  split.
  { apply (proj1 (operations_check_result silent_env "Flagged for Review" []
                    (signed_in "k" "demo")
                    ltac:(discriminate) ltac:(discriminate) answers_silent)).
    reflexivity. }
  split.
  { destruct (proj1 (operations_check_result (answering query_kv)
                       "Flagged for Review" query_kv (signed_in "k" "demo")
                       ltac:(discriminate) ltac:(discriminate)
                       (answers_answering query_kv))
                (op_generate_sql (JStr "How many?")) eq_refl) as [I D].
    split; [exact I|].
    exact (D [JStr "SELECT 1"; JStr EmptyString; JStr EmptyString;
              JStr "SELECT 1"] eq_refl). }
  split.
  { destruct (proj1 (proj2 (proj2
                (operations_check_result (answering data_kv)
                   "Flagged for Review" data_kv (signed_in "k" "demo")
                   ltac:(discriminate) ltac:(discriminate)
                   (answers_answering data_kv))))) as [I D].
    split; [exact I|].
    destruct (D [JStr "[]"] eq_refl) as [J F].
    split; [exact J|].
    apply F. intros tr. reflexivity. }
  destruct (proj2 (proj2 (proj2
              (operations_check_result silent_env "Flagged for Review" []
                 (signed_in "k" "demo")
                 ltac:(discriminate) ltac:(discriminate) answers_silent))))
    as [N _].
  exact N.
Defined.

Example generate_sql_with_result :
  fst (generate_sql
         (env_with (fun _ _ =>
            Return (JObj [("result",
                           JObj [("raw_answer", JStr "SELECT 1");
                                 ("prefix", JStr EmptyString);
                                 ("postfix", JStr EmptyString);
                                 ("sql", JStr "SELECT 1")])])))
         (JStr "How many?") (signed_in "k" "demo"))
  = Return (JStr "SELECT 1").
Proof. reflexivity. Qed.

Example add_sql_without_result :
  fst (add_sql silent_env (JStr "How many?") (JStr "SELECT 1") JNull
         (signed_in "k" "demo"))
  = Return JFalse.
Proof. reflexivity. Qed.

(** ** The pipeline *)

Example ask_after_followup_timeout :
  ask flaky_env "SQL Ran Successfully" (Some "How many?") true true true asking
  = (Return (JStr "SELECT 1", Some sample_frame, None, JNull),
     snd (ask flaky_env "SQL Ran Successfully" (Some "How many?") true true true
            asking)).
Proof. vm_compute. reflexivity. Qed.




(** ** The order of the stages *)

Lemma quiet_ret {A} (a : A) : quiet (ret a).
Proof. intro w. reflexivity. Qed.

Lemma quiet_raise {A} (e : exn) : quiet (@raise A e).
Proof. intro w. reflexivity. Qed.

Lemma quiet_lift {A} (o : outcome A) : quiet (lift o).
Proof. intro w. reflexivity. Qed.

Lemma quiet_call {A} (ev : Event) (oracle : Trace -> outcome A) :
  is_mark ev = false -> quiet (call ev oracle).
Proof. intros H w. unfold call, marks. simpl. rewrite H. reflexivity. Qed.

Lemma quiet_log (ev : Event) : is_mark ev = false -> quiet (log ev).
Proof. intros H w. unfold log, marks. simpl. rewrite H. reflexivity. Qed.

Lemma quiet_get_api_key : quiet get_api_key_global.
Proof. intro w. reflexivity. Qed.

Lemma quiet_get_org : quiet get_org.
Proof. intro w. reflexivity. Qed.

Lemma quiet_bind {A B} (m : M A) (k : A -> M B) :
  quiet m -> (forall a, quiet (k a)) -> quiet (bind m k).
Proof.
  intros Hm Hk w. unfold bind. specialize (Hm w).
  destruct (m w) as [[e | a] w1]; simpl in *; [assumption|].
  rewrite Hk. assumption.
Qed.

Lemma quiet_try_except {A} (body : M A) (handler : exn -> M A) :
  quiet body -> (forall e, quiet (handler e)) -> quiet (try_except body handler).
Proof.
  intros Hb Hh w. unfold try_except. specialize (Hb w).
  destruct (body w) as [[e | a] w1]; simpl in *; [|assumption].
  destruct (is_Exception e); simpl; [|assumption].
  rewrite Hh. assumption.
Qed.

Lemma quiet_try_class {A} (catches : exn -> bool) (body : M A)
  (handler : exn -> M A) :
  quiet body -> (forall e, quiet (handler e)) ->
  quiet (try_class catches body handler).
Proof.
  intros Hb Hh w. unfold try_class. specialize (Hb w).
  destruct (body w) as [[e | a] w1]; simpl in *; [|assumption].
  destruct (catches e); simpl; [|assumption].
  rewrite Hh. assumption.
Qed.

Lemma quiet_when (b : bool) (m : M unit) : quiet m -> quiet (when b m).
Proof. intros H. destruct b; [assumption | apply quiet_ret]. Qed.

Ltac hush :=
  repeat first
    [ assumption
    | apply quiet_ret | apply quiet_raise | apply quiet_lift
    | apply quiet_get_api_key | apply quiet_get_org
    | apply quiet_call; reflexivity | apply quiet_log; reflexivity
    | apply quiet_bind; [|intro]
    | apply quiet_try_except; [|intro]
    | apply quiet_try_class; [|intro]
    | apply quiet_when
    | match goal with
      | |- quiet (if ?b then _ else _) => destruct b
      | |- quiet (match ?x with _ => _ end) => destruct x
      end ].

Lemma quiet_rpc_call (env : Env) (method : string) (params : list param) :
  quiet (__rpc_call env method params).
Proof. unfold __rpc_call. hush. Qed.

Lemma quiet_remote (env : Env) (method : string) (params : list param)
  (c : cls) (failed : json) (field : instance -> json) :
  quiet (d <- __rpc_call env method params ;;
         missing <- result_missing d ;;
         if missing then ret failed
         else r <- result_of d ;; obj <- init c r ;; ret (field obj)).
Proof.
  apply quiet_bind; [apply quiet_rpc_call|]. intro d.
  unfold result_missing, result_of, init. hush.
Qed.

Lemma quiet_generate_sql (env : Env) (question : json) :
  quiet (generate_sql env question).
Proof. apply quiet_remote. Qed.

Lemma quiet_add_sql (env : Env) (question sql tag : json) :
  quiet (add_sql env question sql tag).
Proof. apply quiet_remote. Qed.

Lemma quiet_head_markdown (env : Env) (df : option DataFrame) :
  quiet (head_markdown env df).
Proof. unfold head_markdown. hush. Qed.

Lemma quiet_generate_plotly_code (env : Env) (question sql : json)
  (df : option DataFrame) :
  quiet (generate_plotly_code env question sql df).
Proof.
  unfold generate_plotly_code.
  apply quiet_bind; [apply quiet_head_markdown|]. intro md. apply quiet_remote.
Qed.

Lemma quiet_generate_followup_questions (env : Env) (question : json)
  (df : option DataFrame) :
  quiet (generate_followup_questions env question df).
Proof.
  unfold generate_followup_questions.
  apply quiet_bind; [apply quiet_head_markdown|]. intro md. apply quiet_remote.
Qed.

Lemma quiet_get_plotly_figure (env : Env) (code : json) (df : option DataFrame)
  (dark_mode : bool) :
  quiet (get_plotly_figure env code df dark_mode).
Proof. unfold get_plotly_figure. hush. Qed.

Lemma quiet_apply_run_sql (env : Env) (f : RunSql) (sql : json) :
  quiet (apply_run_sql env f sql).
Proof. unfold apply_run_sql, frame_of. destruct f; hush. Qed.

Lemma quiet_after_execute (env : Env) (SQL_RAN q : string) (sql : json)
  (df : option DataFrame) (print_results auto_train : bool) :
  quiet (after_execute env SQL_RAN q sql df print_results auto_train).
Proof. unfold after_execute. hush. Qed.

Lemma quiet_log_followups (fq : json) : quiet (log_followups fq).
Proof. unfold log_followups. hush. Qed.

(** A stage leaves its entry mark, and its return mark when it returns. *)
Lemma stage_marks {A} (s : Stage) (m : M A) (w : World) :
  quiet m ->
  match stage s m w with
  | (Raise _, w1) => marks (trace w1) = EvEnter s :: marks (trace w)
  | (Return _, w1) => marks (trace w1) = EvDone s :: EvEnter s :: marks (trace w)
  end.
Proof.
  intros Q. unfold stage, bind, log, ret. simpl.
  specialize (Q {| api_key := api_key w; org := org w; run_sql := run_sql w;
                   trace := EvEnter s :: trace w |}).
  destruct (m _) as [[e | a] w1]; simpl in *.
  - exact Q.
  - unfold marks in *. simpl. rewrite Q. reflexivity.
Qed.

Lemma generate_stage_marks (env : Env) (q : string) (w : World) :
  match generate_stage env q w with
  | (Raise _, w1) => marks (trace w1) = EvEnter GenerateQuery :: marks (trace w)
  | (Return _, w1) =>
      marks (trace w1)
      = EvDone GenerateQuery :: EvEnter GenerateQuery :: marks (trace w)
  end.
Proof. apply stage_marks. apply quiet_generate_sql. Qed.

Lemma execute_stage_marks (env : Env) (f : RunSql) (sql : json) (w : World) :
  match execute_stage env f sql w with
  | (Raise _, w1) => marks (trace w1) = EvEnter ExecuteQuery :: marks (trace w)
  | (Return _, w1) =>
      marks (trace w1)
      = EvDone ExecuteQuery :: EvEnter ExecuteQuery :: marks (trace w)
  end.
Proof. apply stage_marks. apply quiet_apply_run_sql. Qed.

Lemma chart_stage_marks (env : Env) (q : string) (sql : json)
  (df : option DataFrame) (print_results : bool) (w : World) :
  match chart_stage env q sql df print_results w with
  | (Raise _, w1) => marks (trace w1) = EvEnter GenerateChart :: marks (trace w)
  | (Return _, w1) =>
      marks (trace w1)
      = EvDone GenerateChart :: EvEnter GenerateChart :: marks (trace w)
  end.
Proof.
  apply stage_marks.
  apply quiet_bind; [apply quiet_generate_plotly_code|]. intro code.
  apply quiet_bind; [apply quiet_get_plotly_figure|]. intro fig.
  unfold fig_show. hush.
Qed.

Lemma followup_stage_marks (env : Env) (q : string) (df : option DataFrame)
  (w : World) :
  match followup_stage env q df w with
  | (Raise _, w1) =>
      marks (trace w1) = EvEnter GenerateFollowups :: marks (trace w)
  | (Return _, w1) =>
      marks (trace w1)
      = EvDone GenerateFollowups :: EvEnter GenerateFollowups
          :: marks (trace w)
  end.
Proof. apply stage_marks. apply quiet_generate_followup_questions. Qed.

(** Closes a case of the stage analysis: the marks added are named, counted
    against [pipeline], and the two conditions are read off the context. *)
Ltac close_case :=
  simpl;
  repeat match goal with
         | IE : is_Exception ?e = _ |- context [is_Exception ?e] =>
             rewrite IE; simpl
         end;
  repeat match goal with
         | E : marks (trace ?w) = _ |- context [marks (trace ?w)] => rewrite E
         end;
  give_calls; split; [reflexivity|];
  split;
  [ match goal with
    | |- exists n, rev ?l = @?R n => exists (List.length l); reflexivity
    end
  | split; simpl; intros H;
    repeat (destruct H as [H | H]; [try discriminate H|]);
    try contradiction; try congruence; try reflexivity ].

Lemma ask_marks (env : Env) (SQL_RAN q : string)
  (print_results auto_train generate_followups : bool) (w : World) :
  exists new,
    marks (trace (snd (ask env SQL_RAN (Some q) print_results auto_train
                         generate_followups w)))
    = (new ++ marks (trace w))%list /\
    (exists n, rev new = firstn n pipeline) /\
    (In (EvEnter ExecuteQuery) new -> run_sql w <> None) /\
    (In (EvEnter GenerateFollowups) new -> generate_followups = true).
Proof.
  reduce_ask.
  pose proof (generate_stage_marks env q w) as MG.
  destruct (generate_stage env q w) as [[e | sql] w1] eqn:G.
  { destruct (is_Exception e) eqn:IE; close_case. }
  same_run G. destruct S as [_ [_ S]]. rewrite S.
  destruct (run_sql w) as [f|] eqn:RS; [|close_case].
  pose proof (execute_stage_marks env f sql w1) as MX.
  destruct (execute_stage env f sql w1) as [[e | df] w2] eqn:X.
  { destruct (is_Exception e) eqn:IE; close_case. }
  pose proof (quiet_after_execute env SQL_RAN q sql df print_results auto_train
                w2) as MA.
  destruct (after_execute env SQL_RAN q sql df print_results auto_train w2)
    as [[e | u] w3] eqn:A; simpl in MA.
  { destruct (is_Exception e) eqn:IE; close_case. }
  pose proof (chart_stage_marks env q sql df print_results w3) as MC.
  destruct (chart_stage env q sql df print_results w3) as [[e | fig] w4] eqn:C.
  { destruct (is_Exception e) eqn:IE; close_case. }
  destruct generate_followups; [|close_case].
  pose proof (followup_stage_marks env q df w4) as MF.
  destruct (followup_stage env q df w4) as [[e | fq] w5] eqn:F.
  { destruct (is_Exception e) eqn:IE; close_case. }
  pose proof (quiet_log_followups fq w5) as ML.
  destruct (log_followups fq w5) as [[e | u'] w6] eqn:L; simpl in ML.
  { destruct (is_Exception e) eqn:IE; close_case. }
  close_case.
Qed.

Lemma ask_marks_any (env : Env) (SQL_RAN : string) (question : option string)
  (print_results auto_train generate_followups : bool) (w : World) :
  exists new,
    marks (trace (snd (ask env SQL_RAN question print_results auto_train
                         generate_followups w)))
    = (new ++ marks (trace w))%list /\
    (exists n, rev new = firstn n pipeline) /\
    (In (EvEnter ExecuteQuery) new -> run_sql w <> None) /\
    (In (EvEnter GenerateFollowups) new -> generate_followups = true).
Proof.
  destruct question as [q|]; [apply ask_marks|].
  destruct (input env (trace w) "Enter a question: ") as [e | q] eqn:I.
  - exists []. unfold ask, bind, call. rewrite I. simpl.
    split; [reflexivity|]. split; [exists 0; reflexivity|].
    split; intros H; destruct H.
  - pose proof (ask_marks env SQL_RAN q print_results auto_train
                  generate_followups
                  {| api_key := api_key w; org := org w; run_sql := run_sql w;
                     trace := EvInput "Enter a question: " :: trace w |}) as H.
    simpl in H.
    replace (ask env SQL_RAN None print_results auto_train generate_followups w)
      with (ask env SQL_RAN (Some q) print_results auto_train generate_followups
              {| api_key := api_key w; org := org w; run_sql := run_sql w;
                 trace := EvInput "Enter a question: " :: trace w |}).
    + exact H.
    + unfold ask, bind at 1, ret at 1, call.
      symmetry. unfold bind at 1. rewrite I. reflexivity.
Qed.

(** In a prefix of the pipeline, a stage is entered after the stages before
    it have returned. *)
Lemma prefix_completes (n : nat) (s s' : Stage) :
  In (EvEnter s) (firstn n pipeline) -> rank s' < rank s ->
  In (EvDone s') (firstn n pipeline).
Proof.
  intros H R.
  do 9 (try destruct n as [|n]); simpl in H;
    repeat (destruct H as [H | H];
            [ try discriminate H; inversion H; subst s | ]);
    try contradiction;
    destruct s'; simpl in R; try lia; simpl; auto 10.
Qed.

(** C4: in every invocation of ask the stages are entered in the order
    generate query, execute query, generate chart, generate follow-ups, each
    one only after all the earlier ones have returned: the marks ask adds to
    the trace are, in the order of time, a prefix of [pipeline].  The
    execute stage is entered only with run_sql set, the follow-up stage only
    with generate_followups true. *)
Theorem ask_stage_order (env : Env) (SQL_RAN : string) (question : option string)
  (print_results auto_train generate_followups : bool) (w : World) :
  exists new,
    marks (trace (snd (ask env SQL_RAN question print_results auto_train
                         generate_followups w)))
    = (new ++ marks (trace w))%list /\
    (exists n, rev new = firstn n pipeline) /\
    (forall s s', In (EvEnter s) new -> rank s' < rank s -> In (EvDone s') new) /\
    (In (EvEnter ExecuteQuery) new -> run_sql w <> None) /\
    (In (EvEnter GenerateFollowups) new -> generate_followups = true).
Proof.
  destruct (ask_marks_any env SQL_RAN question print_results auto_train
              generate_followups w) as [new [T [[n P] [X F]]]].
  exists new. split; [exact T|]. split; [exists n; exact P|].
  split; [|split; assumption].
  intros s s' H R. apply in_rev. rewrite P.
  apply (prefix_completes n s s'); [|exact R].
  rewrite <- P. apply in_rev in H. exact H.
Qed.

Example ask_complete_run :
  let r := ask steady_env "SQL Ran Successfully" (Some "How many?") true true
             true asking in
  fst r = Return (JStr "SELECT 1", Some sample_frame, Some 7,
                  JList [JStr "And last year?"]) /\
  rev (marks (trace (snd r))) = pipeline.
Proof. vm_compute. split; reflexivity. Qed.

Example ask_without_run_sql :
  let r := ask steady_env "SQL Ran Successfully" (Some "How many?") true true
             true (signed_in "k" "demo") in
  fst r = Return (JStr "SELECT 1", None, None, JNull) /\
  rev (marks (trace (snd r))) = firstn 2 pipeline.
Proof. vm_compute. split; reflexivity. Qed.

Example ask_followup_timeout_marks :
  rev (marks (trace (snd (ask flaky_env "SQL Ran Successfully"
                            (Some "How many?") true true true asking))))
  = firstn 7 pipeline.
Proof. vm_compute. reflexivity. Qed.

Example ask_before_signing_in :
  let r := ask steady_env "SQL Ran Successfully" (Some "How many?") true true
             true initial in
  fst r = Return (JNull, None, None, JNull) /\
  rev (marks (trace (snd r))) = firstn 1 pipeline.
Proof. vm_compute. split; reflexivity. Qed.

(** * Further properties of the module *)

(** ** Requests *)

Lemma subseq_nil (allowed : list (string * string)) : subseq [] allowed = true.
Proof. destruct allowed; reflexivity. Qed.

Lemma subseq_tail (x : string * string) (l allowed : list (string * string)) :
  subseq (x :: l) allowed = true -> subseq l allowed = true.
Proof.
  revert x l. induction allowed as [|a rest IH]; intros x l H; simpl in H.
  - discriminate H.
  - destruct l as [|y l']; [reflexivity|]. simpl.
    destruct (same_request x a).
    + destruct (same_request y a); [eapply IH; eassumption | assumption].
    + destruct (same_request y a); [|eapply IH; eassumption].
      apply IH in H. eapply IH. eassumption.
Qed.

Lemma subseq_skip (a : string * string) (l allowed : list (string * string)) :
  subseq l allowed = true -> subseq l (a :: allowed) = true.
Proof.
  intros H. destruct l as [|x l']; [reflexivity|]. simpl.
  destruct (same_request x a); [eapply subseq_tail; eassumption | assumption].
Qed.

Lemma subseq_app (a b l1 l2 : list (string * string)) :
  subseq a l1 = true -> subseq b l2 = true ->
  subseq (a ++ b) (l1 ++ l2) = true.
Proof.
  revert a. induction l1 as [|x l1 IH]; intros a Ha Hb.
  - destruct a; [exact Hb | discriminate Ha].
  - destruct a as [|y a'].
    + simpl. apply subseq_skip. apply (IH [] (subseq_nil l1) Hb).
    + simpl in *. destruct (same_request y x).
      * apply IH; assumption.
      * apply (IH (y :: a') Ha Hb).
Qed.

Lemma sends_nothing_any {A} (allowed : list (string * string)) (m : M A) :
  sends [] m -> sends allowed m.
Proof.
  intros H w. destruct (H w) as [new [T S]]. exists new. split; [exact T|].
  destruct (rev new); [apply subseq_nil | discriminate S].
Qed.

Lemma sends_ret {A} (a : A) : sends [] (ret a).
Proof. intro w. exists []. split; reflexivity. Qed.

Lemma sends_raise {A} (e : exn) : sends [] (@raise A e).
Proof. intro w. exists []. split; reflexivity. Qed.

Lemma sends_lift {A} (o : outcome A) : sends [] (lift o).
Proof. intro w. exists []. split; reflexivity. Qed.

Lemma sends_get {A} (f : World -> A) : sends [] (fun w => (Return (f w), w)).
Proof. intro w. exists []. split; reflexivity. Qed.

Lemma sends_call {A} (ev : Event) (oracle : Trace -> outcome A) :
  request_of ev = None -> sends [] (call ev oracle).
Proof.
  intros H w. exists []. unfold call. simpl. rewrite H. split; reflexivity.
Qed.

Lemma sends_log (ev : Event) : request_of ev = None -> sends [] (log ev).
Proof.
  intros H w. exists []. unfold log. simpl. rewrite H. split; reflexivity.
Qed.

Lemma sends_set (f : World -> World) :
  (forall w, trace (f w) = trace w) -> sends [] (fun w => (Return tt, f w)).
Proof. intros H w. exists []. simpl. rewrite H. split; reflexivity. Qed.

Lemma sends_bind {A B} (l1 l2 : list (string * string)) (m : M A)
  (k : A -> M B) :
  sends l1 m -> (forall a, sends l2 (k a)) -> sends (l1 ++ l2) (bind m k).
Proof.
  intros Hm Hk w. unfold bind. destruct (Hm w) as [n1 [T1 S1]].
  destruct (m w) as [[e | a] w1]; simpl in *.
  - exists n1. split; [exact T1|].
    rewrite <- (app_nil_r (rev n1)). apply subseq_app; [exact S1|].
    apply subseq_nil.
  - destruct (Hk a w1) as [n2 [T2 S2]]. exists (n2 ++ n1)%list. split.
    + rewrite T2, T1, app_assoc. reflexivity.
    + rewrite rev_app_distr. apply subseq_app; assumption.
Qed.

Lemma sends_before {A B} (l : list (string * string)) (m : M A) (k : A -> M B) :
  sends [] m -> (forall a, sends l (k a)) -> sends l (bind m k).
Proof. intros Hm Hk. apply (sends_bind [] l); assumption. Qed.

Lemma sends_after {A B} (l : list (string * string)) (m : M A) (k : A -> M B) :
  sends l m -> (forall a, sends [] (k a)) -> sends l (bind m k).
Proof.
  intros Hm Hk. rewrite <- (app_nil_r l). apply sends_bind; assumption.
Qed.

Lemma sends_then {A B} (x : string * string) (l : list (string * string))
  (m : M A) (k : A -> M B) :
  sends [x] m -> (forall a, sends l (k a)) -> sends (x :: l) (bind m k).
Proof. intros Hm Hk. apply (sends_bind [x] l); assumption. Qed.

Lemma sends_try_except {A} (l : list (string * string)) (body : M A)
  (handler : exn -> M A) :
  sends l body -> (forall e, sends [] (handler e)) ->
  sends l (try_except body handler).
Proof.
  intros Hb Hh w. unfold try_except. destruct (Hb w) as [n1 [T1 S1]].
  destruct (body w) as [[e | a] w1]; simpl in *;
    [|exists n1; split; assumption].
  destruct (is_Exception e); [|exists n1; split; assumption].
  destruct (Hh e w1) as [n2 [T2 S2]].
  destruct (rev n2) eqn:R; [|discriminate S2].
  apply (f_equal (@rev _)) in R. rewrite rev_involutive in R. subst n2.
  exists n1. split; [|exact S1]. rewrite T2, T1. reflexivity.
Qed.

Lemma sends_try_class {A} (catches : exn -> bool) (l : list (string * string))
  (body : M A) (handler : exn -> M A) :
  sends l body -> (forall e, sends [] (handler e)) ->
  sends l (try_class catches body handler).
Proof.
  intros Hb Hh w. unfold try_class. destruct (Hb w) as [n1 [T1 S1]].
  destruct (body w) as [[e | a] w1]; simpl in *;
    [|exists n1; split; assumption].
  destruct (catches e); [|exists n1; split; assumption].
  destruct (Hh e w1) as [n2 [T2 S2]].
  destruct (rev n2) eqn:R; [|discriminate S2].
  apply (f_equal (@rev _)) in R. rewrite rev_involutive in R. subst n2.
  exists n1. split; [|exact S1]. rewrite T2, T1. reflexivity.
Qed.

Lemma sends_when (l : list (string * string)) (b : bool) (m : M unit) :
  sends l m -> sends l (when b m).
Proof.
  intros H. destruct b; [exact H|]. apply sends_nothing_any. apply sends_ret.
Qed.

(** Settles [sends [] m] for a computation that calls no transport. *)
Ltac mute :=
  repeat first
    [ assumption
    | apply sends_ret | apply sends_raise | apply sends_lift
    | apply sends_call; reflexivity | apply sends_log; reflexivity
    | apply (sends_get api_key) | apply (sends_get org)
    | apply (sends_get run_sql)
    | apply sends_set; intro; reflexivity
    | apply (sends_bind [] []); [|intro]
    | apply sends_try_except; [|intro]
    | apply sends_try_class; [|intro]
    | apply sends_when
    | match goal with
      | |- sends [] (if ?b then _ else _) => destruct b
      | |- sends [] (match ?x with _ => _ end) => destruct x
      end ].

Lemma sends_rpc_call (env : Env) (method : string) (params : list param) :
  sends [authenticated method] (__rpc_call env method params).
Proof.
  intro w. unfold __rpc_call, bind, get_api_key_global, get_org, raise, call.
  destruct (api_key w) as [key|];
    [|exists []; split; [reflexivity | apply subseq_nil]].
  destruct (org w) as [o|]; destruct (String.eqb method "list_orgs");
    try (exists []; split; [reflexivity | apply subseq_nil]).
  all: exists [authenticated method]; split; [reflexivity|]; simpl;
    unfold same_request; simpl; rewrite !String.eqb_refl; reflexivity.
Qed.

Lemma sends_unauthenticated_rpc_call (env : Env) (method : string)
  (params : list param) :
  sends [unauthenticated method] (__unauthenticated_rpc_call env method params).
Proof.
  intro w. exists [unauthenticated method]. split; [reflexivity|]. simpl.
  unfold same_request. simpl. rewrite !String.eqb_refl. reflexivity.
Qed.

Lemma sends_stage {A} (l : list (string * string)) (s : Stage) (m : M A) :
  sends l m -> sends l (stage s m).
Proof.
  intros H. unfold stage. apply sends_before; [mute|]. intros _.
  apply sends_after; [exact H|]. intro a. mute.
Qed.

(** The shape of every remote operation: one call, then the reading of the
    response. *)
Lemma sends_remote {A} (env : Env) (method : string) (params : list param)
  (k : json -> M A) :
  (forall d, sends [] (k d)) ->
  sends [authenticated method] (d <- __rpc_call env method params ;; k d).
Proof. intros H. apply sends_after; [apply sends_rpc_call | exact H]. Qed.

Lemma sends_head_markdown (env : Env) (df : option DataFrame) :
  sends [] (head_markdown env df).
Proof. unfold head_markdown. mute. Qed.

Ltac remote :=
  apply sends_remote; intro;
  unfold result_missing, result_of, init; mute.

Lemma sends_generate_sql (env : Env) (question : json) :
  sends [authenticated "generate_sql_from_question"] (generate_sql env question).
Proof. unfold generate_sql. remote. Qed.

Lemma sends_add_sql (env : Env) (question sql tag : json) :
  sends [authenticated "store_sql"] (add_sql env question sql tag).
Proof. unfold add_sql. remote. Qed.

Lemma sends_generate_plotly_code (env : Env) (question sql : json)
  (df : option DataFrame) :
  sends [authenticated "generate_plotly_code"]
    (generate_plotly_code env question sql df).
Proof.
  unfold generate_plotly_code.
  apply sends_before; [apply sends_head_markdown|]. intro md. remote.
Qed.

Lemma sends_generate_followup_questions (env : Env) (question : json)
  (df : option DataFrame) :
  sends [authenticated "generate_followup_questions"]
    (generate_followup_questions env question df).
Proof.
  unfold generate_followup_questions.
  apply sends_before; [apply sends_head_markdown|]. intro md. remote.
Qed.

Lemma sends_get_datasets (env : Env) :
  sends [authenticated "list_orgs"] (get_datasets env).
Proof. unfold get_datasets. remote. Qed.

Lemma sends_create_dataset (env : Env) (dataset db_type : string) :
  sends [authenticated "create_org"] (create_dataset env dataset db_type).
Proof.
  unfold create_dataset.
  apply sends_before; [mute|]. intro o.
  apply sends_before; [unfold set_org_global; mute|]. intros _.
  apply sends_remote. intro d.
  unfold result_missing, result_of, init, set_org_global. mute.
Qed.

(** X1: every operation of the family sends at most one request, to the
    authenticated endpoint and with its own method: nothing is retried and
    no other remote method is called. *)
Theorem operations_send_one_request (env : Env) (FLAGGED_FOR_REVIEW : string)
  (op : operation) :
  sends [authenticated (method_name op)] (perform env FLAGGED_FOR_REVIEW op).
Proof.
  destruct op; simpl.
  - apply sends_get_datasets.
  - apply sends_create_dataset.
  - unfold add_user_to_dataset. remote.
  - unfold update_dataset_visibility. remote.
  - apply sends_add_sql.
  - unfold add_ddl. remote.
  - unfold add_documentation. remote.
  - unfold flag_sql_for_review. remote.
  - unfold remove_sql. remote.
  - unfold remove_training_data. remote.
  - apply sends_generate_sql.
  - apply sends_generate_followup_questions.
  - unfold generate_questions. remote.
  - apply sends_generate_plotly_code.
  - unfold generate_explanation. remote.
  - unfold generate_question. remote.
Qed.

Example add_sql_requests :
  requests (trace (snd (add_sql silent_env (JStr "How many?") (JStr "SELECT 1")
                          JNull (signed_in "k" "demo"))))
  = [authenticated "store_sql"].
Proof. reflexivity. Qed.

Lemma sends_apply_run_sql (env : Env) (f : RunSql) (sql : json) :
  sends [] (apply_run_sql env f sql).
Proof. unfold apply_run_sql, frame_of. destruct f; mute. Qed.

Lemma sends_get_plotly_figure (env : Env) (code : json) (df : option DataFrame)
  (dark_mode : bool) :
  sends [] (get_plotly_figure env code df dark_mode).
Proof. unfold get_plotly_figure. mute. Qed.

Lemma sends_after_execute (env : Env) (SQL_RAN q : string) (sql : json)
  (df : option DataFrame) (print_results auto_train : bool) :
  sends (if auto_train then [authenticated "store_sql"] else [])
    (after_execute env SQL_RAN q sql df print_results auto_train).
Proof.
  unfold after_execute.
  apply sends_before; [mute|]. intros _.
  apply sends_before; [mute|]. intro n.
  destruct auto_train.
  - apply sends_when. apply sends_after; [apply sends_add_sql|]. intro. mute.
  - rewrite Bool.andb_false_r. apply sends_ret.
Qed.

Lemma sends_chart_stage (env : Env) (q : string) (sql : json)
  (df : option DataFrame) (print_results : bool) :
  sends [authenticated "generate_plotly_code"]
    (chart_stage env q sql df print_results).
Proof.
  unfold chart_stage. apply sends_stage.
  apply sends_after; [apply sends_generate_plotly_code|]. intro code.
  apply sends_before; [apply sends_get_plotly_figure|]. intro fig.
  unfold fig_show. mute.
Qed.

(** X2: ask sends its requests in a fixed order and each at most once:
    generate_sql_from_question, then store_sql (only with auto_train), then
    generate_plotly_code, then generate_followup_questions (only with
    generate_followups), all to the authenticated endpoint. *)
Theorem ask_sends_in_order (env : Env) (SQL_RAN : string)
  (question : option string)
  (print_results auto_train generate_followups : bool) :
  sends (ask_requests auto_train generate_followups)
    (ask env SQL_RAN question print_results auto_train generate_followups).
Proof.
  unfold ask, ask_requests.
  apply sends_before; [destruct question; mute|]. intro q.
  apply sends_then.
  { apply sends_try_except; [|intro; mute].
    apply sends_after; [|intro; mute].
    unfold generate_stage. apply sends_stage. apply sends_generate_sql. }
  intros [sql|]; [|apply sends_nothing_any; mute].
  apply sends_before; [mute|].
  intros [f|]; [|apply sends_nothing_any; mute].
  apply sends_try_except; [|intro; mute].
  apply sends_before.
  { unfold execute_stage. apply sends_stage. apply sends_apply_run_sql. }
  intro df. apply sends_bind; [apply sends_after_execute|]. intros _.
  apply sends_try_except; [|intro; mute].
  apply sends_then; [apply sends_chart_stage|]. intro fig.
  destruct generate_followups; [|mute].
  apply sends_after.
  - unfold followup_stage. apply sends_stage.
    apply sends_generate_followup_questions.
  - intro fq. unfold log_followups. mute.
Qed.

Example ask_complete_run_requests :
  rev (requests (trace (snd (ask steady_env "SQL Ran Successfully"
                               (Some "How many?") true true true asking))))
  = ask_requests true true.
Proof. vm_compute. reflexivity. Qed.

(** X3: the session operations and their requests.  set_api_key asks for
    the datasets once; get_api_key talks to the unauthenticated endpoint
    only, send_otp then verify_otp, and with a code supplied verify_otp
    alone; set_dataset lists the datasets, then checks the name without
    authentication, then creates the dataset, in that order and each at most
    once. *)
Theorem session_requests (env : Env) :
  (forall key, sends [authenticated "list_orgs"] (set_api_key env key)) /\
  (forall email otp_code,
     sends [unauthenticated "send_otp"; unauthenticated "verify_otp"]
       (get_api_key env email otp_code)) /\
  (forall email code,
     sends [unauthenticated "verify_otp"] (get_api_key env email (Some code))) /\
  (forall dataset,
     sends [authenticated "list_orgs"; unauthenticated "check_org_exists";
            authenticated "create_org"]
       (set_dataset env dataset)).
Proof.
  assert (V : forall email otp,
             sends [unauthenticated "verify_otp"]
               (d <- __unauthenticated_rpc_call env "verify_otp"
                       [UserOTP (JStr email) (JStr otp)] ;;
                missing <- result_missing d ;;
                if missing then raise (OtpCodeError "Error verifying OTP code.")
                else r <- result_of d ;; key <- init ApiKey_ r ;;
                     ret (only_field key))).
  { intros email otp.
    apply sends_after; [apply sends_unauthenticated_rpc_call|]. intro d.
    unfold result_missing, result_of, init. mute. }
  assert (O : forall o,
             sends [authenticated "list_orgs";
                    unauthenticated "check_org_exists";
                    authenticated "create_org"] (_set_org env o)).
  { intro o. unfold _set_org.
    apply sends_then; [apply sends_get_datasets|]. intro my_orgs.
    apply sends_before; [mute|]. intro member.
    destruct (negb member);
      [|apply sends_nothing_any; unfold set_org_global; mute].
    apply sends_then; [apply sends_unauthenticated_rpc_call|]. intro d.
    apply sends_before; [unfold result_missing; mute|]. intro missing.
    destruct missing; [apply sends_nothing_any; mute|].
    apply sends_before; [unfold result_of; mute|]. intro r.
    apply sends_before; [unfold init; mute|]. intro status.
    destruct (truthy (success status)); [apply sends_nothing_any; mute|].
    apply sends_before; [mute|]. intro create.
    destruct (String.eqb create "y" || String.eqb create "Y");
      [|apply sends_nothing_any; mute].
    apply sends_before; [mute|]. intro db_type.
    apply sends_after; [apply sends_create_dataset|]. intro created.
    unfold set_org_global. mute. }
  split; [|split; [|split]].
  - intro key. unfold set_api_key.
    apply sends_before; [unfold set_api_key_global; mute|]. intros _.
    apply sends_after; [apply sends_get_datasets|]. intro ds. mute.
  - intros email otp_code. unfold get_api_key.
    destruct (environ env "VANNA_API_KEY"); [apply sends_nothing_any; mute|].
    destruct (String.eqb email "my-email@example.com");
      [apply sends_nothing_any; mute|].
    apply sends_then; [|intro otp; apply V].
    destruct otp_code as [otp|]; [apply sends_nothing_any; mute|].
    apply sends_after; [apply sends_unauthenticated_rpc_call|]. intro d.
    unfold result_missing, result_of, init. mute.
  - intros email code. unfold get_api_key.
    destruct (environ env "VANNA_API_KEY"); [apply sends_nothing_any; mute|].
    destruct (String.eqb email "my-email@example.com");
      [apply sends_nothing_any; mute|].
    apply sends_before; [mute|]. intro otp. apply V.
  - intro dataset. unfold set_dataset.
    destruct (String.eqb dataset "my-dataset"); [|apply O].
    destruct (environ env "VANNA_DATASET"); [apply O|].
    apply sends_nothing_any. mute.
Qed.

(** ** Headers *)

(** X4: what the transports disclose.  A request of the unauthenticated
    transport carries the content type and nothing else, so never the API
    key; a request of the authenticated transport carries the key and the
    active dataset, except that list_orgs always names 'demo-tpc-h',
    whatever dataset is active. *)
Theorem transport_headers (env : Env) (method : string) (params : list param)
  (w : World) :
  (forall req,
     In (EvPost req)
        (trace (snd (__unauthenticated_rpc_call env method params w))) ->
     In (EvPost req) (trace w) \/
     headers req = [("Content-Type", "application/json")]) /\
  (forall req key,
     api_key w = Some key ->
     In (EvPost req) (trace (snd (__rpc_call env method params w))) ->
     In (EvPost req) (trace w) \/
     headers req = authenticated_headers key (org w) method).
Proof.
  split.
  - intros req [H | H]; [|left; exact H].
    inversion H; subst. right. reflexivity.
  - intros req key K. destruct w as [k o rs t]. simpl in K. subst k.
    unfold authenticated_headers.
    cbv beta iota zeta delta
      [__rpc_call bind get_api_key_global get_org call raise].
    simpl.
    destruct o as [o|]; destruct (String.eqb method "list_orgs"); simpl;
      intros H; try (left; exact H);
      (destruct H as [H | H]; [|left; exact H]);
      inversion H; subst; right; reflexivity.
Qed.

Lemma transport_headers_witness :
  api_key (signed_in "k" "demo") = Some "k" /\
  forall req,
    In (EvPost req)
       (trace (snd (__rpc_call silent_env "list_orgs" [] (signed_in "k" "demo")))) ->
    In (EvPost req) (trace (signed_in "k" "demo")) \/
    headers req = authenticated_headers "k" (Some "demo") "list_orgs".
Proof.
  split; [reflexivity|]. intros req.
  apply (proj2 (transport_headers silent_env "list_orgs" []
                  (signed_in "k" "demo")) req "k").
  reflexivity.
Defined.

Example list_orgs_names_the_demo_dataset :
  trace (snd (get_datasets silent_env (signed_in "k" "sales")))
  = [EvPost {| url := _endpoint;
               headers := [("Content-Type", "application/json");
                           ("Vanna-Key", "k"); ("Vanna-Org", "demo-tpc-h")];
               body := JObj [("method", JStr "list_orgs");
                             ("params", JList [])] |}].
Proof. reflexivity. Qed.

(** ** What the operations leave alone *)

Lemma keeps_get_api_key_fn (env : Env) (email : string)
  (otp_code : option string) :
  keeps_session (get_api_key env email otp_code).
Proof. unfold get_api_key. frame. Qed.

(** X5: apart from create_dataset, no operation of the family assigns a
    global: the API key, the active dataset and run_sql are the same after
    the call, whatever its outcome.  The same holds of get_all_questions,
    get_training_data and of get_api_key, which returns the key without
    storing it. *)
Theorem operations_keep_session (env : Env) (FLAGGED_FOR_REVIEW : string) :
  (forall op, assigns_dataset op = false ->
     keeps_session (perform env FLAGGED_FOR_REVIEW op)) /\
  keeps_session (get_all_questions env) /\
  keeps_session (get_training_data env) /\
  (forall email otp_code, keeps_session (get_api_key env email otp_code)).
Proof.
  split; [|split; [|split]].
  - intros op H. destruct op; try discriminate H; simpl.
    all: unfold get_datasets, add_user_to_dataset, update_dataset_visibility,
           add_sql, add_ddl, add_documentation, flag_sql_for_review,
           remove_sql, remove_training_data, generate_sql,
           generate_followup_questions, generate_questions,
           generate_plotly_code, generate_explanation, generate_question.
    all: frame.
  - unfold get_all_questions. frame.
  - unfold get_training_data. frame.
  - apply keeps_get_api_key_fn.
Qed.

Lemma operations_keep_session_witness :
  assigns_dataset (op_add_sql (JStr "q") (JStr "s") JNull) = false /\
  same_session (signed_in "k" "demo")
    (snd (perform silent_env "Flagged for Review"
            (op_add_sql (JStr "q") (JStr "s") JNull) (signed_in "k" "demo"))).
Proof.
  split; [reflexivity|].
  apply (proj1 (operations_keep_session silent_env "Flagged for Review")
           (op_add_sql (JStr "q") (JStr "s") JNull)).
  reflexivity.
Defined.

(** X6: obtaining a key does not sign in.  When no API key is set and
    get_api_key returns a key, the authenticated transport still raises
    ImproperlyConfigured afterwards and sends nothing: the key has to be
    handed to set_api_key. *)
Theorem get_api_key_does_not_sign_in (env : Env) (email : string)
  (otp_code : option string) (w w' : World) (key : json)
  (method : string) (params : list param) :
  api_key w = None ->
  get_api_key env email otp_code w = (Return key, w') ->
  exists msg,
    __rpc_call env method params w' = (Raise (ImproperlyConfigured msg), w').
Proof.
  intros K G.
  pose proof (keeps_get_api_key_fn env email otp_code w) as [A _].
  rewrite G in A. simpl in A. rewrite K in A.
  unfold __rpc_call, bind, get_api_key_global, get_org, raise.
  rewrite A. eexists. reflexivity.
Qed.

Lemma get_api_key_does_not_sign_in_witness :
  api_key initial = None /\
  get_api_key key_env "me@example.com" (Some "123456") initial
  = (Return (JStr "K1"),
     snd (get_api_key key_env "me@example.com" (Some "123456") initial)) /\
  exists msg,
    __rpc_call key_env "list_orgs" []
      (snd (get_api_key key_env "me@example.com" (Some "123456") initial))
    = (Raise (ImproperlyConfigured msg),
       snd (get_api_key key_env "me@example.com" (Some "123456") initial)).
Proof.
  split; [reflexivity|]. split; [vm_compute; reflexivity|].
  apply (get_api_key_does_not_sign_in key_env "me@example.com" (Some "123456")
           initial
           (snd (get_api_key key_env "me@example.com" (Some "123456") initial))
           (JStr "K1")).
  - reflexivity.
  - vm_compute. reflexivity.
Defined.

(** X7: remove_sql and remove_training_data never return a false value:
    whatever they return is true, and every failure is an exception.  When
    the server's answer has no result key they raise ('Error removing SQL'
    as a SQLRemoveError, 'Error removing training data' as an Exception),
    and when the Status of the answer does not report success they raise
    the same with the server's message appended. *)
Theorem remove_returns_only_true (env : Env) (x : json) (w w' : World)
  (v : json) :
  (remove_sql env x w = (Return v, w') -> truthy v = true) /\
  (remove_training_data env x w = (Return v, w') -> truthy v = true) /\
  (forall key o d,
     api_key w = Some key -> org w = Some o ->
     post env (trace w) (authenticated_request key o "remove_sql" [Question x])
     = Return d ->
     (py_in "result" d = Return false ->
      fst (remove_sql env x w) = Raise (SQLRemoveError "Error removing SQL")) /\
     (forall r status,
        py_in "result" d = Return true ->
        py_getitem d "result" = Return r ->
        construct Status_ r = Return status ->
        truthy (success status) = false ->
        fst (remove_sql env x w)
        = Raise (SQLRemoveError
                   ("Error removing SQL: " ++ py_str env (message status))))) /\
  (forall key o d,
     api_key w = Some key -> org w = Some o ->
     post env (trace w)
       (authenticated_request key o "remove_training_data" [StringData x])
     = Return d ->
     (py_in "result" d = Return false ->
      fst (remove_training_data env x w)
      = Raise (Exception "Error removing training data")) /\
     (forall r status,
        py_in "result" d = Return true ->
        py_getitem d "result" = Return r ->
        construct Status_ r = Return status ->
        truthy (success status) = false ->
        fst (remove_training_data env x w)
        = Raise (Exception
                   ("Error removing training data: "
                    ++ py_str env (message status))))).
Proof.
  destruct w as [k o rs t].
  split; [|split; [|split]].
  1, 2: intros H;
    cbv beta iota zeta delta
      [remove_sql remove_training_data __rpc_call bind get_api_key_global
       get_org call ret raise result_missing result_of lift init log] in H;
    simpl in H;
    (destruct k as [key|]; [|discriminate H]);
    (destruct o as [o|]; [|discriminate H]); simpl in H;
    (destruct (post env t _) as [e | d]; [discriminate H|]); simpl in H;
    (destruct (py_in "result" d) as [e | has]; [discriminate H|]); simpl in H;
    (destruct has; [|discriminate H]); simpl in H;
    (destruct (py_getitem d "result") as [e | r]; [discriminate H|]);
    simpl in H;
    (destruct (construct Status_ r) as [e | status]; [discriminate H|]);
    simpl in H;
    (destruct (truthy (success status)) eqn:T; [|discriminate H]);
    simpl in H; inversion H; subst; exact T.
  all: intros key o' d K O P; simpl in K, O, P; subst k o;
    unfold authenticated_request in P;
    cbv beta iota zeta delta
      [remove_sql remove_training_data __rpc_call bind get_api_key_global
       get_org call ret raise result_missing result_of lift init log];
    simpl; rewrite P; simpl; split;
    [ intros I; rewrite I; reflexivity
    | intros r status I G C T; rewrite I; simpl; rewrite G; simpl;
      rewrite C; simpl; rewrite T; reflexivity ].
Qed.

Lemma remove_returns_only_true_witness :
  (remove_sql approving_env (JStr "How many?") (signed_in "k" "demo")
   = (Return (JBool true),
      snd (remove_sql approving_env (JStr "How many?") (signed_in "k" "demo")))
   /\ truthy (JBool true) = true) /\
  (truthy (success [JBool false; JStr "no such question"]) = false /\
   fst (remove_sql refusing_env (JStr "How many?") (signed_in "k" "demo"))
   = Raise (SQLRemoveError
              ("Error removing SQL: "
               ++ py_str refusing_env (JStr "no such question")))) /\
  fst (remove_training_data silent_env (JStr "17") (signed_in "k" "demo"))
  = Raise (Exception "Error removing training data").
Proof.
  split; [|split].
  - split; [vm_compute; reflexivity|].
    apply (proj1 (remove_returns_only_true approving_env
                    (JStr "How many?") (signed_in "k" "demo")
                    (snd (remove_sql approving_env (JStr "How many?")
                            (signed_in "k" "demo")))
                    (JBool true))).
    vm_compute. reflexivity.
  - split; [reflexivity|].
    apply (proj2 (proj1 (proj2 (proj2
             (remove_returns_only_true refusing_env (JStr "How many?")
                (signed_in "k" "demo") (signed_in "k" "demo") JNull)))
             "k" "demo" _ eq_refl eq_refl eq_refl)
             (JObj [("success", JBool false);
                    ("message", JStr "no such question")])
             [JBool false; JStr "no such question"]);
      reflexivity.
  - apply (proj1 (proj2 (proj2 (proj2
             (remove_returns_only_true silent_env (JStr "17")
                (signed_in "k" "demo") (signed_in "k" "demo") JNull)))
             "k" "demo" _ eq_refl eq_refl eq_refl)).
    reflexivity.
Defined.

(** ** What ask returns *)

Lemma after_execute_frame (env : Env) (SQL_RAN q : string) (sql : json)
  (df : option DataFrame) (print_results auto_train : bool) (w w' : World)
  (u : unit) :
  after_execute env SQL_RAN q sql df print_results auto_train w = (Return u, w') ->
  df <> None.
Proof.
  intros H. destruct df as [d|]; [discriminate|]. exfalso.
  unfold after_execute in H. unfold bind at 1 in H.
  destruct (when print_results _ w) as [[e | u0] w1]; [discriminate H|].
  unfold bind, lift in H. simpl in H. discriminate H.
Qed.

Lemma chart_stage_shown (env : Env) (q : string) (sql : json)
  (df : option DataFrame) (w w' : World) (fig : option Figure) :
  chart_stage env q sql df true w = (Return fig, w') -> fig <> None.
Proof.
  intros H. destruct fig as [f|]; [discriminate|]. exfalso.
  unfold chart_stage, stage in H. unfold bind at 1 in H. simpl in H.
  unfold bind at 1 in H. unfold bind at 1 in H.
  destruct (generate_plotly_code env (JStr q) sql df _) as [[e | code] w1];
    [discriminate H|].
  unfold bind at 1 in H.
  destruct (get_plotly_figure env code df true w1) as [[e | fig] w2];
    [discriminate H|].
  destruct fig as [f|]; unfold bind, when, fig_show, raise, call, ret, log in H;
    simpl in H.
  - destruct (show env (trace w2) f); [discriminate H|].
    inversion H.
  - discriminate H.
Qed.

Lemma ask_outcome (env : Env) (SQL_RAN q : string)
  (print_results auto_train generate_followups : bool) (w : World) :
  match fst (ask env SQL_RAN (Some q) print_results auto_train
               generate_followups w) with
  | Raise e => is_Exception e = false
  | Return (sql, df, fig, followup_questions) =>
      (df = None -> fig = None /\ followup_questions = JNull) /\
      (generate_followups = false -> followup_questions = JNull) /\
      (run_sql w = None -> df = None) /\
      (print_results = true -> fig = None -> followup_questions = JNull)
  end.
Proof.
  reduce_ask.
  destruct (generate_stage env q w) as [[e | sql] w1] eqn:G.
  { destruct (is_Exception e) eqn:IE; simpl; [|first [exact IE | reflexivity]]. repeat split. }
  same_run G. destruct S as [_ [_ S]]. rewrite S.
  destruct (run_sql w) as [f|] eqn:RS; [|simpl; repeat split].
  destruct (execute_stage env f sql w1) as [[e | df] w2] eqn:X.
  { destruct (is_Exception e) eqn:IE; simpl; [|first [exact IE | reflexivity]].
    repeat split; discriminate. }
  destruct (after_execute env SQL_RAN q sql df print_results auto_train w2)
    as [[e | u] w3] eqn:A.
  { destruct (is_Exception e) eqn:IE; simpl; [|first [exact IE | reflexivity]].
    repeat split; discriminate. }
  pose proof (after_execute_frame _ _ _ _ _ _ _ _ _ _ A) as D.
  destruct (chart_stage env q sql df print_results w3) as [[e | fig] w4] eqn:C.
  { destruct (is_Exception e) eqn:IE; simpl; rewrite ?IE; simpl; [|first [exact IE | reflexivity]].
    repeat split; try discriminate; intros; contradiction. }
  destruct generate_followups.
  2: { simpl. repeat split; try discriminate; intros; contradiction. }
  destruct (followup_stage env q df w4) as [[e | fq] w5] eqn:F.
  { destruct (is_Exception e) eqn:IE; simpl; rewrite ?IE; simpl; [|first [exact IE | reflexivity]].
    repeat split; try discriminate; intros; contradiction. }
  destruct (log_followups fq w5) as [[e | u'] w6] eqn:L.
  { destruct (is_Exception e) eqn:IE; simpl; rewrite ?IE; simpl; [|first [exact IE | reflexivity]].
    repeat split; try discriminate; intros; contradiction. }
  simpl. repeat split; try discriminate; try (intros; contradiction).
  intros P N. subst print_results fig.
  exfalso. apply (chart_stage_shown _ _ _ _ _ _ _ C). reflexivity.
Qed.

(** X8: ask, called with a question, never raises an exception of class
    Exception: it either returns its four results or lets through an
    exception that except Exception does not catch, such as a keyboard
    interrupt. *)
Theorem ask_never_raises (env : Env) (SQL_RAN q : string)
  (print_results auto_train generate_followups : bool) (w : World) :
  (exists answer,
     fst (ask env SQL_RAN (Some q) print_results auto_train
            generate_followups w) = Return answer) \/
  (exists e,
     fst (ask env SQL_RAN (Some q) print_results auto_train
            generate_followups w) = Raise e /\
     is_Exception e = false).
Proof.
  pose proof (ask_outcome env SQL_RAN q print_results auto_train
                generate_followups w) as H.
  destruct (fst (ask env SQL_RAN (Some q) print_results auto_train
                   generate_followups w)) as [e | answer].
  - right. exists e. split; [reflexivity | exact H].
  - left. exists answer. reflexivity.
Qed.

(** X9: the shape of what ask returns.  Without a frame there is neither a
    figure nor follow-up questions; without run_sql there is no frame;
    with generate_followups off there are no follow-up questions; and with
    print_results on, follow-up questions come only with a figure. *)
Theorem ask_answer_shape (env : Env) (SQL_RAN q : string)
  (print_results auto_train generate_followups : bool) (w : World)
  (sql : json) (df : option DataFrame) (fig : option Figure)
  (followup_questions : json) :
  fst (ask env SQL_RAN (Some q) print_results auto_train generate_followups w)
  = Return (sql, df, fig, followup_questions) ->
  (df = None -> fig = None /\ followup_questions = JNull) /\
  (generate_followups = false -> followup_questions = JNull) /\
  (run_sql w = None -> df = None) /\
  (print_results = true -> fig = None -> followup_questions = JNull).
Proof.
  intros H.
  pose proof (ask_outcome env SQL_RAN q print_results auto_train
                generate_followups w) as O.
  rewrite H in O. exact O.
Qed.

Lemma ask_answer_shape_witness :
  fst (ask flaky_env "SQL Ran Successfully" (Some "How many?") true true true
         asking)
  = Return (JStr "SELECT 1", Some sample_frame, None, JNull) /\
  (true = true -> @None Figure = None -> JNull = JNull).
Proof.
  split; [vm_compute; reflexivity|].
  apply (ask_answer_shape flaky_env "SQL Ran Successfully" "How many?" true
           true true asking (JStr "SELECT 1") (Some sample_frame) None JNull).
  vm_compute. reflexivity.
Defined.

(** ** train *)

(** X10: train with a question and no SQL never returns: it runs ask on the
    example question, with printing, training and follow-ups on, and then
    raises.  Everything ask did has happened: the session and the record of
    calls after train are those after that ask.  An exception ask let
    through is raised as it is; otherwise train raises a ValidationError
    whose message quotes the example question and what ask returned. *)
Theorem train_question_without_sql_raises (env : Env) (SQL_RAN : string)
  (question sql ddl : option string) (documentation : bool)
  (json_file sql_file : option string) (w : World) :
  truthy_str question = true -> truthy_str sql = false ->
  (exists e,
     fst (train env SQL_RAN question sql ddl documentation json_file sql_file w)
     = Raise e /\
     (is_Exception e = true -> exists msg, e = ValidationError msg)) /\
  snd (train env SQL_RAN question sql ddl documentation json_file sql_file w)
  = snd (ask env SQL_RAN (Some example_question) true true true w) /\
  (forall e,
     fst (ask env SQL_RAN (Some example_question) true true true w) = Raise e ->
     fst (train env SQL_RAN question sql ddl documentation json_file sql_file w)
     = Raise e) /\
  (forall answer,
     fst (ask env SQL_RAN (Some example_question) true true true w)
     = Return answer ->
     fst (train env SQL_RAN question sql ddl documentation json_file sql_file w)
     = Raise (ValidationError
                ("Please also provide a SQL query " ++ nl
                 ++ " Example Question:  " ++ example_question ++ nl
                 ++ " Answer: " ++ py_str_answer env answer))).
Proof.
  intros Q S. unfold train. rewrite Q, S. simpl. unfold bind.
  pose proof (ask_outcome env SQL_RAN example_question true true true w) as O.
  destruct (ask env SQL_RAN (Some example_question) true true true w)
    as [[e | answer] w1]; simpl in *.
  - split; [|split; [reflexivity|split]].
    + exists e. split; [reflexivity|]. intros E. congruence.
    + intros e' H. inversion H. reflexivity.
    + intros answer H. discriminate H.
  - split; [|split; [reflexivity|split]].
    + eexists. split; [reflexivity|]. intros _. eexists. reflexivity.
    + intros e' H. discriminate H.
    + intros answer' H. inversion H. reflexivity.
Qed.

Lemma train_question_without_sql_raises_witness :
  (truthy_str (Some "How many?") = true /\ truthy_str None = false) /\
  rev (requests
         (trace (snd (train steady_env "SQL Ran Successfully"
                        (Some "How many?") None None false None None asking))))
  = ask_requests true true /\
  exists msg,
    fst (train steady_env "SQL Ran Successfully" (Some "How many?") None None
           false None None asking)
    = Raise (ValidationError msg).
Proof.
  split; [split; reflexivity|].
  destruct (train_question_without_sql_raises steady_env
              "SQL Ran Successfully" (Some "How many?") None None false None
              None asking eq_refl eq_refl) as [_ [W [_ A]]].
  split.
  - rewrite W. vm_compute. reflexivity.
  - eexists.
    apply (A (JStr "SELECT 1", Some sample_frame, Some 7,
              JList [JStr "And last year?"])).
    vm_compute. reflexivity.
Defined.

(** X11: with SQL given, train looks at nothing but the SQL and the
    documentation flag: the question, the DDL and the two files make no
    difference, and the question stored is the generated one. *)
Theorem train_with_sql_ignores_the_rest (env : Env) (SQL_RAN : string)
  (question sql ddl : option string) (documentation : bool)
  (json_file sql_file : option string) (w : World) :
  truthy_str sql = true ->
  train env SQL_RAN question sql ddl documentation json_file sql_file w
  = (if documentation then add_documentation env (opt_json sql)
     else generated <- generate_question env (opt_json sql) ;;
          add_sql env generated (opt_json sql) Manually_Trained) w.
Proof.
  intros S. unfold train. rewrite S. rewrite Bool.andb_false_r.
  destruct documentation; reflexivity.
Qed.

Lemma train_with_sql_ignores_the_rest_witness :
  truthy_str (Some "SELECT 1") = true /\
  train silent_env "SQL Ran Successfully" (Some "How many?") (Some "SELECT 1")
    (Some "CREATE TABLE t (id INT)") false (Some "pairs.json") (Some "all.sql")
    (signed_in "k" "demo")
  = (generated <- generate_question silent_env (opt_json (Some "SELECT 1")) ;;
     add_sql silent_env generated (opt_json (Some "SELECT 1")) Manually_Trained)
      (signed_in "k" "demo").
Proof.
  split; [reflexivity|].
  apply (train_with_sql_ignores_the_rest silent_env "SQL Ran Successfully"
           (Some "How many?") (Some "SELECT 1") (Some "CREATE TABLE t (id INT)")
           false (Some "pairs.json") (Some "all.sql") (signed_in "k" "demo")).
  reflexivity.
Defined.

(** X12: of a SQL file train uses the first statement only: what follows it
    in the file changes neither the result nor the requests. *)
Theorem train_sql_file_first_statement (env : Env) (SQL_RAN : string)
  (question sql ddl : option string) (documentation : bool)
  (json_file sql_file : option string) (w : World)
  (statement : string) (others : list string) :
  train (with_statements env (statement :: others)) SQL_RAN question sql ddl
    documentation json_file sql_file w
  = train (with_statements env [statement]) SQL_RAN question sql ddl
      documentation json_file sql_file w.
Proof. reflexivity. Qed.

Example train_sql_file_run :
  requests (trace (snd (train
                          (with_statements approving_env
                             ["CREATE TABLE t (id INT)"; "SELECT 1"; "SELECT 2"])
                          "SQL Ran Successfully" None None None false None
                          (Some "all.sql") (signed_in "k" "demo"))))
  = [authenticated "store_ddl"].
Proof. vm_compute. reflexivity. Qed.

(** X13: train with a JSON file and no SQL file never reports success: when
    it returns, it returns None, whatever the server answered for each
    pair. *)
Theorem train_json_file_returns_none (env : Env) (SQL_RAN : string)
  (question sql ddl : option string) (documentation : bool)
  (json_file : option string) (w w' : World) (v : json) :
  truthy_str sql = false -> truthy_str ddl = false ->
  train env SQL_RAN question sql ddl documentation json_file None w
  = (Return v, w') ->
  v = JNull.
Proof.
  intros S D H. unfold train in H. rewrite S, D in H. simpl in H.
  destruct (truthy_str question); simpl in H; unfold bind in H.
  - destruct (ask env SQL_RAN (Some example_question) true true true w)
      as [[e | a] w1]; discriminate H.
  - match type of H with
    | match ?x with _ => _ end = _ => destruct x as [[e | u] w1]
    end; [discriminate H|].
    inversion H. reflexivity.
Qed.

Lemma train_json_file_returns_none_witness :
  (truthy_str None = false /\
   train one_pair_env "SQL Ran Successfully" None None None false
     (Some "pairs.json") None (signed_in "k" "demo")
   = (Return JNull,
      snd (train one_pair_env "SQL Ran Successfully" None None None false
             (Some "pairs.json") None (signed_in "k" "demo")))) /\
  (requests
     (trace (snd (train one_pair_env "SQL Ran Successfully" None None None
                    false (Some "pairs.json") None (signed_in "k" "demo"))))
   = [authenticated "store_sql"] /\
   fst (add_sql one_pair_env (JStr "How many?") (JStr "SELECT 1")
          Manually_Trained (signed_in "k" "demo")) = Return (JBool true)) /\
  JNull = JNull.
Proof.
  split; [split; [reflexivity | vm_compute; reflexivity]|].
  split; [split; vm_compute; reflexivity|].
  apply (train_json_file_returns_none one_pair_env "SQL Ran Successfully"
           None None None false (Some "pairs.json") (signed_in "k" "demo")
           (snd (train one_pair_env "SQL Ran Successfully" None None None false
                   (Some "pairs.json") None (signed_in "k" "demo")))
           JNull).
  - reflexivity.
  - reflexivity.
  - vm_compute. reflexivity.
Defined.

(** ** The connector helpers, when they fail *)

Lemma binds_of_keeps (m : M unit) : keeps_session m -> binds_on_return m.
Proof.
  intros H w. destruct (H w) as [A [O R]]. repeat split; auto.
Qed.

Lemma binds_bind {A} (m : M A) (k : A -> M unit) :
  keeps_session m -> (forall a, binds_on_return (k a)) ->
  binds_on_return (bind m k).
Proof.
  intros Hm Hk w. unfold bind. destruct (Hm w) as [A1 [O1 R1]].
  destruct (m w) as [[e | a] w1]; simpl in *.
  - repeat split; auto.
  - destruct (Hk a w1) as [A2 [O2 R2]].
    repeat split; try congruence. intros H. rewrite (R2 H). exact R1.
Qed.

Lemma binds_set_run_sql (f : RunSql) : binds_on_return (set_run_sql f).
Proof. intro w. simpl. repeat split. intros H. discriminate H. Qed.

Lemma keeps_from_env (env : Env) (value placeholder name msg : string) :
  keeps_session (from_env env value placeholder name msg).
Proof. unfold from_env. frame. Qed.

Lemma keeps_needed (value : option string) (msg : string) :
  keeps_session (needed value msg).
Proof. unfold needed. frame. Qed.

(** X14: a connector helper that raises has changed nothing: the API key
    and the active dataset are never touched, and run_sql is replaced only
    by a helper that returns. *)
Theorem connectors_bind_only_on_return (env : Env) :
  (forall account username password database role,
     binds_on_return
       (connect_to_snowflake env account username password database role)) /\
  (forall cred_file_path project_id,
     binds_on_return (connect_to_bigquery env cred_file_path project_id)) /\
  (forall host dbname user password port,
     binds_on_return (connect_to_postgres env host dbname user password port)).
Proof.
  split; [|split].
  - intros. unfold connect_to_snowflake.
    destruct (negb (has_snowflake env));
      [apply binds_of_keeps; frame|].
    repeat (apply binds_bind; [apply keeps_from_env | intro]).
    apply binds_bind; [frame | intro]. apply binds_set_run_sql.
  - intros. unfold connect_to_bigquery.
    destruct (negb (has_bigquery env));
      [apply binds_of_keeps; frame|].
    destruct (or_env env project_id "PROJECT_ID") as [project|];
      [|apply binds_of_keeps; frame].
    destruct (negb (truthy (JStr project)));
      [apply binds_of_keeps; frame|].
    repeat (apply binds_bind; [frame | intro]). apply binds_set_run_sql.
  - intros. unfold connect_to_postgres.
    destruct (negb (has_psycopg2 env));
      [apply binds_of_keeps; frame|].
    repeat (apply binds_bind; [apply keeps_needed | intro]).
    apply binds_bind.
    { destruct port as [n|]; [destruct (truthy_port (Some n))|]; frame;
        apply keeps_needed. }
    intro pt. apply binds_bind; [frame | intro]. apply binds_set_run_sql.
Qed.

Example connect_to_postgres_refused :
  connect_to_postgres
    {| post := post silent_env; input := input silent_env;
       environ := environ silent_env; to_markdown := to_markdown silent_env;
       display := display silent_env; exec := exec silent_env;
       update_layout := update_layout silent_env; show := show silent_env;
       read_json := read_json silent_env;
       validate_config_path := validate_config_path silent_env;
       load_json := load_json silent_env;
       sql_statements := sql_statements silent_env;
       has_snowflake := true; has_bigquery := true; has_psycopg2 := true;
       snowflake_connect := snowflake_connect silent_env;
       service_account_credentials := service_account_credentials silent_env;
       bigquery_Client := bigquery_Client silent_env;
       psycopg2_connect :=
         fun _ _ _ _ _ _ => Raise (Psycopg2Error "connection refused");
       cursor := cursor silent_env; execute := execute silent_env;
       query := query silent_env; pd_DataFrame := pd_DataFrame silent_env;
       py_str := py_str silent_env;
       py_str_answer := py_str_answer silent_env |}
    (Some "db.local") (Some "shop") (Some "me") (Some "secret") (Some 5432%Z)
    asking
  = (Raise (ValidationErrorOf (Psycopg2Error "connection refused")),
     {| api_key := api_key asking; org := org asking;
        run_sql := run_sql asking;
        trace := [EvPsycopg2Connect "db.local" "shop" "me" "secret"
                    (PortInt 5432)] |}).
Proof. reflexivity. Qed.

(** ** The closures, and the exceptions they never raise *)

Lemma messages_of_raises (errs : list json) (e : exn) :
  messages_of errs = Raise e -> is_GoogleAPIError e = false.
Proof.
  induction errs as [|x rest IH]; simpl; [discriminate|].
  destruct (py_getitem x "message") as [ex | m] eqn:G.
  - intros H. inversion H; subst.
    destruct x; simpl in G; try (inversion G; reflexivity).
    destruct (assoc "message" fields); inversion G. reflexivity.
  - destruct (messages_of rest) as [ex | ms]; [|discriminate].
    intros H. inversion H; subst. apply IH. reflexivity.
Qed.

(** X15: the bigquery closure never raises a GoogleAPIError and the
    postgres closure never raises a psycopg2 error: whatever the driver
    raises of these classes reaches the caller as another exception.  A
    GoogleAPIError of the query makes the bigquery closure raise, and what
    it raises is no GoogleAPIError; a psycopg2 error of the cursor, of the
    execution or of the fetch makes the postgres closure raise a
    ValidationError around it. *)
Theorem closures_never_raise_driver_class (env : Env) (conn : option Conn)
  (sql : json) (w : World) (e : exn) :
  (fst (apply_run_sql env (run_sql_bigquery conn) sql w) = Raise e ->
   is_GoogleAPIError e = false) /\
  (fst (apply_run_sql env (run_sql_postgres conn) sql w) = Raise e ->
   is_psycopg2_Error e = false) /\
  (forall c x,
     query env (trace w) c sql = Raise x ->
     is_GoogleAPIError x = true ->
     exists e',
       fst (apply_run_sql env (run_sql_bigquery (Some c)) sql w) = Raise e' /\
       is_GoogleAPIError e' = false) /\
  (forall c x,
     is_psycopg2_Error x = true ->
     (cursor env (trace w) c = Raise x \/
      exists cs,
        cursor env (trace w) c = Return cs /\
        (execute env (EvCursor c :: trace w) cs sql = Raise x \/
         exists cur,
           execute env (EvCursor c :: trace w) cs sql = Return cur /\
           fetchall cur = Raise x)) ->
     fst (apply_run_sql env (run_sql_postgres (Some c)) sql w)
     = Raise (ValidationErrorOf x)).
Proof.
  split; [|split; [|split]].
  - intros H; destruct conn as [c|]; try discriminate H.
    cbv beta iota zeta delta
      [apply_run_sql bind ret raise lift call log try_class] in H.
    simpl in H.
    destruct (query env (trace w) c sql) as [x | df]; [|discriminate H].
    destruct (is_GoogleAPIError x) eqn:G; simpl in H.
    + destruct x; try discriminate G.
      destruct errors as [errs|]; simpl in H.
      * destruct (messages_of errs) as [y | ms] eqn:Ms; simpl in H;
          inversion H; subst; [|reflexivity].
        apply (messages_of_raises errs). exact Ms.
      * inversion H. reflexivity.
    + inversion H; subst. exact G.
  - intros H; destruct conn as [c|]; try discriminate H.
    unfold apply_run_sql, try_class in H.
    match type of H with
    | fst (match ?body with _ => _ end) = _ =>
        destruct body as [[x | df] w1]
    end; [|discriminate H].
    destruct (is_psycopg2_Error x) eqn:P; simpl in H;
      inversion H; subst; [reflexivity | exact P].
  - intros c x Q G.
    cbv beta iota zeta delta
      [apply_run_sql bind ret raise lift call log try_class].
    simpl. rewrite Q. simpl. rewrite G.
    destruct x; try discriminate G.
    destruct errors as [errs|]; simpl.
    + destruct (messages_of errs) as [y | ms] eqn:Ms; simpl.
      * exists y. split; [reflexivity|].
        apply (messages_of_raises errs). exact Ms.
      * eexists. split; reflexivity.
    + eexists. split; reflexivity.
  - intros c x P D.
    cbv beta iota zeta delta
      [apply_run_sql frame_of bind ret raise lift call log try_class].
    simpl.
    destruct D as [C | [cs [C [X | [cur [X F]]]]]]; rewrite C; simpl.
    + rewrite P. reflexivity.
    + rewrite X. simpl. rewrite P. reflexivity.
    + rewrite X. simpl. rewrite F. simpl. rewrite P. reflexivity.
Qed.

Lemma closures_never_raise_driver_class_witness :
  (fst (apply_run_sql rejecting_env (run_sql_bigquery (Some 3)) (JStr "SELEC 1")
          initial)
   = Raise (TypeError "exceptions must derive from BaseException") /\
   is_GoogleAPIError (TypeError "exceptions must derive from BaseException")
   = false) /\
  ((query rejecting_env (trace initial) 3 (JStr "SELEC 1")
    = Raise (GoogleAPIError (Some [JObj [("message", JStr "syntax error")]])) /\
    is_GoogleAPIError
      (GoogleAPIError (Some [JObj [("message", JStr "syntax error")]])) = true) /\
   exists e',
     fst (apply_run_sql rejecting_env (run_sql_bigquery (Some 3))
            (JStr "SELEC 1") initial) = Raise e' /\
     is_GoogleAPIError e' = false) /\
  (is_psycopg2_Error (Psycopg2Error "syntax error") = true /\
   execute rejecting_env (EvCursor 4 :: trace initial) 5 (JStr "SELEC 1")
   = Raise (Psycopg2Error "syntax error")) /\
  fst (apply_run_sql rejecting_env (run_sql_postgres (Some 4)) (JStr "SELEC 1")
         initial)
  = Raise (ValidationErrorOf (Psycopg2Error "syntax error")).
Proof.
  split; [|split; [|split]].
  - split; [reflexivity|].
    apply (proj1 (closures_never_raise_driver_class rejecting_env (Some 3)
                    (JStr "SELEC 1") initial
                    (TypeError "exceptions must derive from BaseException"))).
    reflexivity.
  - split; [split; reflexivity|].
    apply (proj1 (proj2 (proj2
             (closures_never_raise_driver_class rejecting_env None
                (JStr "SELEC 1") initial (Exception EmptyString)))) 3
             (GoogleAPIError (Some [JObj [("message", JStr "syntax error")]])));
      reflexivity.
  - split; reflexivity.
  - apply (proj2 (proj2 (proj2
             (closures_never_raise_driver_class rejecting_env None
                (JStr "SELEC 1") initial (Exception EmptyString)))) 4
             (Psycopg2Error "syntax error")); [reflexivity|].
    right. exists 5. split; [reflexivity|]. left. reflexivity.
Defined.

(** ** The rows that leave the machine *)

(** X16: the chart code and the follow-up questions are generated from the
    first five rows of the frame only: two frames with the same head give
    the same requests and the same results. *)
Theorem generators_read_the_head (env : Env) (question sql : json)
  (df df' : DataFrame) (w : World) :
  head df = head df' ->
  generate_plotly_code env question sql (Some df) w
  = generate_plotly_code env question sql (Some df') w /\
  generate_followup_questions env question (Some df) w
  = generate_followup_questions env question (Some df') w.
Proof.
  intros H. unfold generate_plotly_code, generate_followup_questions,
              head_markdown.
  rewrite H. split; reflexivity.
Qed.

Lemma generators_read_the_head_witness :
  head (six_rows 6) = head (six_rows 7) /\
  generate_plotly_code steady_env (JStr "How many?") (JStr "SELECT 1")
    (Some (six_rows 6)) (signed_in "k" "demo")
  = generate_plotly_code steady_env (JStr "How many?") (JStr "SELECT 1")
      (Some (six_rows 7)) (signed_in "k" "demo").
Proof.
  split; [reflexivity|].
  apply (proj1 (generators_read_the_head steady_env (JStr "How many?")
                  (JStr "SELECT 1") (six_rows 6) (six_rows 7)
                  (signed_in "k" "demo") eq_refl)).
Defined.

(** ** Setting the dataset *)

Lemma after_bind {A} (env : Env) (name : string) (w : World) (m : M A)
  (k : A -> M unit) :
  keeps_session m ->
  (forall a w1, dataset_set_or_declined env name w1 (k a w1)) ->
  dataset_set_or_declined env name w (bind m k w).
Proof.
  intros Hm Hk. unfold bind. destruct (Hm w) as [A1 [O1 R1]].
  destruct (m w) as [[e | a] w1]; simpl in *.
  - repeat split; auto; try (intros H; discriminate H).
  - destruct (Hk a w1) as [A2 [R2 [N2 E2]]].
    repeat split; try congruence.
    + intros H. rewrite <- O1. apply N2. exact H.
    + intros H. rewrite <- O1. apply E2. exact H.
Qed.

Lemma after_prompt (env : Env) (name : string) (w : World) (p : string)
  (k : string -> M unit) :
  (forall create w1 tr,
     trace w1 = EvInput p :: tr ->
     input env tr p = Return create ->
     dataset_set_or_declined env name w1 (k create w1)) ->
  dataset_set_or_declined env name w
    (bind (call (EvInput p) (fun tr => input env tr p)) k w).
Proof.
  intros Hk. unfold bind, call.
  destruct (input env (trace w) p) as [e | create] eqn:I; simpl.
  - repeat split; auto; try (intros H; discriminate H).
  - destruct (Hk create
                {| api_key := api_key w; org := org w; run_sql := run_sql w;
                   trace := EvInput p :: trace w |} (trace w) eq_refl I)
      as [A2 [R2 [N2 E2]]].
    repeat split; auto.
Qed.

Lemma after_raise (env : Env) (name : string) (w : World) (e : exn) :
  dataset_set_or_declined env name w (@raise unit e w).
Proof. repeat split; auto; try (intros H; discriminate H). Qed.

Lemma after_set (env : Env) (name : string) (w : World) :
  dataset_set_or_declined env name w (set_org_global (Some name) w).
Proof. repeat split; simpl; auto; try (intros H; discriminate H). Qed.

Lemma create_dataset_session (env : Env) (dataset db_type : string)
  (w : World) :
  api_key (snd (create_dataset env dataset db_type w)) = api_key w /\
  run_sql (snd (create_dataset env dataset db_type w)) = run_sql w /\
  (raised (fst (create_dataset env dataset db_type w)) = true ->
   org (snd (create_dataset env dataset db_type w)) = org w \/
   org (snd (create_dataset env dataset db_type w)) = Some "demo-tpc-h").
Proof.
  destruct w as [k o rs t].
  cbv beta iota zeta delta
    [create_dataset __rpc_call bind get_api_key_global get_org call when
     set_org_global ret raise result_missing result_of lift init log].
  simpl.
  destruct k as [key|]; destruct o as [o|]; simpl; auto.
  all: destruct (post env t _) as [e | d]; simpl; auto.
  all: destruct (py_in "result" d) as [e | has]; simpl; auto.
  all: destruct has; simpl; [|repeat split; intros H; discriminate H].
  all: destruct (py_getitem d "result") as [e | v]; simpl; auto.
  all: destruct (construct Status_ v) as [e | status]; simpl; auto.
  all: destruct (truthy (success status)); simpl; repeat split;
    intros H; discriminate H.
Qed.

(** X17: what setting a dataset can do to the session.  The API key and
    run_sql are never changed.  When _set_org returns, the active dataset
    is the requested one or, if the user has just been asked whether to
    create it and answered something other than y, still the old one, so a
    normal return does not mean the dataset is set.  When it raises, the
    active dataset is the old one, or none (after a failed creation), or
    'demo-tpc-h'.  When the user belongs to the dataset, it becomes the
    active one after the single list_orgs request.  When the user does not
    belong to it and check_org_exists reports the name taken, _set_org
    raises a ValidationError and the dataset stays. *)
Theorem set_dataset_outcomes (env : Env) (name : string) (w : World) :
  dataset_set_or_declined env name w (_set_org env name w) /\
  (String.eqb name "my-dataset" = false ->
   dataset_set_or_declined env name w (set_dataset env name w)) /\
  (forall my_orgs w1,
     get_datasets env w = (Return my_orgs, w1) ->
     py_in name my_orgs = Return true ->
     _set_org env name w = (Return tt, with_org (Some name) w1)) /\
  (forall my_orgs w1 d v status,
     get_datasets env w = (Return my_orgs, w1) ->
     py_in name my_orgs = Return false ->
     post env (trace w1)
       (unauthenticated_request "check_org_exists"
          [Organization (JStr name) JNull JNull]) = Return d ->
     py_in "result" d = Return true ->
     py_getitem d "result" = Return v ->
     construct Status_ v = Return status ->
     truthy (success status) = true ->
     fst (_set_org env name w)
     = Raise (ValidationError
                ("An organization with the name " ++ name ++ " already exists"))
     /\ org (snd (_set_org env name w)) = org w1).
Proof.
  assert (S : forall w0,
             dataset_set_or_declined env name w0 (_set_org env name w0)).
  { intro w0. unfold _set_org.
    apply after_bind; [apply keeps_get_datasets|]. intros my_orgs w1.
    apply after_bind; [frame|]. intros member w2.
    destruct (negb member); [|apply after_set].
    apply after_bind; [frame|]. intros d w3.
    apply after_bind; [frame|]. intros missing w4.
    destruct missing; [apply after_raise|].
    apply after_bind; [frame|]. intros r w5.
    apply after_bind; [frame|]. intros status w6.
    destruct (truthy (success status)); [apply after_raise|].
    apply (after_prompt env name w6 (create_prompt name)).
    intros create w7 tr T I.
    destruct (String.eqb create "y" || String.eqb create "Y") eqn:Y.
    2: { repeat split; simpl; auto; try (intros H; discriminate H).
         intros _. right. split; [reflexivity|].
         exists tr, create. repeat split; assumption. }
    apply after_bind; [frame|]. intros db_type w8.
    unfold bind at 1.
    destruct (create_dataset_session env name db_type w8) as [A [R E]].
    destruct (create_dataset env name db_type w8) as [[e | created] w9];
      simpl in *.
    - repeat split; auto; try (intros H; discriminate H);
        try (intros _; destruct (E eq_refl) as [H | H]; auto).
    - destruct (truthy created); simpl.
      + repeat split; auto; try (intros H; discriminate H).
      + repeat split; auto; try (intros H; discriminate H). }
  split; [apply S|]. split; [|split].
  - intros N. unfold set_dataset. rewrite N. apply S.
  - intros my_orgs w1 G P. unfold _set_org. unfold bind at 1. rewrite G.
    unfold bind, lift. rewrite P. reflexivity.
  - intros my_orgs w1 d v status G P C I V B T.
    unfold unauthenticated_request in C.
    unfold _set_org. cbv beta iota zeta delta [bind]. rewrite G.
    cbv beta iota zeta delta
      [__unauthenticated_rpc_call bind call ret raise result_missing
       result_of lift init log].
    simpl. rewrite P. simpl. rewrite C. simpl. rewrite I. simpl.
    rewrite V. simpl. rewrite B. simpl. rewrite T. simpl.
    split; reflexivity.
Qed.

Lemma set_dataset_outcomes_witness :
  (get_datasets member_env (signed_in "k" "demo")
   = (Return (JList [JStr "sales"]),
      snd (get_datasets member_env (signed_in "k" "demo"))) /\
   py_in "sales" (JList [JStr "sales"]) = Return true /\
   _set_org member_env "sales" (signed_in "k" "demo")
   = (Return tt,
      with_org (Some "sales")
        (snd (get_datasets member_env (signed_in "k" "demo"))))) /\
  (raised (fst (_set_org declining_env "sales" (signed_in "k" "demo"))) = false /\
   (org (snd (_set_org declining_env "sales" (signed_in "k" "demo")))
    = Some "sales" \/
    org (snd (_set_org declining_env "sales" (signed_in "k" "demo")))
    = org (signed_in "k" "demo") /\
    declined declining_env "sales"
      (snd (_set_org declining_env "sales" (signed_in "k" "demo"))))) /\
  (py_in "sales" (JList []) = Return false /\
   truthy (success [JBool true; JNull]) = true /\
   fst (_set_org taken_env "sales" (signed_in "k" "demo"))
   = Raise (ValidationError
              ("An organization with the name " ++ "sales" ++ " already exists"))
   /\ org (snd (_set_org taken_env "sales" (signed_in "k" "demo")))
      = Some "demo").
Proof.
  split; [|split].
  - split; [vm_compute; reflexivity|]. split; [reflexivity|].
    apply (proj1 (proj2 (proj2 (set_dataset_outcomes member_env "sales"
                                  (signed_in "k" "demo"))))
             (JList [JStr "sales"])
             (snd (get_datasets member_env (signed_in "k" "demo")))).
    + vm_compute. reflexivity.
    + reflexivity.
  - split; [reflexivity|].
    apply (proj1 (proj2 (proj2 (proj1
             (set_dataset_outcomes declining_env "sales"
                (signed_in "k" "demo")))))).
    reflexivity.
  - split; [reflexivity|]. split; [reflexivity|].
    apply (proj2 (proj2 (proj2 (set_dataset_outcomes taken_env "sales"
                                  (signed_in "k" "demo"))))
             (JList [])
             (snd (get_datasets taken_env (signed_in "k" "demo")))
             (JObj [("result",
                     JObj [("success", JBool true); ("message", JNull)])])
             (JObj [("success", JBool true); ("message", JNull)])
             [JBool true; JNull]);
      vm_compute; reflexivity.
Defined.

Example set_dataset_declined :
  let r := set_dataset declining_env "sales" (signed_in "k" "demo") in
  fst r = Return tt /\ org (snd r) = Some "demo" /\
  rev (requests (trace (snd r)))
  = [authenticated "list_orgs"; unauthenticated "check_org_exists"].
Proof. vm_compute. repeat split. Qed.

(** ** One operation after another *)

(** X18: the session operations take effect on the requests that follow.
    After set_api_key, whatever its outcome, a request of the authenticated
    transport carries the new key; after create_dataset returned a true
    value, a request for a method other than list_orgs names the new
    dataset. *)
Theorem session_changes_reach_requests (env : Env) (w : World)
  (method : string) (params : list param) :
  (forall key,
     new_requests (fun req => header "Vanna-Key" (headers req) = Some key)
       (__rpc_call env method params) (snd (set_api_key env key w))) /\
  (forall dataset db_type,
     reports_success (fst (create_dataset env dataset db_type w)) = true ->
     String.eqb method "list_orgs" = false ->
     new_requests (fun req => header "Vanna-Org" (headers req) = Some dataset)
       (__rpc_call env method params)
       (snd (create_dataset env dataset db_type w))).
Proof.
  assert (R : forall w0 key o,
             api_key w0 = Some key ->
             (String.eqb method "list_orgs" = false -> org w0 = Some o) ->
             new_requests
               (fun req =>
                  header "Vanna-Key" (headers req) = Some key /\
                  (String.eqb method "list_orgs" = false ->
                   header "Vanna-Org" (headers req) = Some o))
               (__rpc_call env method params) w0).
  { intros w0 key o K O req. destruct w0 as [k0 o0 rs t]. simpl in K, O.
    subst k0.
    cbv beta iota zeta delta
      [__rpc_call bind get_api_key_global get_org call raise].
    simpl.
    destruct (String.eqb method "list_orgs") eqn:L.
    - destruct o0; simpl; intros [H | H]; auto;
        inversion H; subst; right; (split; [reflexivity | discriminate]).
    - rewrite (O eq_refl). simpl. intros [H | H]; auto.
      inversion H; subst. right. split; reflexivity. }
  split.
  - intros key req H.
    assert (K : api_key (snd (set_api_key env key w)) = Some key).
    { unfold set_api_key, bind, set_api_key_global.
      fold (with_api_key (Some key) w).
      pose proof (keeps_get_datasets env (with_api_key (Some key) w))
        as [K _].
      destruct (get_datasets env (with_api_key (Some key) w))
        as [[e | ds] w1]; simpl in *; [exact K|].
      unfold lift. destruct (py_len ds) as [e | n]; simpl; [exact K|].
      destruct (Nat.eqb n 0); exact K. }
    destruct (String.eqb method "list_orgs") eqn:L.
    + destruct (R _ key EmptyString K ltac:(discriminate) req H) as [I | [I _]];
        auto.
    + destruct (org (snd (set_api_key env key w))) as [o|] eqn:O.
      * destruct (R _ key o K ltac:(intros _; exact O) req H) as [I | [I _]];
          auto.
      * left. revert H. unfold __rpc_call, bind, get_api_key_global, get_org,
                          raise.
        rewrite K, O, L. simpl. auto.
  - intros dataset db_type S L req H.
    assert (O : org (snd (create_dataset env dataset db_type w)) = Some dataset).
    { revert S. destruct w as [k o rs t].
      cbv beta iota zeta delta
        [create_dataset __rpc_call bind get_api_key_global get_org call when
         set_org_global ret raise result_missing result_of lift init log
         reports_success].
      simpl.
      destruct k as [key|]; destruct o as [o|]; simpl; try discriminate.
      all: destruct (post env t _) as [e | d]; simpl; try discriminate.
      all: destruct (py_in "result" d) as [e | has]; simpl; try discriminate.
      all: destruct has; simpl; try discriminate.
      all: destruct (py_getitem d "result") as [e | v]; simpl;
        try discriminate.
      all: destruct (construct Status_ v) as [e | status]; simpl;
        try discriminate.
      all: destruct (truthy (success status)) eqn:T; simpl; rewrite ?T;
        try discriminate; reflexivity. }
    destruct (api_key (snd (create_dataset env dataset db_type w)))
      as [key|] eqn:K.
    + destruct (R _ key dataset K ltac:(intros _; exact O) req H)
        as [I | [_ I]]; auto.
    + left. revert H. unfold __rpc_call, bind, get_api_key_global, raise.
      rewrite K. simpl. auto.
Qed.

Lemma session_changes_reach_requests_witness :
  reports_success
    (fst (create_dataset approving_env "sales" "Postgres" (signed_in "k" "demo")))
  = true /\
  String.eqb "store_sql" "list_orgs" = false /\
  new_requests (fun req => header "Vanna-Org" (headers req) = Some "sales")
    (__rpc_call approving_env "store_sql" [])
    (snd (create_dataset approving_env "sales" "Postgres"
            (signed_in "k" "demo"))).
Proof.
  split; [reflexivity|]. split; [reflexivity|].
  apply (proj2 (session_changes_reach_requests approving_env
                  (signed_in "k" "demo") "store_sql" [])
           "sales" "Postgres"); reflexivity.
Defined.

(** ** The prompt of ask *)

(** X19: without a question ask prompts once and goes on with the answer as
    the question; an exception raised by the prompt is not caught and
    leaves ask before any stage is entered. *)
Theorem ask_prompts_for_the_question (env : Env) (SQL_RAN : string)
  (print_results auto_train generate_followups : bool) (w : World) :
  (forall q,
     input env (trace w) "Enter a question: " = Return q ->
     ask env SQL_RAN None print_results auto_train generate_followups w
     = ask env SQL_RAN (Some q) print_results auto_train generate_followups
         {| api_key := api_key w; org := org w; run_sql := run_sql w;
            trace := EvInput "Enter a question: " :: trace w |}) /\
  (forall e,
     input env (trace w) "Enter a question: " = Raise e ->
     ask env SQL_RAN None print_results auto_train generate_followups w
     = (Raise e,
        {| api_key := api_key w; org := org w; run_sql := run_sql w;
           trace := EvInput "Enter a question: " :: trace w |})).
Proof.
  split; intros x I; unfold ask; unfold bind at 1; unfold call; rewrite I.
  - reflexivity.
  - reflexivity.
Qed.

Lemma ask_prompts_for_the_question_witness :
  input steady_env (trace asking) "Enter a question: " = Return "y" /\
  ask steady_env "SQL Ran Successfully" None true true true asking
  = ask steady_env "SQL Ran Successfully" (Some "y") true true true
      {| api_key := api_key asking; org := org asking;
         run_sql := run_sql asking;
         trace := EvInput "Enter a question: " :: trace asking |}.
Proof.
  split; [reflexivity|].
  apply (proj1 (ask_prompts_for_the_question steady_env "SQL Ran Successfully"
                  true true true asking) "y").
  reflexivity.
Defined.

(** ** Arguments and environment variables *)

(** X20: the connector helpers read the environment only for what was not
    passed.  With every argument of connect_to_postgres given (and a port
    other than 0), with no placeholder among the arguments of
    connect_to_snowflake, and with a project id given to
    connect_to_bigquery, the environment variables make no difference to
    what the helper does. *)
Theorem connectors_prefer_arguments (env : Env)
  (variables variables' : string -> option string) (w : World) :
  (forall host dbname user password port,
     truthy (JStr host) = true -> truthy (JStr dbname) = true ->
     truthy (JStr user) = true -> truthy (JStr password) = true ->
     port <> 0%Z ->
     connect_to_postgres (with_environ env variables) (Some host) (Some dbname)
       (Some user) (Some password) (Some port) w
     = connect_to_postgres (with_environ env variables') (Some host)
         (Some dbname) (Some user) (Some password) (Some port) w) /\
  (forall account username password database role,
     String.eqb username "my-username" = false ->
     String.eqb password "my-password" = false ->
     String.eqb account "my-account" = false ->
     String.eqb database "my-database" = false ->
     connect_to_snowflake (with_environ env variables) account username
       password database role w
     = connect_to_snowflake (with_environ env variables') account username
         password database role w) /\
  (forall cred_file_path project_id,
     truthy (JStr project_id) = true ->
     connect_to_bigquery (with_environ env variables) cred_file_path
       (Some project_id) w
     = connect_to_bigquery (with_environ env variables') cred_file_path
         (Some project_id) w).
Proof.
  split; [|split].
  - intros host dbname user password port H D U P N.
    apply Z.eqb_neq in N.
    unfold connect_to_postgres, or_env, truthy_str, needed, truthy_port.
    cbv beta iota delta [opt_json]. rewrite H, D, U, P, N. reflexivity.
  - intros account username password database role U P A D.
    unfold connect_to_snowflake, from_env. rewrite U, P, A, D. reflexivity.
  - intros cred_file_path project_id P.
    unfold connect_to_bigquery, or_env, truthy_str. cbv beta iota delta [opt_json].
    rewrite P. reflexivity.
Qed.

Lemma connectors_prefer_arguments_witness :
  truthy (JStr "proj") = true /\
  connect_to_bigquery (with_environ silent_env (environ silent_env)) "cred.json"
    (Some "proj") initial
  = connect_to_bigquery (with_environ silent_env other_variables) "cred.json"
      (Some "proj") initial.
Proof.
  split; [reflexivity|].
  apply (proj2 (proj2 (connectors_prefer_arguments silent_env
                         (environ silent_env) other_variables initial))
           "cred.json" "proj").
  reflexivity.
Defined.
